(** * BPa-pilot: the conversation engine of the car-import sales agent

    A shallow embedding of [pilot/backend/agent.py] and
    [pilot/backend/errors.py]: the budget normaliser, the slot merge, the
    stage and lead-tier classifier, the retry decorator, the error context
    and the turn coordinator, followed by the properties the specification
    states about them.

    Python values are dynamically typed, so the embedding keeps a universe
    of values ([pyval]) and makes every operation that Python can fail on
    return an exception.  Text is a list of Unicode code points, numbers
    are unbounded integers or binary64 floats, dictionaries are finite maps
    and the one dictionary that several names refer to lives in a heap. *)

From Stdlib Require Import ZArith NArith Bool List String Ascii Lia.
From Stdlib Require Import SpecFloat.
From stdpp Require Import base option list gmap strings.

Local Open Scope Z_scope.

(** ** Text *)

Module Text.

(** A Python [str]: the sequence of its code points. *)
Definition pystr : Type := list N.

(** Source literals are written as UTF-8 string literals and decoded. *)
Fixpoint utf8 (bs : list N) : pystr :=
  match bs with
  | [] => []
  | b0 :: t =>
      if (b0 <? 128)%N then b0 :: utf8 t
      else if (b0 <? 224)%N then
        match t with
        | b1 :: t1 => ((b0 - 192) * 64 + (b1 - 128))%N :: utf8 t1
        | _ => []
        end
      else if (b0 <? 240)%N then
        match t with
        | b1 :: b2 :: t2 =>
            ((b0 - 224) * 4096 + (b1 - 128) * 64 + (b2 - 128))%N :: utf8 t2
        | _ => []
        end
      else
        match t with
        | b1 :: b2 :: b3 :: t3 =>
            ((b0 - 240) * 262144 + (b1 - 128) * 4096
             + (b2 - 128) * 64 + (b3 - 128))%N :: utf8 t3
        | _ => []
        end
  end.

Fixpoint bytes_of (s : string) : list N :=
  match s with
  | EmptyString => []
  | String a r => N_of_ascii a :: bytes_of r
  end.

Definition u (s : string) : pystr := utf8 (bytes_of s).

Definition str_eqb (a b : pystr) : bool := bool_decide (a = b).

(** [a + b] on strings. *)
Definition concat (a b : pystr) : pystr := a ++ b.

(** [str.isspace] of one character, the table of CPython's
    [_PyUnicode_IsWhitespace]. *)
Definition is_space (c : N) : bool :=
  ((9 <=? c) && (c <=? 13) || (28 <=? c) && (c <=? 32)
   || (c =? 133) || (c =? 160) || (c =? 5760)
   || (8192 <=? c) && (c <=? 8202)
   || (c =? 8232) || (c =? 8233) || (c =? 8239) || (c =? 8287)
   || (c =? 12288))%N.

Fixpoint lstrip (s : pystr) : pystr :=
  match s with
  | c :: r => if is_space c then lstrip r else s
  | [] => []
  end.

Definition rstrip (s : pystr) : pystr := rev (lstrip (rev s)).

(** [s.strip()] *)
Definition strip (s : pystr) : pystr := rstrip (lstrip s).

(** [c.lower()] for one character.  The case table is the one of the
    alphabets the agent's markers are written in, Basic Latin and
    Cyrillic; any other code point is left as it is. *)
Definition lower_char (c : N) : N :=
  (if (65 <=? c) && (c <=? 90) then c + 32
   else if (1040 <=? c) && (c <=? 1071) then c + 32
   else if (1024 <=? c) && (c <=? 1039) then c + 80
   else c)%N.

(** [s.lower()] *)
Definition lower (s : pystr) : pystr := map lower_char s.

(** [s.replace(old, new)] for a one-character [old]. *)
Definition replace_char (old : N) (new : pystr) (s : pystr) : pystr :=
  flat_map (fun c => if (c =? old)%N then new else [c]) s.

Fixpoint starts_with (p s : pystr) : bool :=
  match p, s with
  | [], _ => true
  | a :: p', b :: s' => (a =? b)%N && starts_with p' s'
  | _ :: _, [] => false
  end.

(** [p in s]: [p] occurs in [s] as a substring. *)
Fixpoint contains (p s : pystr) : bool :=
  starts_with p s ||
  match s with
  | [] => false
  | _ :: s' => contains p s'
  end.

(** [s[:n]] *)
Definition prefix (n : nat) (s : pystr) : pystr := firstn n s.

(** A decimal digit as the pattern [\d] sees it in a text of Basic Latin
    and Cyrillic characters, where the ASCII digits are the only decimal
    digits.  The decimal digits of other scripts, which [\d] and [float]
    take as well, are not modelled: what is stated for arbitrary texts is
    stated for texts of these two alphabets. *)
Definition is_digit (c : N) : bool := ((48 <=? c) && (c <=? 57))%N.

Definition digit_value (c : N) : Z := Z.of_N (c - 48).

End Text.

Export Text.

(** ** Exceptions ([errors.py], and those the interpreter raises) *)

(** The classes imported from the [openai] package. *)
Inductive openai_error :=
  | RateLimitError
  | APIConnectionError
  | APITimeoutError
  | AuthenticationError
  | APIError.

(** The [openai] package declares [APITimeoutError] a subclass of
    [APIConnectionError], and every class a subclass of [APIError]. *)
Definition openai_subclass (c base : openai_error) : bool :=
  match base, c with
  | APIError, _ => true
  | APIConnectionError, (APIConnectionError | APITimeoutError) => true
  | RateLimitError, RateLimitError => true
  | APITimeoutError, APITimeoutError => true
  | AuthenticationError, AuthenticationError => true
  | _, _ => false
  end.

(** Exceptions that are not the agent's own: the [openai] ones, the
    built-in ones the modelled code can meet, and any other subclass of
    [Exception]. *)
Inductive exc_class :=
  | OpenAI (c : openai_error)
  | JSONDecodeError
  | AttributeError
  | TypeError
  | ValueError
  | OverflowError
  | IndexError
  | OtherException.

(** [AIServiceError] and its subclasses. *)
Inductive ai_class :=
  | AIServiceError
  | RateLimitExceeded
  | AIConnectionError
  | AITimeoutError
  | AIAuthError
  | DatabaseError.

Record ai_error := {
  ai_kind : ai_class;
  message : pystr;
  user_message : pystr;
  recoverable : bool;
}.

(** A raised exception; [Exc c msg] has [str(e) = msg]. *)
Inductive pyexn :=
  | Exc (c : exc_class) (msg : pystr)
  | AIError (e : ai_error).

(** [str(e)] *)
Definition exn_str (e : pyexn) : pystr :=
  match e with
  | Exc _ msg => msg
  | AIError a => message a
  end.

(** [isinstance(e, <openai class>)] *)
Definition isinstance_openai (e : pyexn) (base : openai_error) : bool :=
  match e with
  | Exc (OpenAI c) _ => openai_subclass c base
  | _ => false
  end.

(** The outcome of an expression that may raise. *)
Inductive result (A : Type) :=
  | Ok (a : A)
  | Raise (e : pyexn).
Arguments Ok {A} a.
Arguments Raise {A} e.

Definition rbind {A B} (r : result A) (k : A -> result B) : result B :=
  match r with
  | Ok a => k a
  | Raise e => Raise e
  end.

#[global] Instance result_ret : MRet result := @Ok.
#[global] Instance result_bind : MBind result := fun A B k r => rbind r k.
#[global] Instance result_fmap : FMap result :=
  fun A B f r => rbind r (fun a => Ok (f a)).

(** ** Floats: IEEE 754 binary64, as CPython's [float] *)

Module Float.

Definition float : Type := spec_float.
Definition prec : Z := 53.
Definition emax : Z := 1024.

(** An integer as an unrounded float operand. *)
Definition raw (z : Z) : float :=
  match z with
  | Z0 => S754_zero false
  | Zpos p => S754_finite false p 0
  | Zneg p => S754_finite true p 0
  end.

(** [float(z)] for an [int]: the nearest float, or [OverflowError]. *)
Definition of_int (z : Z) : result float :=
  match binary_normalize prec emax z 0 false with
  | S754_infinity _ =>
      Raise (Exc OverflowError (u "int too large to convert to float"))
  | f => Ok f
  end.

(** The float nearest to [m / 10^k]: what [float] makes of a decimal
    numeral with digits [m] of which [k] follow the point. *)
Definition of_decimal (m : Z) (k : nat) : float :=
  SFdiv prec emax (raw m) (raw (10 ^ Z.of_nat k)).

Definition mul (x y : float) : float := SFmul prec emax x y.

(** [x * z] with [z] an [int]: the integer is converted first. *)
Definition mul_int (x : float) (z : Z) : result float :=
  y ← of_int z; Ok (mul x y).

(** [x < y] on floats. *)
Definition ltb (x y : float) : bool := SFltb x y.

(** Exact comparison of a float with an [int], as CPython compares mixed
    operands; [None] for a NaN. *)
Definition compare_int (x : float) (z : Z) : option comparison :=
  match x with
  | S754_nan => None
  | S754_infinity s => Some (if s then Lt else Gt)
  | S754_zero _ => Some (0 ?= z)
  | S754_finite s m e =>
      let v := if s then Zneg m else Zpos m in
      Some (if 0 <=? e then (v * 2 ^ e ?= z) else (v ?= z * 2 ^ (- e)))
  end.

Definition lt_int (x : float) (z : Z) : bool :=
  match compare_int x z with Some Lt => true | _ => false end.

Definition ge_int (x : float) (z : Z) : bool :=
  match compare_int x z with Some (Gt | Eq) => true | _ => false end.

(** [int(x)]: truncation towards zero. *)
Definition trunc (x : float) : result Z :=
  match x with
  | S754_nan => Raise (Exc ValueError (u "cannot convert float NaN to integer"))
  | S754_infinity _ =>
      Raise (Exc OverflowError (u "cannot convert float infinity to integer"))
  | S754_zero _ => Ok 0
  | S754_finite s m e =>
      let a := if 0 <=? e then Zpos m * 2 ^ e else Zpos m / 2 ^ (- e) in
      Ok (if s then - a else a)
  end.

(** [bool(x)] *)
Definition nonzero (x : float) : bool :=
  match x with
  | S754_zero _ => false
  | _ => true
  end.

(** Scanning a numeral made of digits and points: the digits read so
    far, how many follow the point (if one was met), how many were read. *)
Fixpoint scan (s : pystr) (m : Z) (frac : option nat) (nd : nat)
  : option (Z * nat * nat) :=
  match s with
  | [] => Some (m, default 0%nat frac, nd)
  | c :: r =>
      if is_digit c then scan r (10 * m + digit_value c) (S <$> frac) (S nd)
      else if (c =? 46)%N then
        match frac with
        | None => scan r m (Some 0%nat) nd
        | Some _ => None
        end
      else None
  end.

(** [float(s)] on the strings the budget pattern yields (digits and
    points): a numeral needs a digit and at most one point. *)
Definition of_str (s : pystr) : result float :=
  match scan s 0 None 0 with
  | Some (m, k, S _) => Ok (of_decimal m k)
  | _ =>
      Raise (Exc ValueError
               (u "could not convert string to float: '" ++ s ++ u "'"))
  end.

End Float.

Abbreviation float := Float.float.

(** ** Values *)

(** The Python values the agent handles: what [json.loads] returns and
    what the database columns hold. *)
#[local] Set Warnings "-register-all".
Inductive pyval :=
  | VNone
  | VBool (b : bool)
  | VInt (z : Z)
  | VFloat (f : float)
  | VStr (s : pystr)
  | VList (l : list pyval)
  | VDict (items : list (string * pyval)).

(** [bool(v)] *)
Definition truthy (v : pyval) : bool :=
  match v with
  | VNone => false
  | VBool b => b
  | VInt z => negb (z =? 0)
  | VFloat f => Float.nonzero f
  | VStr s => match s with [] => false | _ => true end
  | VList l => match l with [] => false | _ => true end
  | VDict l => match l with [] => false | _ => true end
  end.

(** [v is None] *)
Definition is_none (v : pyval) : bool :=
  match v with
  | VNone => true
  | _ => false
  end.

(** [type(v).__name__] *)
Definition type_name (v : pyval) : pystr :=
  match v with
  | VNone => u "NoneType"
  | VBool _ => u "bool"
  | VInt _ => u "int"
  | VFloat _ => u "float"
  | VStr _ => u "str"
  | VList _ => u "list"
  | VDict _ => u "dict"
  end.

(** [a or b] *)
Definition py_or (a b : pyval) : pyval := if truthy a then a else b.

(** A dictionary with string keys, [d.get(k)] and [d.get(k, dflt)]. *)
Abbreviation pydict := (gmap string pyval).

Definition get (d : pydict) (k : string) : pyval := default VNone (d !! k).

Definition get_or (d : pydict) (k : string) (dflt : pyval) : pyval :=
  default dflt (d !! k).

(** ** Budget normaliser ([AutoImportAgent._parse_budget]) *)

(** Members of the character class of the pattern [[\d.]+]. *)
Definition in_number_class (c : N) : bool := is_digit c || (c =? 46)%N.

(** [re.findall(r'[\d.]+', s)]: the maximal runs of class members, left
    to right; [run] is the run being read, in reverse. *)
Fixpoint findall_numbers (s : pystr) (run : pystr) : list pystr :=
  match s with
  | [] => match run with [] => [] | _ => [rev run] end
  | c :: r =>
      if in_number_class c then findall_numbers r (c :: run)
      else
        match run with
        | [] => findall_numbers r []
        | _ => rev run :: findall_numbers r []
        end
  end.

Definition mln : pystr := Eval vm_compute in u "млн".
Definition million : pystr := Eval vm_compute in u "миллион".
Definition tys : pystr := Eval vm_compute in u "тыс".
Definition tysyach : pystr := Eval vm_compute in u "тысяч".

(** The result is an [int] or [None]. *)
Definition _parse_budget (value : pyval) : result (option Z) :=
  match value with
  | VInt z => Ok (Some z)
  | VBool b => Ok (Some (if b then 1 else 0))
  | VFloat f => z ← Float.trunc f; Ok (Some z)
  | VStr s =>
      let value := replace_char 44 (u ".") (replace_char 32 [] (lower s)) in
      match findall_numbers value [] with
      | [] => Ok None
      | n0 :: _ =>
          num ← Float.of_str n0;
          if contains mln value || contains million value then
            x ← Float.mul_int num 1000000;
            z ← Float.trunc x; Ok (Some z)
          else if contains tys value || contains tysyach value then
            x ← Float.mul_int num 1000;
            z ← Float.trunc x; Ok (Some z)
          else if Float.lt_int num 100 then
            x ← Float.mul_int num 1000000;
            z ← Float.trunc x; Ok (Some z)
          else
            z ← Float.trunc num; Ok (Some z)
      end
  | _ => Ok None
  end.

(** ** Error taxonomy and error context ([errors.py]) *)

Definition RateLimitExceeded_ : ai_error :=
  {| ai_kind := RateLimitExceeded;
     message := u "OpenAI rate limit exceeded";
     user_message := u "Сервис временно перегружен. Пожалуйста, подождите несколько секунд и попробуйте снова.";
     recoverable := true |}.

Definition AIConnectionError_ : ai_error :=
  {| ai_kind := AIConnectionError;
     message := u "Failed to connect to OpenAI API";
     user_message := u "Не удалось подключиться к сервису. Проверьте интернет-соединение.";
     recoverable := true |}.

Definition AITimeoutError_ : ai_error :=
  {| ai_kind := AITimeoutError;
     message := u "OpenAI API request timed out";
     user_message := u "Запрос занял слишком много времени. Попробуйте ещё раз.";
     recoverable := true |}.

Definition AIAuthError_ : ai_error :=
  {| ai_kind := AIAuthError;
     message := u "OpenAI API authentication failed";
     user_message := u "Ошибка конфигурации сервиса. Обратитесь к администратору.";
     recoverable := false |}.

(** [FALLBACK_RESPONSES["general"]], which is what
    [get_fallback_response("general")] returns. *)
Definition fallback_general : pystr :=
  u "Извините, возникла техническая ошибка. Пожалуйста, попробуйте ещё раз через несколько секунд. Если проблема повторится — оставьте ваш телефон, и менеджер свяжется с вами.".

Definition handle_openai_error (error : pyexn) : ai_error :=
  if isinstance_openai error RateLimitError then RateLimitExceeded_
  else if isinstance_openai error APIConnectionError then AIConnectionError_
  else if isinstance_openai error APITimeoutError then AITimeoutError_
  else if isinstance_openai error AuthenticationError then AIAuthError_
  else if isinstance_openai error APIError then
    {| ai_kind := AIServiceError;
       message := exn_str error;
       user_message := u "Произошла ошибка при обработке запроса. Попробуйте ещё раз.";
       recoverable := true |}
  else
    {| ai_kind := AIServiceError;
       message := exn_str error;
       user_message := u "Произошла непредвиденная ошибка. Мы уже работаем над её устранением.";
       recoverable := true |}.

Record ErrorContext := {
  error_count : Z;
  last_error_time : option float;
  consecutive_errors : Z;
}.

Definition ErrorContext_init : ErrorContext :=
  {| error_count := 0; last_error_time := None; consecutive_errors := 0 |}.

(** [record_error], given the reading of [time.time()]. *)
Definition record_error_at (now : float) (c : ErrorContext) : ErrorContext :=
  {| error_count := error_count c + 1;
     last_error_time := Some now;
     consecutive_errors := consecutive_errors c + 1 |}.

Definition record_success_ctx (c : ErrorContext) : ErrorContext :=
  {| error_count := error_count c;
     last_error_time := last_error_time c;
     consecutive_errors := 0 |}.

Definition should_use_fallback_ctx (c : ErrorContext) : bool :=
  3 <=? consecutive_errors c.

(** ** The agent's surroundings *)

(** One entry of [state["messages"]]. *)
Record chat_message := { role : pystr; content : pystr }.

Record tool_call := { tc_name : pystr; tc_args : pyval; tc_id : pystr }.

(** What [ainvoke] returns: the reply's text and the tools it asks for. *)
Record llm_response := { r_content : pystr; r_tool_calls : list tool_call }.

(** A row of the [leads] table, typed as [database.py] declares its
    columns. *)
Record Lead := {
  lead_name : option pystr;
  lead_phone : option pystr;
  lead_car_brand : option pystr;
  lead_car_model : option pystr;
  lead_budget_min : option Z;
  lead_budget_max : option Z;
  lead_country : option pystr;
  lead_timeline : option pystr;
  lead_body_type : option pystr;
  lead_qualification_col : option pystr;
  lead_status_col : option pystr;
}.

(** The attributes [_save_to_db] assigns before it commits. *)
Record lead_update := {
  up_name : pyval;
  up_phone : pyval;
  up_car_brand : pyval;
  up_car_model : pyval;
  up_budget_min : pyval;
  up_budget_max : pyval;
  up_country : pyval;
  up_timeline : pyval;
  up_body_type : pyval;
  up_qualification : pyval;
  up_status : pystr;
}.

(** Everything outside the two modelled files: the language model, the
    JSON parser, the knowledge base, the tools, the clock, the random
    session ids and the database.  The language model is a script: its
    [n]-th call returns or raises what the script says.  The database is
    an abstract state with a lookup and a commit, either of which may
    raise. *)
Class env := {
  DB : Type;
  llm_script : nat -> result llm_response;
  json_loads : pystr -> option pyval;
  get_relevant_knowledge : pystr -> result pystr;
  run_tool : tool_call -> pystr;
  uuid4_str : nat -> pystr;
  time_time : nat -> float;
  db_select_lead : DB -> pystr -> result (option Lead) * DB;
  db_commit : DB -> pystr -> lead_update -> list chat_message -> result unit * DB;
}.

(** A reference to a dictionary object. *)
Definition loc : Type := nat.

Section World.
Context {E : env}.

(** The mutable world of one agent instance: the dictionary objects, how
    far the scripts were consumed, the delays slept, the agent's
    [error_context] and the database. *)
Record world := {
  w_heap : list pydict;
  w_llm_calls : nat;
  w_slept : list float;
  w_uuids : nat;
  w_clock : nat;
  w_errors : ErrorContext;
  w_db : DB;
}.

Definition with_heap (h : list pydict) (w : world) : world :=
  {| w_heap := h; w_llm_calls := w_llm_calls w; w_slept := w_slept w;
     w_uuids := w_uuids w; w_clock := w_clock w; w_errors := w_errors w;
     w_db := w_db w |}.

Definition with_llm_calls (n : nat) (w : world) : world :=
  {| w_heap := w_heap w; w_llm_calls := n; w_slept := w_slept w;
     w_uuids := w_uuids w; w_clock := w_clock w; w_errors := w_errors w;
     w_db := w_db w |}.

Definition with_slept (l : list float) (w : world) : world :=
  {| w_heap := w_heap w; w_llm_calls := w_llm_calls w; w_slept := l;
     w_uuids := w_uuids w; w_clock := w_clock w; w_errors := w_errors w;
     w_db := w_db w |}.

Definition with_uuids (n : nat) (w : world) : world :=
  {| w_heap := w_heap w; w_llm_calls := w_llm_calls w; w_slept := w_slept w;
     w_uuids := n; w_clock := w_clock w; w_errors := w_errors w;
     w_db := w_db w |}.

Definition with_clock (n : nat) (w : world) : world :=
  {| w_heap := w_heap w; w_llm_calls := w_llm_calls w; w_slept := w_slept w;
     w_uuids := w_uuids w; w_clock := n; w_errors := w_errors w;
     w_db := w_db w |}.

Definition with_errors (c : ErrorContext) (w : world) : world :=
  {| w_heap := w_heap w; w_llm_calls := w_llm_calls w; w_slept := w_slept w;
     w_uuids := w_uuids w; w_clock := w_clock w; w_errors := c;
     w_db := w_db w |}.

Definition with_db (d : DB) (w : world) : world :=
  {| w_heap := w_heap w; w_llm_calls := w_llm_calls w; w_slept := w_slept w;
     w_uuids := w_uuids w; w_clock := w_clock w; w_errors := w_errors w;
     w_db := d |}.

(** A computation: it returns or raises, and leaves a world behind in
    both cases (what was mutated before an exception stays mutated). *)
Definition M (A : Type) : Type := world -> result A * world.

Definition ret {A} (a : A) : M A := fun w => (Ok a, w).

Definition raise {A} (e : pyexn) : M A := fun w => (Raise e, w).

Definition bind {A B} (m : M A) (k : A -> M B) : M B :=
  fun w =>
    match m w with
    | (Ok a, w') => k a w'
    | (Raise e, w') => (Raise e, w')
    end.

(** [try: m except Exception as e: h e] *)
Definition try_except {A} (m : M A) (h : pyexn -> M A) : M A :=
  fun w =>
    match m w with
    | (Ok a, w') => (Ok a, w')
    | (Raise e, w') => h e w'
    end.

Definition lift {A} (r : result A) : M A := fun w => (r, w).

End World.

#[global] Instance M_ret {E : env} : MRet M := @ret E.
#[global] Instance M_bind {E : env} : MBind M := fun A B k m => bind m k.

(** ** The retry decorator ([errors.with_retry]) *)

Section Retry.
Context {E : env}.

(** [await asyncio.sleep(delay)] *)
Definition asyncio_sleep (delay : float) : M unit :=
  fun w => (Ok tt, with_slept (w_slept w ++ [delay]) w).

(** [min(a, b)] on floats: [b] only when it is smaller. *)
Definition float_min (a b : float) : float := if Float.ltb b a then b else a.

(** The delay before the retry that follows attempt number [attempt]. *)
Definition retry_delay (base_delay max_delay : float)
    (exponential_backoff : bool) (attempt : nat) : result float :=
  if exponential_backoff then
    x ← Float.mul_int base_delay (2 ^ Z.of_nat attempt);
    Ok (float_min x max_delay)
  else Ok base_delay.

(** The transient classes of the first [except] clause. *)
Definition is_transient (e : pyexn) : bool :=
  isinstance_openai e RateLimitError
  || isinstance_openai e APIConnectionError
  || isinstance_openai e APITimeoutError.

(** The loop [for attempt in range(max_retries)] from [attempt] on, with
    [remaining] iterations to go, and what follows the loop.  The wrapper
    returns [None] when the loop ends with no error recorded. *)
Fixpoint retry_loop {A} (max_retries : Z) (base_delay max_delay : float)
    (exponential_backoff : bool) (func : M A)
    (remaining attempt : nat) (last_error : option pyexn) : M (option A) :=
  match remaining with
  | O =>
      match last_error with
      | Some e => raise (AIError (handle_openai_error e))
      | None => ret None
      end
  | S remaining' =>
      fun w =>
        match func w with
        | (Ok a, w') => (Ok (Some a), w')
        | (Raise e, w') =>
            if is_transient e then
              if Z.of_nat attempt <? max_retries - 1 then
                (delay ← lift (retry_delay base_delay max_delay
                                 exponential_backoff attempt);
                 _ ← asyncio_sleep delay;
                 retry_loop max_retries base_delay max_delay
                   exponential_backoff func remaining' (S attempt) (Some e)) w'
              else (Raise (AIError (handle_openai_error e)), w')
            else (Raise (AIError (handle_openai_error e)), w')
        end
  end.

Definition with_retry {A} (max_retries : Z) (base_delay max_delay : float)
    (exponential_backoff : bool) (func : M A) : M (option A) :=
  retry_loop max_retries base_delay max_delay exponential_backoff func
    (Z.to_nat max_retries) 0 None.

(** The float constants [1.0] and [10.0]. *)
Definition f_1_0 : float := Eval vm_compute in Float.of_decimal 10 1.
Definition f_10_0 : float := Eval vm_compute in Float.of_decimal 100 1.
Definition f_2_0 : float := Eval vm_compute in Float.of_decimal 20 1.

(** One call of the language model: the next entry of the script. *)
Definition llm_ainvoke : M llm_response :=
  fun w => (llm_script (w_llm_calls w), with_llm_calls (S (w_llm_calls w)) w).

End Retry.

(** ** The agent ([agent.py]) *)

Section Agent.
Context {E : env}.

Record ConversationState := {
  session_id : pystr;
  messages : list chat_message;
  extracted_data : loc;
  current_stage : pystr;
  missing_slots : list string;
  lead_qualification : option pystr;
  error : option pystr;
}.

Definition set_messages (m : list chat_message) (st : ConversationState) :=
  {| session_id := session_id st; messages := m;
     extracted_data := extracted_data st; current_stage := current_stage st;
     missing_slots := missing_slots st;
     lead_qualification := lead_qualification st; error := error st |}.

Definition set_current_stage (s : pystr) (st : ConversationState) :=
  {| session_id := session_id st; messages := messages st;
     extracted_data := extracted_data st; current_stage := s;
     missing_slots := missing_slots st;
     lead_qualification := lead_qualification st; error := error st |}.

Definition set_missing_slots (l : list string) (st : ConversationState) :=
  {| session_id := session_id st; messages := messages st;
     extracted_data := extracted_data st; current_stage := current_stage st;
     missing_slots := l;
     lead_qualification := lead_qualification st; error := error st |}.

Definition set_lead_qualification (q : option pystr) (st : ConversationState) :=
  {| session_id := session_id st; messages := messages st;
     extracted_data := extracted_data st; current_stage := current_stage st;
     missing_slots := missing_slots st;
     lead_qualification := q; error := error st |}.

Definition set_error (e : option pystr) (st : ConversationState) :=
  {| session_id := session_id st; messages := messages st;
     extracted_data := extracted_data st; current_stage := current_stage st;
     missing_slots := missing_slots st;
     lead_qualification := lead_qualification st; error := e |}.

Definition SLOTS : list string :=
  ["car_brand"; "car_model"; "budget_min"; "budget_max"; "country";
   "timeline"; "body_type"; "name"; "phone"]%string.

Definition REQUIRED_FOR_QUALIFICATION : list string :=
  ["car_brand"; "budget_max"]%string.

Definition REQUIRED_FOR_CLOSING : list string := ["name"; "phone"]%string.

(** *** Dictionary objects *)

(** A new dictionary object holding [d]. *)
Definition new_dict (d : pydict) : M loc :=
  fun w => (Ok (length (w_heap w)), with_heap (w_heap w ++ [d]) w).

(** The present contents of the object at [l]. *)
Definition dict_at (w : world) (l : loc) : pydict :=
  default ∅ (w_heap w !! l).

Definition read_dict (l : loc) : M pydict := fun w => (Ok (dict_at w l), w).

(** [d[key] = value] on the object at [l]: every name that refers to the
    object sees the new entry. *)
Definition dict_setitem (l : loc) (key : string) (value : pyval) : M unit :=
  fun w => (Ok tt, with_heap (alter (insert key value) l (w_heap w)) w).

(** *** [_call_llm] *)

(** [@with_retry(max_retries=3, base_delay=1.0)] around one call of the
    model, of which the text is returned. *)
Definition _call_llm : M (option pystr) :=
  with_retry 3 f_1_0 f_10_0 true (response ← llm_ainvoke; ret (r_content response)).

(** *** [_extract_slots] *)

Definition fence_open : pystr := Eval vm_compute in u "```json".
Definition fence_close : pystr := Eval vm_compute in u "```".

Fixpoint drop_prefix (p s : pystr) : option pystr :=
  match p, s with
  | [], _ => Some s
  | a :: p', b :: s' => if (a =? b)%N then drop_prefix p' s' else None
  | _ :: _, [] => None
  end.

(** [re.sub(r'^```json\s*', '', s)] then [re.sub(r'\s*```$', '', s)], on
    a string that was stripped. *)
Definition strip_fences (s : pystr) : pystr :=
  let s1 := match drop_prefix fence_open s with
            | Some r => lstrip r
            | None => s
            end in
  match drop_prefix (rev fence_close) (rev s1) with
  | Some r => rev (lstrip r)
  | None => s1
  end.

(** [extracted.items()] *)
Definition dict_items (v : pyval) : result (list (string * pyval)) :=
  match v with
  | VDict items => Ok items
  | _ => Raise (Exc AttributeError
                  (u "'" ++ type_name v ++ u "' object has no attribute 'items'"))
  end.

Definition is_str (v : pyval) : bool :=
  match v with
  | VStr _ => true
  | _ => false
  end.

Definition budget_value (o : option Z) : pyval :=
  match o with
  | Some z => VInt z
  | None => VNone
  end.

Definition is_budget_key (key : string) : bool :=
  bool_decide (key ∈ ["budget_min"; "budget_max"]%string).

(** The loop [for key, value in extracted.items()] on the dictionary
    object at [l]. *)
Fixpoint merge_items (l : loc) (items : list (string * pyval)) : M unit :=
  match items with
  | [] => ret tt
  | (key, value) :: rest =>
      _ ← (if negb (is_none value) then
             value' ← (if is_budget_key key && is_str value
                       then lift (budget_value <$> _parse_budget value)
                       else ret value);
             dict_setitem l key value'
           else ret tt);
      merge_items l rest
  end.

(** [[slot for slot in SLOTS if data.get(slot) is None]] *)
Definition compute_missing_slots (data : pydict) : list string :=
  filter (fun slot => is_none (get data slot) = true) SLOTS.

Definition _extract_slots (state : ConversationState) : M ConversationState :=
  state' ← try_except
    (response ← _call_llm;
     match response with
     | None =>
         raise (Exc AttributeError
                  (u "'NoneType' object has no attribute 'strip'"))
     | Some text =>
         let json_str := strip_fences (strip text) in
         match json_loads json_str with
         | None => raise (Exc JSONDecodeError (u "Expecting value"))
         | Some extracted =>
             items ← lift (dict_items extracted);
             _ ← merge_items (extracted_data state) items;
             ret state
         end
     end)
    (fun e =>
       match e with
       | AIError a => ret (set_error (Some (user_message a)) state)
       | Exc _ _ => ret state
       end);
  data ← read_dict (extracted_data state');
  ret (set_missing_slots (compute_missing_slots data) state').

(** *** [_determine_stage] *)

Definition has_basic_info (data : pydict) : bool :=
  existsb truthy
    [get data "car_brand"; get data "budget_max"; get data "body_type"].

Definition has_qualification_info (data : pydict) : bool :=
  forallb truthy (map (get data) REQUIRED_FOR_QUALIFICATION).

Definition has_contact_info (data : pydict) : bool :=
  forallb truthy (map (get data) REQUIRED_FOR_CLOSING).

(** [v >= z] for an integer literal [z]. *)
Definition py_ge_int (v : pyval) (z : Z) : result bool :=
  match v with
  | VInt b => Ok (z <=? b)
  | VBool b => Ok (z <=? (if b then 1 else 0))
  | VFloat f => Ok (Float.ge_int f z)
  | _ => Raise (Exc TypeError
                  (u "'>=' not supported between instances of '"
                   ++ type_name v ++ u "' and 'int'"))
  end.

(** [v.lower()] *)
Definition py_lower (v : pyval) : result pystr :=
  match v with
  | VStr s => Ok (lower s)
  | _ => Raise (Exc AttributeError
                  (u "'" ++ type_name v ++ u "' object has no attribute 'lower'"))
  end.

Definition srochno : pystr := Eval vm_compute in u "срочно".
Definition bystr : pystr := Eval vm_compute in u "быстр".

Definition hot : pystr := Eval vm_compute in u "hot".
Definition warm : pystr := Eval vm_compute in u "warm".
Definition cold : pystr := Eval vm_compute in u "cold".

Definition discovery : pystr := Eval vm_compute in u "discovery".
Definition qualification : pystr := Eval vm_compute in u "qualification".
Definition closing : pystr := Eval vm_compute in u "closing".
Definition completed : pystr := Eval vm_compute in u "completed".

(** The body of [if has_contact_info and has_qualification_info:]. *)
Definition lead_tier (data : pydict) (has_basic : bool) : result pystr :=
  let budget := get_or data "budget_max" (VInt 0) in
  timeline ← py_lower (get_or data "timeline" (VStr []));
  high ← py_ge_int budget 3000000;
  if high || contains srochno timeline || contains bystr timeline then Ok hot
  else
    mid ← py_ge_int budget 1500000;
    if mid || has_basic then Ok warm else Ok cold.

(** The chain [if not has_basic_info: ... elif ... else ...]. *)
Definition stage_of (has_basic has_qualification has_contact : bool) : pystr :=
  if negb has_basic then discovery
  else if negb has_qualification then qualification
  else if negb has_contact then closing
  else completed.

Definition _determine_stage (state : ConversationState) : M ConversationState :=
  data ← read_dict (extracted_data state);
  let has_basic := has_basic_info data in
  let has_qualification := has_qualification_info data in
  let has_contact := has_contact_info data in
  state1 ← (if has_contact && has_qualification then
              tier ← lift (lead_tier data has_basic);
              ret (set_lead_qualification (Some tier) state)
            else ret state);
  ret (set_current_stage
         (stage_of has_basic has_qualification has_contact) state1).

(** *** [_generate_response] *)

Definition should_use_fallback : M bool :=
  fun w => (Ok (should_use_fallback_ctx (w_errors w)), w).

Definition record_success : M unit :=
  fun w => (Ok tt, with_errors (record_success_ctx (w_errors w)) w).

Definition record_error : M unit :=
  fun w => (Ok tt,
            with_clock (S (w_clock w))
              (with_errors (record_error_at (time_time (w_clock w)) (w_errors w)) w)).

Definition assistant (text : pystr) : chat_message :=
  {| role := u "assistant"; content := text |}.

(** [state["messages"].append(m)] *)
Definition append_message (m : chat_message) (st : ConversationState) :=
  set_messages (messages st ++ [m]) st.

(** [msgs[-1]["content"] if msgs else ""] *)
Definition last_content (msgs : list chat_message) : pystr :=
  match last msgs with
  | Some m => content m
  | None => []
  end.

Definition known_tools : list pystr :=
  [u "search_cars"; u "get_available_brands"; u "get_price_range"].

(** A tool call always yields a text: a failure inside a tool is
    reported in the text, an unknown name gets a stand-in. *)
Definition _execute_tool (tc : tool_call) : M pystr :=
  if bool_decide (tc_name tc ∈ known_tools) then ret (run_tool tc)
  else ret (u "Неизвестный инструмент: " ++ tc_name tc).

Fixpoint execute_tool_calls (calls : list tool_call) : M (list pystr) :=
  match calls with
  | [] => ret []
  | tc :: rest =>
      r ← _execute_tool tc;
      rs ← execute_tool_calls rest;
      ret (r :: rs)
  end.

(** The prompt's text is not modelled: the script of the language model
    answers whatever it is asked.  The knowledge lookup that builds the
    prompt stands outside the [try]. *)
Definition _generate_response (state : ConversationState) : M ConversationState :=
  fallback ← should_use_fallback;
  if (fallback : bool) then
    (ret (append_message (assistant fallback_general) state) : M ConversationState)
  else
    knowledge ← lift (get_relevant_knowledge (last_content (messages state)));
    try_except
      (response ← llm_ainvoke;
       response_content ←
         match r_tool_calls response with
         | [] => ret (r_content response)
         | calls =>
             tool_results ← execute_tool_calls calls;
             final_response ← llm_ainvoke;
             ret (r_content final_response)
         end;
       _ ← record_success;
       ret (append_message (assistant response_content) state))
      (fun e =>
         match e with
         | AIError a =>
             _ ← record_error;
             ret (set_error (Some (user_message a))
                    (append_message (assistant (user_message a)) state))
         | Exc _ _ =>
             _ ← record_error;
             ret (set_error (Some (exn_str e))
                    (append_message (assistant fallback_general) state))
         end).

(** *** [_save_to_db] *)

Definition text_value (o : option pystr) : pyval :=
  match o with
  | Some s => VStr s
  | None => VNone
  end.

(** [Lead(session_id=...)]: a new row has no attribute set. *)
Definition new_lead : Lead :=
  {| lead_name := None; lead_phone := None; lead_car_brand := None;
     lead_car_model := None; lead_budget_min := None; lead_budget_max := None;
     lead_country := None; lead_timeline := None; lead_body_type := None;
     lead_qualification_col := None; lead_status_col := None |}.

Definition db_select (sid : pystr) : M (option Lead) :=
  fun w => let '(r, d) := db_select_lead (w_db w) sid in (r, with_db d w).

Definition db_save (sid : pystr) (up : lead_update)
    (msgs : list chat_message) : M unit :=
  fun w => let '(r, d) := db_commit (w_db w) sid up msgs in (r, with_db d w).

(** [msgs[-2:]] *)
Definition last_two (msgs : list chat_message) : list chat_message :=
  drop (length msgs - 2) msgs.

Definition _save_to_db (state : ConversationState) : M ConversationState :=
  _ ← try_except
    (found ← db_select (session_id state);
     let lead := default new_lead found in
     data ← read_dict (extracted_data state);
     let up :=
       {| up_name := py_or (get data "name") (text_value (lead_name lead));
          up_phone := py_or (get data "phone") (text_value (lead_phone lead));
          up_car_brand :=
            py_or (get data "car_brand") (text_value (lead_car_brand lead));
          up_car_model :=
            py_or (get data "car_model") (text_value (lead_car_model lead));
          up_budget_min :=
            py_or (get data "budget_min") (budget_value (lead_budget_min lead));
          up_budget_max :=
            py_or (get data "budget_max") (budget_value (lead_budget_max lead));
          up_country := py_or (get data "country") (text_value (lead_country lead));
          up_timeline :=
            py_or (get data "timeline") (text_value (lead_timeline lead));
          up_body_type :=
            py_or (get data "body_type") (text_value (lead_body_type lead));
          up_qualification :=
            py_or (text_value (lead_qualification state))
                  (text_value (lead_qualification_col lead));
          up_status :=
            if str_eqb (current_stage state) completed
            then u "qualified" else u "in_progress" |} in
     db_save (session_id state) up (last_two (messages state)))
    (fun _ => ret tt);
  ret state.

(** *** The graph and [process_message] *)

(** [self.graph.ainvoke]: the four nodes in the order [_build_graph]
    wires them, each handed the state and the objects it refers to. *)
Definition graph_ainvoke (state : ConversationState) : M ConversationState :=
  s1 ← _extract_slots state;
  s2 ← _determine_stage s1;
  s3 ← _generate_response s2;
  _save_to_db s3.

(** A value of the dictionary [process_message] returns. *)
Inductive field :=
  | FText (s : pystr)
  | FNull
  | FSlots (d : pydict).

Abbreviation outcome := (gmap string field).

Definition opt_field (o : option pystr) : field :=
  match o with
  | Some s => FText s
  | None => FNull
  end.

(** The dictionary built from a lead, [None] values removed. *)
Definition seed_slots (l : Lead) : pydict :=
  filter (fun kv => is_none kv.2 = false)
    (list_to_map
       [("name", text_value (lead_name l));
        ("phone", text_value (lead_phone l));
        ("car_brand", text_value (lead_car_brand l));
        ("car_model", text_value (lead_car_model l));
        ("budget_min", budget_value (lead_budget_min l));
        ("budget_max", budget_value (lead_budget_max l));
        ("country", text_value (lead_country l));
        ("timeline", text_value (lead_timeline l));
        ("body_type", text_value (lead_body_type l))]%string : pydict).

(** [str(uuid.uuid4())[:8]] *)
Definition fresh_session_id : M pystr :=
  fun w => (Ok (prefix 8 (uuid4_str (w_uuids w))), with_uuids (S (w_uuids w)) w).

(** [not message or not message.strip()] *)
Definition is_blank (message : pystr) : bool :=
  match message with
  | [] => true
  | _ => match strip message with [] => true | _ => false end
  end.

Definition prompt_for_input : pystr := u "Пожалуйста, напишите ваш вопрос.".

(** [msgs[-1]["content"]] *)
Definition final_content (msgs : list chat_message) : result pystr :=
  match last msgs with
  | Some m => Ok (content m)
  | None => Raise (Exc IndexError (u "list index out of range"))
  end.

(** [if not session_id: session_id = str(uuid.uuid4())[:8]] *)
Definition resolve_session_id (session_id : option pystr) : M pystr :=
  match session_id with
  | Some (c :: s) => ret (c :: s)
  | _ => fresh_session_id
  end.

(** [message[:2000] + "..."] for a message of more than 2000 characters. *)
Definition truncate_message (message : pystr) : pystr :=
  if (2000 <? length message)%nat then prefix 2000 message ++ u "..."
  else message.

(** The slots a session already has in the database; none when the
    lookup fails. *)
Definition load_seed (session_id : pystr) : M pydict :=
  try_except
    (found ← db_select session_id;
     ret (match found with
          | Some lead => seed_slots lead
          | None => ∅
          end))
    (fun _ => ret ∅).

Definition initial_state (session_id : pystr) (history : list chat_message)
    (message : pystr) (extracted_data : loc) : ConversationState :=
  {| session_id := session_id;
     messages := history ++ [{| role := u "user"; content := message |}];
     extracted_data := extracted_data;
     current_stage := discovery;
     missing_slots := SLOTS;
     lead_qualification := None;
     error := None |}.

(** The dictionary returned for an empty message. *)
Definition blank_outcome (session_id : pystr) : outcome :=
  list_to_map
    [("response", FText prompt_for_input);
     ("session_id", FText session_id);
     ("extracted_data", FSlots ∅);
     ("lead_status", FText discovery);
     ("qualification", FNull)]%string.

(** The dictionary returned when the graph returns [final_state]. *)
Definition success_outcome (session_id response : pystr) (data : pydict)
    (final_state : ConversationState) : outcome :=
  list_to_map
    [("response", FText response);
     ("session_id", FText session_id);
     ("extracted_data", FSlots data);
     ("lead_status", FText (current_stage final_state));
     ("qualification", opt_field (lead_qualification final_state));
     ("error", opt_field (error final_state))]%string.

(** The dictionaries of the two [except] clauses. *)
Definition failure_outcome (e : pyexn) (session_id : pystr) (data : pydict)
  : outcome :=
  match e with
  | AIError a =>
      list_to_map
        [("response", FText (user_message a));
         ("session_id", FText session_id);
         ("extracted_data", FSlots data);
         ("lead_status", FText (u "error"));
         ("qualification", FNull);
         ("error", FText (user_message a))]%string
  | Exc _ _ =>
      list_to_map
        [("response", FText fallback_general);
         ("session_id", FText session_id);
         ("extracted_data", FSlots data);
         ("lead_status", FText (u "error"));
         ("qualification", FNull);
         ("error", FText (exn_str e))]%string
  end.

(** The local name [extracted_data] and [initial_state["extracted_data"]]
    are one dictionary object: what the nodes write into it is what the
    [except] clauses return. *)
Definition process_message (message : pystr) (history : list chat_message)
    (session_id : option pystr) : M outcome :=
  session_id ← resolve_session_id session_id;
  if is_blank message then (ret (blank_outcome session_id) : M outcome)
  else
    let message := truncate_message message in
    seed ← load_seed session_id;
    extracted_data ← new_dict seed;
    try_except
      (final_state ← graph_ainvoke
                       (initial_state session_id history message extracted_data);
       response ← lift (final_content (messages final_state));
       data ← read_dict (Agent.extracted_data final_state);
       ret (success_outcome session_id response data final_state))
      (fun e =>
         data ← read_dict extracted_data;
         ret (failure_outcome e session_id data)).

(** One incoming request, and an agent instance serving requests one
    after another. *)
Record turn := {
  t_message : pystr;
  t_history : list chat_message;
  t_session_id : option pystr;
}.

Fixpoint serve (turns : list turn) (w : world) : list (result outcome) * world :=
  match turns with
  | [] => ([], w)
  | t :: rest =>
      let '(r, w1) := process_message (t_message t) (t_history t)
                        (t_session_id t) w in
      let '(rs, w2) := serve rest w1 in
      (r :: rs, w2)
  end.

End Agent.

(** ** Concrete surroundings for worked examples *)

(** The language model follows [script], [json.loads] is given by the
    table of the texts it is asked to parse, the database holds [stored]
    for every session and accepts every commit. *)
Definition script_env (script : list (result llm_response))
    (json : list (pystr * pyval)) (stored : option Lead) : env :=
  {| DB := unit;
     llm_script := fun n => nth n script (Raise (Exc OtherException []));
     json_loads := fun s => snd <$> find (fun p => str_eqb (fst p) s) json;
     get_relevant_knowledge := fun _ => Ok [];
     run_tool := fun _ => [];
     uuid4_str := fun _ => u "123e4567-e89b-12d3-a456-426614174000";
     time_time := fun _ => f_1_0;
     db_select_lead := fun d _ => (Ok stored, d);
     db_commit := fun d _ _ _ => (Ok tt, d) |}.

(** A new agent instance. *)
Definition fresh_world {E : env} (d : DB) : world :=
  {| w_heap := []; w_llm_calls := 0; w_slept := []; w_uuids := 0;
     w_clock := 0; w_errors := ErrorContext_init; w_db := d |}.

Definition reply (text : pystr) : result llm_response :=
  Ok {| r_content := text; r_tool_calls := [] |}.

(** ** The classifier in the specification's words *)

(** A slot is present when [data.get(slot)] counts as true. *)
Definition present (data : pydict) (slot : string) : bool :=
  truthy (get data slot).

(** At least one of brand, maximal budget, body type is present. *)
Definition spec_has_basic_info (data : pydict) : bool :=
  present data "car_brand" || present data "budget_max"
  || present data "body_type".

(** Both brand and maximal budget are present. *)
Definition spec_has_qualification_info (data : pydict) : bool :=
  present data "car_brand" && present data "budget_max".

(** Both customer name and phone are present. *)
Definition spec_has_contact_info (data : pydict) : bool :=
  present data "name" && present data "phone".

(** The four stage rules in their order; the first whose guard holds
    gives the stage. *)
Definition stage_rules (data : pydict) : list (bool * pystr) :=
  let basic := spec_has_basic_info data in
  let qualified := spec_has_qualification_info data in
  let contact := spec_has_contact_info data in
  [(negb basic, discovery);
   (basic && negb qualified, qualification);
   (qualified && negb contact, closing);
   (basic && qualified && contact, completed)].

Definition spec_stage (data : pydict) : option pystr :=
  snd <$> find (fun rule => fst rule) (stage_rules data).

(** The maximal budget is a number that reaches [threshold]. *)
Definition budget_at_least (data : pydict) (threshold : Z) : bool :=
  match get data "budget_max" with
  | VInt b => threshold <=? b
  | VBool b => threshold <=? (if b then 1 else 0)
  | VFloat f => Float.ge_int f threshold
  | _ => false
  end.

(** The timeline is a text that holds an urgency marker. *)
Definition timeline_urgent (data : pydict) : bool :=
  match get data "timeline" with
  | VStr s => contains srochno (lower s) || contains bystr (lower s)
  | _ => false
  end.

Definition spec_tier (data : pydict) : pystr :=
  if budget_at_least data 3000000 || timeline_urgent data then hot
  else if budget_at_least data 1500000 || spec_has_basic_info data then warm
  else cold.

Definition is_number (v : pyval) : bool :=
  match v with
  | VInt _ | VBool _ | VFloat _ => true
  | _ => false
  end.

(** The two values the tier rule computes with have the types the rule
    expects: the budget is a number, the timeline a text. *)
Definition tier_inputs_typed (data : pydict) : bool :=
  is_number (get_or data "budget_max" (VInt 0))
  && is_str (get_or data "timeline" (VStr [])).

(** The slots on which the classifier returns: the tier rule is not
    reached, or its inputs are typed. *)
Definition classifiable (data : pydict) : bool :=
  negb (has_contact_info data && has_qualification_info data)
  || tier_inputs_typed data.

(** An environment in which nothing answers, and a world of it whose
    only dictionary object holds [data]. *)
Definition idle_env : env := script_env [] [] None.

Definition world_holding (data : pydict) : @world idle_env :=
  with_heap [data] (@fresh_world idle_env tt).

(** The state [process_message] starts the graph with, for the
    dictionary object of [world_holding]. *)
Definition state_zero : @ConversationState :=
  initial_state (u "s") [] (u "m") 0%nat.

Definition slots (l : list (string * pyval)) : pydict := list_to_map l.


(** Slots with brand, budget, name and phone: ready for the tier rule. *)
Definition ready_slots (budget_max : pyval) : pydict :=
  slots [("car_brand", VStr (u "X")); ("budget_max", budget_max);
         ("name", VStr (u "Y")); ("phone", VStr (u "Z"))]%string.


(** The world after [k] more calls of the language model and the delays
    [delays] slept. *)
Definition called {E : env} (k : nat) (delays : list float) (w : world) : world :=
  with_slept (w_slept w ++ delays) (with_llm_calls (w_llm_calls w + k) w).

(** The language model raises something no [except] clause names. *)
Definition env_unrecognized : env :=
  script_env [Raise (Exc OtherException (u "boom"))] [] None.


(** The language model fails twice with transient errors, then replies. *)
Definition env_flaky : env :=
  script_env [Raise (Exc (OpenAI RateLimitError) (u "429"));
              Raise (Exc (OpenAI APITimeoutError) (u "timed out"));
              reply (u "ok")] [] None.

(** The language model rejects the credentials. *)
Definition env_auth : env :=
  script_env [Raise (Exc (OpenAI AuthenticationError) (u "401"))] [] None.


(** A world of [E] whose only dictionary object holds [data]. *)
Definition holding {E : env} (d : DB) (data : pydict) : world :=
  with_heap [data] (fresh_world d).

(** A JSON text, written with ['] where the text has the double quote. *)
Definition json_text (s : string) : pystr := replace_char 39 [34%N] (u s).

(** The language model answers the extraction request with a budget it
    took over as the customer wrote it, in words. *)
Definition budget_in_words : pystr :=
  json_text "{'budget_max': 'много'}".

Definition env_budget_in_words : env :=
  script_env [reply budget_in_words]
    [(budget_in_words, VDict [("budget_max", VStr (u "много"))]%string)]
    None.


(** Only the language model call can raise an [AIServiceError]: what
    the interpreter raises while merging is a built-in exception. *)
Definition builtin_only {A} (r : result A) : Prop :=
  match r with
  | Raise (AIError _) => False
  | _ => True
  end.


(** The slots of a customer whose brand is known, held by an agent whose
    language model is about to fail in one way or the other. *)
Definition known_brand : pydict := slots [("car_brand", VStr (u "X"))]%string.


Definition auth_world : @world env_auth := @holding env_auth tt known_brand.


(** The agent is in fallback mode. *)
Definition in_fallback {E : env} (w : world) : Prop :=
  should_use_fallback_ctx (w_errors w) = true.

(** A computation that, started in fallback mode, leaves the error
    context as it found it. *)
Definition errors_kept {E : env} {A} (m : M A) : Prop :=
  ∀ w, in_fallback w → w_errors (m w).2 = w_errors w.

(** The language model is in good health: it answers every request. *)
Definition env_healthy : env :=
  {| DB := unit;
     llm_script := fun _ => reply (u "{}");
     json_loads := fun s => if str_eqb s (u "{}") then Some (VDict []) else None;
     get_relevant_knowledge := fun _ => Ok [];
     run_tool := fun _ => [];
     uuid4_str := fun _ => u "123e4567-e89b-12d3-a456-426614174000";
     time_time := fun _ => f_1_0;
     db_select_lead := fun d _ => (Ok None, d);
     db_commit := fun d _ _ _ => (Ok tt, d) |}.

(** An agent that has just met its third failure in a row. *)
Definition tripped_world : @world env_healthy :=
  with_errors {| error_count := 3; last_error_time := Some f_1_0;
                 consecutive_errors := 3 |}
    (@fresh_world env_healthy tt).

Definition two_turns : list turn :=
  [{| t_message := u "Здравствуйте"; t_history := []; t_session_id := None |};
   {| t_message := u "Хочу BMW"; t_history := []; t_session_id := Some (u "abc") |}].


(** The language model extracts every slot, and gives the timeline as a
    number of months. *)
Definition timeline_as_number : pystr :=
  json_text "{'car_brand': 'BMW', 'budget_max': 5000000, 'name': 'Ivan', 'phone': '123', 'timeline': 3}".

Definition env_timeline_as_number : env :=
  script_env [reply timeline_as_number]
    [(timeline_as_number,
      VDict [("car_brand", VStr (u "BMW")); ("budget_max", VInt 5000000);
             ("name", VStr (u "Ivan")); ("phone", VStr (u "123"));
             ("timeline", VInt 3)]%string)]
    None.

(** The slots that reply merges into an empty dictionary. *)
Definition merged_with_timeline : pydict :=
  slots [("car_brand", VStr (u "BMW")); ("budget_max", VInt 5000000);
         ("name", VStr (u "Ivan")); ("phone", VStr (u "123"));
         ("timeline", VInt 3)]%string.


(** ** Notions used by the further properties *)

(** The funnel, in its order. *)
Definition funnel : list pystr := [discovery; qualification; closing; completed].

(** The stage of the chain for the slots [data]. *)
Definition stage_for (data : pydict) : pystr :=
  stage_of (has_basic_info data) (has_qualification_info data)
    (has_contact_info data).

(** What happens to an error context: an error recorded at a reading of
    the clock, or a success. *)
Inductive ctx_event :=
  | CtxError (now : float)
  | CtxSuccess.

Definition ctx_step (c : ErrorContext) (ev : ctx_event) : ErrorContext :=
  match ev with
  | CtxError now => record_error_at now c
  | CtxSuccess => record_success_ctx c
  end.

(** A new [ErrorContext()] after the events [evs], oldest first. *)
Definition ctx_after (evs : list ctx_event) : ErrorContext :=
  foldl ctx_step ErrorContext_init evs.

(** How many errors a list of events starts with. *)
Fixpoint leading_errors (evs : list ctx_event) : nat :=
  match evs with
  | CtxError _ :: rest => S (leading_errors rest)
  | _ => 0
  end.

Definition is_ctx_error (ev : ctx_event) : bool :=
  match ev with
  | CtxError _ => true
  | CtxSuccess => false
  end.

(** [ErrorContext.get_stats] *)
Definition get_stats (c : ErrorContext) : pydict :=
  list_to_map
    [("total_errors", VInt (error_count c));
     ("consecutive_errors", VInt (consecutive_errors c));
     ("last_error_time",
      match last_error_time c with
      | Some t => VFloat t
      | None => VNone
      end)]%string.

(** [FALLBACK_RESPONSES] and [get_fallback_response] of [errors.py]. *)
Definition FALLBACK_RESPONSES : gmap string pystr :=
  list_to_map
    [("greeting", u "Здравствуйте! 👋 Я консультант АвтоИмпорт Pro. К сожалению, сейчас у меня технические сложности, но я скоро вернусь. Оставьте ваш вопрос, и мы обязательно свяжемся с вами!");
     ("general", fallback_general);
     ("rate_limit", u "Сервис временно перегружен из-за большого количества запросов. Пожалуйста, подождите 10-15 секунд и попробуйте снова.");
     ("simulator", u "Симулятор временно недоступен. Попробуйте позже или выберите другой тип клиента.")]%string.

Definition get_fallback_response (context : string) : pystr :=
  default (default [] (FALLBACK_RESPONSES !! "general"%string))
    (FALLBACK_RESPONSES !! context).

(** The decorator with any parameters around one call of the language
    model, as [_call_llm] has it with 3, 1.0 and the defaults. *)
Definition call_llm_with {E : env} (max_retries : Z)
    (base_delay max_delay : float) (exponential_backoff : bool)
  : M (option pystr) :=
  with_retry max_retries base_delay max_delay exponential_backoff
    (response ← llm_ainvoke; ret (r_content response)).

(** What a computation costs: it moves the script of the language model
    on by at most [calls] requests and adds to the sleeps an initial
    part of [sleeps]. *)
Definition spends {E : env} {A} (calls : nat) (sleeps : list float)
    (m : M A) : Prop :=
  ∀ w, (w_llm_calls w ≤ w_llm_calls (m w).2 ≤ w_llm_calls w + calls)%nat
       ∧ ∃ delays, delays `prefix_of` sleeps
                   ∧ w_slept (m w).2 = w_slept w ++ delays.

(** The same for a computation started in fallback mode, which it also
    leaves in fallback mode. *)
Definition fallback_spends {E : env} {A} (calls : nat) (sleeps : list float)
    (m : M A) : Prop :=
  ∀ w, in_fallback w →
       w_errors (m w).2 = w_errors w
       ∧ (w_llm_calls w ≤ w_llm_calls (m w).2 ≤ w_llm_calls w + calls)%nat
       ∧ ∃ delays, delays `prefix_of` sleeps
                   ∧ w_slept (m w).2 = w_slept w ++ delays.

(** A computation that never touches the error context. *)
Definition errors_untouched {E : env} {A} (m : M A) : Prop :=
  ∀ w, w_errors (m w).2 = w_errors w.

(** An agent whose clock, database and knowledge base work, and whose
    language model does not answer. *)
Definition env_down : env := script_env [] [] None.

(** Three requests of one session. *)
Definition three_turns : list turn :=
  [ {| t_message := u "Здравствуйте"; t_history := []; t_session_id := Some (u "abc") |};
    {| t_message := u "Хочу Toyota"; t_history := []; t_session_id := Some (u "abc") |};
    {| t_message := u "до 2 млн"; t_history := []; t_session_id := Some (u "abc") |} ].

(** ** The chat endpoint ([main.py]) *)

Record ChatRequest := {
  req_message : pystr;
  req_history : list chat_message;
  req_session_id : option pystr;
}.

Record ChatResponse := {
  resp_response : pystr;
  resp_session_id : pystr;
  resp_extracted_data : option pydict;
  resp_lead_status : option pystr;
  resp_error : option pystr;
}.

(** The field [ChatRequest.message]: the length constraints of the
    field, then the validator [message_not_empty], which hands on the
    stripped text.  [None] is the rejection of the request. *)
Definition validate_message (v : pystr) : option pystr :=
  if (1 <=? length v)%nat && (length v <=? 2000)%nat then
    if is_blank v then None else Some (strip v)
  else None.

Definition validation_error : pyexn :=
  Exc ValueError (u "validation error for ChatResponse").

(** [result[key]] handed to a field of type [str]. *)
Definition str_field (o : gmap string field) (key : string)
  : result pystr :=
  match o !! key with
  | Some (FText s) => Ok s
  | Some _ => Raise validation_error
  | None => Raise (Exc OtherException (u "KeyError"))
  end.

(** [result.get(key)] handed to a field of type [str | None]. *)
Definition opt_str_field (o : gmap string field) (key : string)
  : result (option pystr) :=
  match o !! key with
  | Some (FText s) => Ok (Some s)
  | Some FNull | None => Ok None
  | Some (FSlots _) => Raise validation_error
  end.

(** [result.get(key)] handed to a field of type [dict | None]. *)
Definition opt_dict_field (o : gmap string field) (key : string)
  : result (option pydict) :=
  match o !! key with
  | Some (FSlots d) => Ok (Some d)
  | Some FNull | None => Ok None
  | Some (FText _) => Raise validation_error
  end.

(** [request.session_id or "error"] *)
Definition session_or_error (session_id : option pystr) : pystr :=
  match session_id with
  | Some (c :: s) => c :: s
  | _ => u "error"
  end.

(** The endpoint [chat] on a request that passed validation. *)
Definition chat {E : env} (request : ChatRequest) : M ChatResponse :=
  try_except
    (o ← process_message (req_message request) (req_history request)
                (req_session_id request);
     lift (response ← str_field o "response";
           session_id ← str_field o "session_id";
           extracted_data ← opt_dict_field o "extracted_data";
           lead_status ← opt_str_field o "lead_status";
           error ← opt_str_field o "error";
           Ok {| resp_response := response;
                 resp_session_id := session_id;
                 resp_extracted_data := extracted_data;
                 resp_lead_status := lead_status;
                 resp_error := error |}))
    (fun e =>
       match e with
       | AIError a =>
           ret {| resp_response := user_message a;
                  resp_session_id := session_or_error (req_session_id request);
                  resp_extracted_data := None;
                  resp_lead_status := None;
                  resp_error := Some (user_message a) |}
       | Exc _ _ =>
           ret {| resp_response := get_fallback_response "general";
                  resp_session_id := session_or_error (req_session_id request);
                  resp_extracted_data := None;
                  resp_lead_status := None;
                  resp_error := Some (u "Внутренняя ошибка сервера") |}
       end).

(** [POST /api/chat] on the fields of a request body: a body that does
    not validate is rejected before the endpoint runs. *)
Definition post_chat {E : env} (message : pystr) (history : list chat_message)
    (session_id : option pystr) : M (option ChatResponse) :=
  match validate_message message with
  | None => ret None
  | Some v =>
      r ← chat {| req_message := v; req_history := history;
                  req_session_id := session_id |};
      ret (Some r)
  end.

(** ** Signs of floats *)

(** A float that is not below zero; a NaN counts, as nothing is read
    off it. *)
Definition not_negative (x : float) : Prop :=
  match x with
  | S754_finite s _ _ | S754_infinity s => s = false
  | _ => True
  end.

(** A character of Basic Latin or of the Cyrillic alphabet that is
    neither a digit, nor a point, nor a comma. *)
Definition no_numeral_char (c : N) : bool :=
  (((c <? 128) || (1024 <=? c) && (c <=? 1119))
   && negb (is_digit c) && negb (c =? 46) && negb (c =? 44))%N.

(** ** The classifier's rules, read off the mapping *)

(** The specification calls a slot present: the mapping holds a value
    for it that is not null. *)
Definition holds_value (data : pydict) (slot : string) : bool :=
  match data !! slot with
  | None | Some VNone => false
  | Some _ => true
  end.

(** What the classifier takes for present is less: the value is,
    besides, not [False], not zero and not empty. *)
Definition holds_something (data : pydict) (slot : string) : bool :=
  match data !! slot with
  | None | Some VNone | Some (VBool false) | Some (VInt 0)
  | Some (VFloat (S754_zero _))
  | Some (VStr []) | Some (VList []) | Some (VDict []) => false
  | Some _ => true
  end.

(** The three predicates of the stage rule, for a notion [p] of a
    present slot. *)
Definition basic_info (p : string → bool) : bool :=
  p "car_brand"%string || p "budget_max"%string || p "body_type"%string.

Definition qualification_info (p : string → bool) : bool :=
  p "car_brand"%string && p "budget_max"%string.

Definition contact_info (p : string → bool) : bool :=
  p "name"%string && p "phone"%string.

(** The stage rule: the four rules in their order, the first that
    matches wins. *)
Definition first_match_stage (p : string → bool) : option pystr :=
  snd <$> find fst
    [(negb (basic_info p), u "discovery");
     (basic_info p && negb (qualification_info p), u "qualification");
     (qualification_info p && negb (contact_info p), u "closing");
     (basic_info p && qualification_info p && contact_info p, u "completed")].

(** The maximal budget is a number (a Boolean counting as 0 or 1) that
    reaches [threshold]. *)
Definition budget_reaches (data : pydict) (threshold : Z) : bool :=
  match data !! "budget_max"%string with
  | Some (VInt b) => threshold <=? b
  | Some (VBool b) => threshold <=? (if b then 1 else 0)
  | Some (VFloat f) => Float.ge_int f threshold
  | _ => false
  end.

(** The timeline is a text that, in lower case, holds one of the two
    urgency markers. *)
Definition urgent (data : pydict) : bool :=
  match data !! "timeline"%string with
  | Some (VStr s) =>
      contains (u "срочно") (lower s) || contains (u "быстр") (lower s)
  | _ => false
  end.

(** The qualification rule. *)
Definition rule_tier (p : string → bool) (data : pydict) : pystr :=
  if budget_reaches data 3000000 || urgent data then u "hot"
  else if budget_reaches data 1500000 || basic_info p then u "warm"
  else u "cold".

(** The qualification rule can compute: the maximal budget is a number
    and the timeline, when the mapping has the key, a text. *)
Definition tier_computable (data : pydict) : bool :=
  match data !! "budget_max"%string with
  | Some (VInt _ | VBool _ | VFloat _) | None => true
  | Some _ => false
  end
  && match data !! "timeline"%string with
     | Some (VStr _) | None => true
     | Some _ => false
     end.

(** A budget of zero, and an urgent timeline with a budget below the
    threshold of "hot". *)
Definition zero_budget : pydict := ready_slots (VInt 0).

Definition urgent_slots : pydict :=
  slots [("car_brand", VStr (u "X")); ("budget_max", VInt 2000000);
         ("name", VStr (u "Y")); ("phone", VStr (u "Z"));
         ("timeline", VStr (u "Срочно, за месяц"))]%string.






(** A character of Basic Latin or of the Cyrillic alphabet: the texts on
    which the model of [lower] and of the pattern [\d] is exact. *)
Definition latin_or_cyrillic (c : N) : bool :=
  ((c <? 128) || (1024 <=? c) && (c <=? 1119))%N.

(** * Properties *)

(** ** The classifier *)

Section Classifier.
Context {E : env}.

Lemma has_basic_info_spec data : has_basic_info data = spec_has_basic_info data.
Proof.
  unfold has_basic_info, spec_has_basic_info, present. simpl.
  by rewrite orb_false_r, orb_assoc.
Qed.

Lemma has_qualification_info_spec data :
  has_qualification_info data = spec_has_qualification_info data.
Proof.
  unfold has_qualification_info, spec_has_qualification_info, present. simpl.
  by rewrite andb_true_r.
Qed.

Lemma has_contact_info_spec data :
  has_contact_info data = spec_has_contact_info data.
Proof.
  unfold has_contact_info, spec_has_contact_info, present. simpl.
  by rewrite andb_true_r.
Qed.

(** Knowing brand and budget is knowing something basic. *)
Lemma qualification_implies_basic data :
  has_qualification_info data = true → has_basic_info data = true.
Proof.
  rewrite has_qualification_info_spec, has_basic_info_spec.
  unfold spec_has_qualification_info, spec_has_basic_info.
  destruct (present data "car_brand"); simpl; [done | discriminate].
Qed.

(** The first matching rule is the branch the code takes. *)
Lemma spec_stage_stage_of data :
  spec_stage data =
  Some (stage_of (has_basic_info data) (has_qualification_info data)
          (has_contact_info data)).
Proof.
  rewrite has_basic_info_spec, has_qualification_info_spec,
    has_contact_info_spec.
  unfold spec_stage, stage_rules, stage_of,
    spec_has_basic_info, spec_has_qualification_info, spec_has_contact_info.
  destruct (present data "car_brand"), (present data "budget_max"),
    (present data "body_type"), (present data "name"), (present data "phone");
    reflexivity.
Qed.

(** What the node computes, branch by branch. *)
Lemma determine_stage_unfold (state : ConversationState) (w : world) :
  _determine_stage state w =
  let data := dict_at w (extracted_data state) in
  let stage := stage_of (has_basic_info data) (has_qualification_info data)
                 (has_contact_info data) in
  if has_contact_info data && has_qualification_info data then
    match lead_tier data (has_basic_info data) with
    | Ok tier =>
        (Ok (set_current_stage stage
               (set_lead_qualification (Some tier) state)), w)
    | Raise e => (Raise e, w)
    end
  else (Ok (set_current_stage stage state), w).
Proof.
  unfold _determine_stage, mbind, M_bind, bind, read_dict, lift, ret. simpl.
  destruct (has_contact_info _ && has_qualification_info _); [|done].
  by destruct (lead_tier _ _).
Qed.

(** On typed inputs the tier rule returns what the specification says. *)
Lemma lead_tier_typed data :
  tier_inputs_typed data = true →
  has_qualification_info data = true →
  lead_tier data (has_basic_info data) = Ok (spec_tier data).
Proof.
  intros Ht Hq.
  assert (Hb : truthy (get data "budget_max") = true).
  { rewrite has_qualification_info_spec in Hq.
    unfold spec_has_qualification_info, present in Hq.
    by apply andb_true_iff in Hq as [_ ?]. }
  unfold tier_inputs_typed in Ht. apply andb_true_iff in Ht as [Hn Hs].
  unfold lead_tier, spec_tier, budget_at_least, timeline_urgent.
  rewrite <- has_basic_info_spec.
  assert (Hnil : contains srochno (lower []) || contains bystr (lower []) = false)
    by reflexivity.
  unfold get_or, get in *.
  destruct (data !! "budget_max"%string) as [b|]; [|done].
  destruct (data !! "timeline"%string) as [[]|]; try discriminate;
    destruct b; try discriminate;
    cbn [default from_option id py_lower py_ge_int mbind result_bind rbind];
    rewrite <- ?orb_assoc, ?Hnil, ?orb_false_r;
    repeat match goal with
           | |- context [if ?c then _ else _] => destruct c
           end; reflexivity.
Qed.

(** On classifiable slots the node returns, with the stage of the chain
    and the tier of the rule. *)
Lemma determine_stage_ok (state : ConversationState) (w : world) :
  let data := dict_at w (extracted_data state) in
  classifiable data = true →
  _determine_stage state w =
  (Ok (set_current_stage
         (stage_of (has_basic_info data) (has_qualification_info data)
            (has_contact_info data))
         (if has_contact_info data && has_qualification_info data
          then set_lead_qualification (Some (spec_tier data)) state
          else state)), w).
Proof.
  intros data Hc. rewrite determine_stage_unfold. cbv zeta. fold data.
  destruct (has_contact_info data && has_qualification_info data) eqn:Hg;
    [|reflexivity].
  unfold classifiable in Hc. rewrite Hg in Hc. simpl in Hc.
  apply andb_true_iff in Hg as [_ Hq].
  by rewrite (lead_tier_typed data Hc Hq).
Qed.

(** Outside these slots the tier rule raises, so the classifier returns
    exactly on the classifiable slots. *)
Lemma determine_stage_raises (state : ConversationState) (w : world) :
  classifiable (dict_at w (extracted_data state)) = false →
  ∃ e, _determine_stage state w = (Raise e, w).
Proof.
  intros Hc. rewrite determine_stage_unfold. cbv zeta.
  unfold classifiable in Hc. apply orb_false_iff in Hc as [Hg Ht].
  apply negb_false_iff in Hg. rewrite Hg.
  unfold tier_inputs_typed in Ht. unfold lead_tier.
  destruct (get_or _ "timeline" _) as [| | | |s| |] eqn:Htl;
    try (eexists; reflexivity).
  rewrite andb_true_r in Ht.
  destruct (get_or _ "budget_max" _); try discriminate;
    eexists; reflexivity.
Qed.

(** The classifier's notion of a present slot is the truth value of
    [data.get(slot)]. *)
Lemma holds_something_truthy data slot :
  holds_something data slot = truthy (get data slot).
Proof.
  unfold holds_something, get.
  destruct (data !! slot) as [[|[]|[]|[]|[]|[]|[]]|]; reflexivity.
Qed.

Lemma basic_info_code data :
  basic_info (holds_something data) = has_basic_info data.
Proof.
  rewrite has_basic_info_spec.
  unfold basic_info, spec_has_basic_info, present.
  by rewrite !holds_something_truthy.
Qed.

Lemma qualification_info_code data :
  qualification_info (holds_something data) = has_qualification_info data.
Proof.
  rewrite has_qualification_info_spec.
  unfold qualification_info, spec_has_qualification_info, present.
  by rewrite !holds_something_truthy.
Qed.

Lemma contact_info_code data :
  contact_info (holds_something data) = has_contact_info data.
Proof.
  rewrite has_contact_info_spec.
  unfold contact_info, spec_has_contact_info, present.
  by rewrite !holds_something_truthy.
Qed.

(** The first matching rule is the branch of the chain. *)
Lemma first_match_stage_code data :
  first_match_stage (holds_something data)
  = Some (stage_of (has_basic_info data) (has_qualification_info data)
            (has_contact_info data)).
Proof.
  unfold first_match_stage.
  rewrite basic_info_code, qualification_info_code, contact_info_code.
  destruct (has_basic_info data), (has_qualification_info data),
    (has_contact_info data); vm_compute; reflexivity.
Qed.

Lemma tier_computable_code data :
  tier_computable data = tier_inputs_typed data.
Proof.
  unfold tier_computable, tier_inputs_typed, get_or.
  destruct (data !! "budget_max"%string) as [[]|];
    destruct (data !! "timeline"%string) as [[]|]; reflexivity.
Qed.

Lemma rule_tier_code data :
  rule_tier (holds_something data) data = spec_tier data.
Proof.
  unfold rule_tier, spec_tier. rewrite basic_info_code, has_basic_info_spec.
  assert (budget_reaches data 3000000 = budget_at_least data 3000000) as ->.
  { unfold budget_reaches, budget_at_least, get.
    by destruct (data !! "budget_max"%string) as [[]|]. }
  assert (budget_reaches data 1500000 = budget_at_least data 1500000) as ->.
  { unfold budget_reaches, budget_at_least, get.
    by destruct (data !! "budget_max"%string) as [[]|]. }
  assert (urgent data = timeline_urgent data) as ->.
  { unfold urgent, timeline_urgent, get.
    by destruct (data !! "timeline"%string) as [[]|]. }
  reflexivity.
Qed.

(** What the tier rule raises on inputs it cannot compute with. *)
Lemma lead_tier_raises data b :
  tier_inputs_typed data = false →
  ∃ c msg, lead_tier data b = Raise (Exc c msg)
           ∧ (c = AttributeError ∨ c = TypeError).
Proof.
  unfold tier_inputs_typed, lead_tier. intros Ht.
  destruct (get_or data "timeline" (VStr [])) as [| | | |s| |];
    try (eexists _, _; split; [reflexivity|by left]).
  rewrite andb_true_r in Ht.
  destruct (get_or data "budget_max" (VInt 0)); try discriminate;
    eexists _, _; (split; [reflexivity|by right]).
Qed.

(** C1 (as amended). Stage classification.  A slot counts as present
    when the mapping holds a value for it that is not null, not [False],
    not zero and not empty.  For every slot mapping: when name, phone,
    brand and maximal budget are all present and the budget is not a
    number, or the timeline is given and is not a text, the classifier
    raises ([AttributeError] or [TypeError]) and sets no stage; in every
    other case it returns, and the stage is the one of the first matching
    rule: no basic information is "discovery", basic information without
    brand and budget is "qualification", brand and budget without name and
    phone is "closing", all of them is "completed". *)
Theorem stage_classification (state : ConversationState) (w : world) :
  let data := dict_at w (extracted_data state) in
  let p := holds_something data in
  if contact_info p && qualification_info p && negb (tier_computable data)
  then ∃ c msg, _determine_stage state w = (Raise (Exc c msg), w)
                ∧ (c = AttributeError ∨ c = TypeError)
  else ∃ state', _determine_stage state w = (Ok state', w)
                 ∧ first_match_stage p = Some (current_stage state').
Proof.
  cbv zeta. set (data := dict_at w (extracted_data state)).
  rewrite contact_info_code, qualification_info_code, tier_computable_code,
    first_match_stage_code, determine_stage_unfold.
  cbv zeta. fold data.
  destruct (has_contact_info data && has_qualification_info data) eqn:Hg;
    [|eexists; split; reflexivity].
  apply andb_true_iff in Hg as [_ Hq].
  destruct (tier_inputs_typed data) eqn:Ht; cbn [negb andb].
  - rewrite (lead_tier_typed data Ht Hq). eexists. split; reflexivity.
  - destruct (lead_tier_raises data (has_basic_info data) Ht)
      as (c & msg & -> & Hc).
    by exists c, msg.
Qed.

(** C2 (as amended). Lead tier, with a slot present as in C1.  For
    every slot mapping in which name, phone, brand and maximal budget are
    all present: when the budget is a number and the timeline, if given,
    a text, the classifier assigns "hot" for a budget of 3,000,000 or
    more or a timeline that holds an urgency marker, else "warm" for a
    budget of 1,500,000 or more or any basic information, else "cold";
    otherwise it raises and assigns nothing.  In every other mapping it
    leaves the tier as it was, which is null in the state a turn starts
    with. *)
Theorem lead_tier_rule (state : ConversationState) (w : world) :
  let data := dict_at w (extracted_data state) in
  let p := holds_something data in
  (if contact_info p && qualification_info p then
     if tier_computable data then
       ∃ state', _determine_stage state w = (Ok state', w)
                 ∧ lead_qualification state' = Some (rule_tier p data)
     else ∃ c msg, _determine_stage state w = (Raise (Exc c msg), w)
                   ∧ (c = AttributeError ∨ c = TypeError)
   else ∃ state', _determine_stage state w = (Ok state', w)
                  ∧ lead_qualification state' = lead_qualification state)
  ∧ ∀ sid history message l,
      lead_qualification (initial_state sid history message l) = None.
Proof.
  cbv zeta. split; [|reflexivity].
  set (data := dict_at w (extracted_data state)).
  rewrite contact_info_code, qualification_info_code, tier_computable_code,
    rule_tier_code, determine_stage_unfold.
  cbv zeta. fold data.
  destruct (has_contact_info data && has_qualification_info data) eqn:Hg;
    [|eexists; split; reflexivity].
  apply andb_true_iff in Hg as [_ Hq].
  destruct (tier_inputs_typed data) eqn:Ht.
  - rewrite (lead_tier_typed data Ht Hq). eexists. split; reflexivity.
  - destruct (lead_tier_raises data (has_basic_info data) Ht)
      as (c & msg & -> & Hc).
    by exists c, msg.
Qed.

(** With some basic information the tier rule never answers "cold". *)
Lemma lead_tier_not_cold data tier :
  lead_tier data true = Ok tier → tier = hot ∨ tier = warm.
Proof.
  unfold lead_tier.
  destruct (py_lower _) as [t|]; [|discriminate].
  cbn [mbind result_bind rbind].
  destruct (py_ge_int _ 3000000) as [high|]; [|discriminate].
  cbn [mbind result_bind rbind].
  destruct (high || _ || _); [intros [= <-]; by left|].
  destruct (py_ge_int _ 1500000) as [mid|]; [|discriminate].
  cbn [mbind result_bind rbind]. rewrite orb_true_r.
  intros [= <-]; by right.
Qed.

(** C8. The "cold" tier is unreachable: whenever the classifier returns,
    the tier is the one the state had or it is "hot" or "warm"; the rule
    runs only with brand and budget present, and these make the basic
    information that forces "warm" when "hot" is not taken. *)
Theorem cold_never_assigned (state : ConversationState) (w : world) :
  match _determine_stage state w with
  | (Ok state', _) =>
      lead_qualification state' = lead_qualification state
      ∨ lead_qualification state' = Some hot
      ∨ lead_qualification state' = Some warm
  | (Raise _, _) => True
  end ∧ hot ≠ cold ∧ warm ≠ cold.
Proof.
  split; [|split; discriminate].
  rewrite determine_stage_unfold. cbv zeta.
  set (data := dict_at w (extracted_data state)).
  destruct (has_contact_info data && has_qualification_info data) eqn:Hg;
    [|by left].
  apply andb_true_iff in Hg as [_ Hq].
  rewrite (qualification_implies_basic data Hq).
  destruct (lead_tier data true) as [tier|] eqn:Ht; [|done].
  right. destruct (lead_tier_not_cold _ _ Ht) as [-> | ->]; [by left | by right].
Qed.

End Classifier.

(** The examples of C1: a brand alone, nothing, brand and budget, and
    brand, budget, name and phone. *)
Lemma stage_classification_examples :
  (∃ s, @_determine_stage idle_env state_zero
          (world_holding (slots [("car_brand", VStr (u "X"))]%string))
        = (Ok s, world_holding (slots [("car_brand", VStr (u "X"))]%string))
        ∧ current_stage s = u "qualification")
  ∧ (∃ s, @_determine_stage idle_env state_zero (world_holding ∅)
          = (Ok s, world_holding ∅)
          ∧ current_stage s = u "discovery")
  ∧ (∃ s, @_determine_stage idle_env state_zero
            (world_holding (slots [("car_brand", VStr (u "X"));
                                   ("budget_max", VInt 2000000)]%string))
          = (Ok s, world_holding (slots [("car_brand", VStr (u "X"));
                                         ("budget_max", VInt 2000000)]%string))
          ∧ current_stage s = u "closing")
  ∧ (∃ s, @_determine_stage idle_env state_zero
            (world_holding (ready_slots (VInt 2000000)))
          = (Ok s, world_holding (ready_slots (VInt 2000000)))
          ∧ current_stage s = u "completed").
Proof.
  repeat split;
    match goal with
    | |- ∃ s, _determine_stage ?st ?w = _ ∧ _ =>
        destruct (@stage_classification idle_env st w) as (s & Hrun & Hs);
        exists s; split; [exact Hrun |];
        apply (inj Some); rewrite <- Hs; vm_compute; reflexivity
    end.
Defined.

(** C1 fails as stated, in two ways.  With brand, budget, name, phone
    and a timeline given as a number, the rules say "completed" and the
    classifier raises.  With a budget of zero the slot holds a value, so
    the rules say "completed", and the classifier, for which zero is no
    value, answers "qualification". *)
Lemma stage_differs_from_stated_rules :
  (first_match_stage (holds_value merged_with_timeline) = Some (u "completed")
   ∧ @_determine_stage idle_env state_zero (world_holding merged_with_timeline)
     = (Raise (Exc AttributeError (u "'int' object has no attribute 'lower'")),
        world_holding merged_with_timeline))
  ∧ (first_match_stage (holds_value zero_budget) = Some (u "completed")
     ∧ ∃ s, @_determine_stage idle_env state_zero (world_holding zero_budget)
            = (Ok s, world_holding zero_budget)
            ∧ current_stage s = u "qualification").
Proof.
  split; split; try (vm_compute; reflexivity).
  eexists. split; vm_compute; reflexivity.
Qed.

(** The examples of C2: a budget of 5,000,000 is "hot", one of 2,000,000
    is "warm", an urgent timeline makes 2,000,000 "hot", and without name
    and phone the tier stays null. *)
Lemma lead_tier_rule_examples :
  (∃ s, @_determine_stage idle_env state_zero
          (world_holding (ready_slots (VInt 5000000)))
        = (Ok s, world_holding (ready_slots (VInt 5000000)))
        ∧ lead_qualification s = Some (u "hot"))
  ∧ (∃ s, @_determine_stage idle_env state_zero
            (world_holding (ready_slots (VInt 2000000)))
          = (Ok s, world_holding (ready_slots (VInt 2000000)))
          ∧ lead_qualification s = Some (u "warm"))
  ∧ (∃ s, @_determine_stage idle_env state_zero (world_holding urgent_slots)
          = (Ok s, world_holding urgent_slots)
          ∧ lead_qualification s = Some (u "hot"))
  ∧ (∃ s, @_determine_stage idle_env state_zero
            (world_holding (slots [("car_brand", VStr (u "X"));
                                   ("budget_max", VInt 2000000)]%string))
          = (Ok s, world_holding (slots [("car_brand", VStr (u "X"));
                                         ("budget_max", VInt 2000000)]%string))
          ∧ lead_qualification s = None).
Proof.
  repeat split;
    match goal with
    | |- ∃ s, _determine_stage ?st ?w = _ ∧ _ =>
        destruct (proj1 (@lead_tier_rule idle_env st w)) as (s & Hrun & Hs);
        exists s; split; [exact Hrun |];
        rewrite Hs; vm_compute; reflexivity
    end.
Defined.

(** C2 fails as stated, in two ways.  With a budget of 5,000,000 and a
    timeline given as a number the rule says "hot" and the classifier
    raises, assigning nothing.  With a budget of zero, which is a value,
    the rule applies and says "warm"; the classifier does not apply it and
    leaves the tier null. *)
Lemma tier_differs_from_stated_rule :
  (contact_info (holds_value merged_with_timeline)
   && qualification_info (holds_value merged_with_timeline) = true
   ∧ rule_tier (holds_value merged_with_timeline) merged_with_timeline = u "hot"
   ∧ @_determine_stage idle_env state_zero (world_holding merged_with_timeline)
     = (Raise (Exc AttributeError (u "'int' object has no attribute 'lower'")),
        world_holding merged_with_timeline))
  ∧ (contact_info (holds_value zero_budget)
     && qualification_info (holds_value zero_budget) = true
     ∧ rule_tier (holds_value zero_budget) zero_budget = u "warm"
     ∧ ∃ s, @_determine_stage idle_env state_zero (world_holding zero_budget)
            = (Ok s, world_holding zero_budget)
            ∧ lead_qualification s = None).
Proof.
  split; (split; [vm_compute; reflexivity|]); (split; [vm_compute; reflexivity|]).
  - vm_compute; reflexivity.
  - eexists. split; vm_compute; reflexivity.
Qed.

(** ** The budget normaliser *)

(** The cases of [tests/test_agent.py], class [TestBudgetParsing]. *)
Example test_parse_budget_millions :
  map (fun s => _parse_budget (VStr (u s)))
    ["2 млн"; "2.5 млн"; "3млн"; "2 миллиона"; "1.5 миллиона"]%string
  = map (fun z => Ok (Some z)) [2000000; 2500000; 3000000; 2000000; 1500000].
Proof. vm_compute. reflexivity. Qed.

Example test_parse_budget_thousands :
  map (fun s => _parse_budget (VStr (u s))) ["500 тыс"; "1500 тысяч"]%string
  = [Ok (Some 500000); Ok (Some 1500000)].
Proof. vm_compute. reflexivity. Qed.

Example test_parse_budget_raw_number :
  _parse_budget (VInt 2000000) = Ok (Some 2000000)
  ∧ _parse_budget (VStr (u "2000000")) = Ok (Some 2000000)
  ∧ _parse_budget (VFloat (Float.of_decimal 25 1)) = Ok (Some 2).
Proof. vm_compute. repeat split; reflexivity. Qed.

Example test_parse_budget_small_number_as_millions :
  _parse_budget (VStr (u "2")) = Ok (Some 2000000)
  ∧ _parse_budget (VStr (u "3.5")) = Ok (Some 3500000).
Proof. vm_compute. split; reflexivity. Qed.

Example test_parse_budget_invalid :
  _parse_budget (VStr []) = Ok None
  ∧ _parse_budget (VStr (u "много")) = Ok None
  ∧ _parse_budget VNone = Ok None.
Proof. vm_compute. repeat split; reflexivity. Qed.

(** Numeric input is truncated towards zero whenever it is finite. *)
Lemma parse_budget_int z : _parse_budget (VInt z) = Ok (Some z).
Proof. reflexivity. Qed.

(** C3. A budget text that has a run of digits and points which is not a
    numeral makes the normaliser raise [ValueError] where the claim
    promises a number or null: a lone point, and an amount written with
    separators of thousands. *)
Theorem parse_budget_raises_on_malformed_numeral :
  _parse_budget (VStr (u "."))
  = Raise (Exc ValueError (u "could not convert string to float: '.'"))
  ∧ _parse_budget (VStr (u "1,500,000"))
    = Raise (Exc ValueError (u "could not convert string to float: '1.500.000'")).
Proof. vm_compute. split; reflexivity. Qed.

(** The product is a float product: it can fall just short of the
    decimal product, and truncation then loses a unit. *)
Example parse_budget_float_product :
  _parse_budget (VStr (u "1.001 млн")) = Ok (Some 1000999).
Proof. vm_compute. reflexivity. Qed.

(** Removing the spaces first lets a point of the text join the number. *)
Example parse_budget_joined_point :
  _parse_budget (VStr (u "руб. 2 млн")) = Ok (Some 200000).
Proof. vm_compute. reflexivity. Qed.

(** ** The retry decorator *)

Section Retry.
Context {E : env}.

Lemma called_0 (w : world) : called 0 [] w = w.
Proof. destruct w. unfold called, with_slept, with_llm_calls. simpl.
  by rewrite app_nil_r, Nat.add_0_r. Qed.

Lemma called_called k1 d1 k2 d2 (w : world) :
  called k2 d2 (called k1 d1 w) = called (k1 + k2) (d1 ++ d2) w.
Proof. destruct w. unfold called, with_slept, with_llm_calls. simpl.
  by rewrite app_assoc, Nat.add_assoc. Qed.

Lemma calls_called k d (w : world) :
  w_llm_calls (called k d w) = (w_llm_calls w + k)%nat.
Proof. reflexivity. Qed.

(** The wrapped function of [_call_llm]: one call of the model. *)
Lemma call_once (w : world) :
  (response ← llm_ainvoke; ret (r_content response)) w =
  match llm_script (w_llm_calls w) with
  | Ok r => (Ok (r_content r), called 1 [] w)
  | Raise e => (Raise e, called 1 [] w)
  end.
Proof.
  unfold mbind, M_bind, bind, llm_ainvoke, ret.
  replace (called 1 [] w) with (with_llm_calls (S (w_llm_calls w)) w).
  - by destruct (llm_script _).
  - destruct w. unfold called, with_slept, with_llm_calls. simpl.
    by rewrite app_nil_r, Nat.add_1_r.
Qed.

Lemma retry_delay_0 : retry_delay f_1_0 f_10_0 true 0 = Ok f_1_0.
Proof. vm_compute. reflexivity. Qed.

Lemma retry_delay_1 : retry_delay f_1_0 f_10_0 true 1 = Ok f_2_0.
Proof. vm_compute. reflexivity. Qed.

Lemma sleep_called d (w : world) : asyncio_sleep d w = (Ok tt, called 0 [d] w).
Proof. destruct w. unfold asyncio_sleep, called, with_slept, with_llm_calls.
  simpl. by rewrite Nat.add_0_r. Qed.

(** One iteration of the loop. *)
Lemma retry_loop_step {A} max_retries base_delay max_delay backoff
    (func : M A) remaining attempt last_error (w : world) :
  retry_loop max_retries base_delay max_delay backoff func
    (S remaining) attempt last_error w =
  match func w with
  | (Ok a, w') => (Ok (Some a), w')
  | (Raise e, w') =>
      if is_transient e && (Z.of_nat attempt <? max_retries - 1) then
        match retry_delay base_delay max_delay backoff attempt with
        | Ok delay =>
            retry_loop max_retries base_delay max_delay backoff func
              remaining (S attempt) (Some e) (called 0 [delay] w')
        | Raise x => (Raise x, w')
        end
      else (Raise (AIError (handle_openai_error e)), w')
  end.
Proof.
  cbn [retry_loop]. destruct (func w) as [[a|e] w']; [done|].
  destruct (is_transient e); [|done].
  destruct (Z.of_nat attempt <? max_retries - 1); [|done].
  cbn [andb]. unfold mbind at 1, M_bind at 1, bind at 1, lift at 1.
  destruct (retry_delay _ _ _ _) as [d|x]; [|done].
  unfold mbind at 1, M_bind at 1, bind at 1. by rewrite sleep_called.
Qed.

(** After the loop: the last error is converted and raised. *)
Lemma retry_loop_done {A} max_retries base_delay max_delay backoff
    (func : M A) attempt e (w : world) :
  retry_loop max_retries base_delay max_delay backoff func
    0 attempt (Some e) w = (Raise (AIError (handle_openai_error e)), w).
Proof. reflexivity. Qed.

(** Only authentication failures are marked as not recoverable. *)
Lemma handle_openai_error_recoverable e :
  recoverable (handle_openai_error e)
  = negb (isinstance_openai e AuthenticationError).
Proof.
  unfold handle_openai_error.
  destruct e as [[[]| | | | | | |] msg|a]; reflexivity.
Qed.

(** The three attempts of [_call_llm], case by case. *)
Lemma call_llm_unfold (w : world) :
  _call_llm w =
  match llm_script (w_llm_calls w) with
  | Ok r => (Ok (Some (r_content r)), called 1 [] w)
  | Raise e0 =>
      if is_transient e0 then
        match llm_script (w_llm_calls w + 1) with
        | Ok r => (Ok (Some (r_content r)), called 2 [f_1_0] w)
        | Raise e1 =>
            if is_transient e1 then
              match llm_script (w_llm_calls w + 2) with
              | Ok r => (Ok (Some (r_content r)), called 3 [f_1_0; f_2_0] w)
              | Raise e2 =>
                  (Raise (AIError (handle_openai_error e2)),
                   called 3 [f_1_0; f_2_0] w)
              end
            else (Raise (AIError (handle_openai_error e1)), called 2 [f_1_0] w)
        end
      else (Raise (AIError (handle_openai_error e0)), called 1 [] w)
  end.
Proof.
  set (n := w_llm_calls w).
  unfold _call_llm, with_retry. change (Z.to_nat 3) with 3%nat.
  rewrite retry_loop_step, call_once. fold n.
  destruct (llm_script n) as [r0|e0]; [done|].
  destruct (is_transient e0); [|done].
  change (Z.of_nat 0 <? 3 - 1) with true. cbn [andb].
  rewrite retry_delay_0, retry_loop_step, call_once, !called_called,
    calls_called.
  fold n. cbn [Nat.add app].
  destruct (llm_script (n + 1)) as [r1|e1]; [done|].
  destruct (is_transient e1); [|done].
  change (Z.of_nat 1 <? 3 - 1) with true. cbn [andb].
  rewrite retry_delay_1, retry_loop_step, call_once, !called_called,
    calls_called.
  fold n. cbn [Nat.add app].
  destruct (llm_script (n + 2)) as [r2|e2]; [done|].
  change (Z.of_nat 2 <? 3 - 1) with false. by rewrite andb_false_r.
Qed.

(** [_call_llm] touches nothing but the script position and the sleeps. *)
Lemma call_llm_called (w : world) :
  ∃ k delays, (_call_llm w).2 = called k delays w.
Proof.
  rewrite call_llm_unfold.
  repeat match goal with
         | |- context [match ?x with _ => _ end] => destruct x
         end; eauto.
Qed.

(** Whatever [_call_llm] raises is an [AIServiceError]. *)
Lemma call_llm_raises (w w' : world) e :
  _call_llm w = (Raise e, w') → ∃ a, e = AIError a.
Proof.
  rewrite call_llm_unfold.
  repeat match goal with
         | |- context [match ?x with _ => _ end] => destruct x
         end; intros [= <- <-]; eauto.
Qed.

(** It never returns [None]. *)
Lemma call_llm_returns (w w' : world) o :
  _call_llm w = (Ok o, w') → ∃ text, o = Some text.
Proof.
  rewrite call_llm_unfold.
  repeat match goal with
         | |- context [match ?x with _ => _ end] => destruct x
         end; intros [= <- <-]; eauto.
Qed.

(** C5 (as amended). [_call_llm] makes at most three attempts.  A
    transient failure (rate limit, connection, timeout) of the first or
    second attempt is followed by a sleep of min(1.0 * 2^attempt, 10.0)
    seconds and another attempt, so two transient failures and a success
    return the reply after the two delays 1.0 and 2.0; a failure of the
    third attempt is converted by [handle_openai_error] and raised once.
    Any other failure is converted and raised at once, with no delay: an
    authentication failure as an error that is not recoverable, every
    other one as an error marked recoverable. *)
Theorem call_llm_retry_semantics (w : world) :
  let n := w_llm_calls w in
  _call_llm w =
  match llm_script n with
  | Ok r => (Ok (Some (r_content r)), called 1 [] w)
  | Raise e0 =>
      if is_transient e0 then
        match llm_script (n + 1) with
        | Ok r => (Ok (Some (r_content r)), called 2 [f_1_0] w)
        | Raise e1 =>
            if is_transient e1 then
              match llm_script (n + 2) with
              | Ok r => (Ok (Some (r_content r)), called 3 [f_1_0; f_2_0] w)
              | Raise e2 =>
                  (Raise (AIError (handle_openai_error e2)),
                   called 3 [f_1_0; f_2_0] w)
              end
            else (Raise (AIError (handle_openai_error e1)), called 2 [f_1_0] w)
        end
      else (Raise (AIError (handle_openai_error e0)), called 1 [] w)
  end
  ∧ retry_delay f_1_0 f_10_0 true 0 = Ok f_1_0
  ∧ retry_delay f_1_0 f_10_0 true 1 = Ok f_2_0
  ∧ ∀ e, recoverable (handle_openai_error e)
         = negb (isinstance_openai e AuthenticationError).
Proof.
  intros n.
  split; [apply call_llm_unfold|].
  split; [apply retry_delay_0|].
  split; [apply retry_delay_1|].
  apply handle_openai_error_recoverable.
Qed.

End Retry.

(** The counterexample to C5 as stated: a failure that no [except]
    clause names is raised at the first attempt with no delay, but as an
    error marked recoverable. *)
Lemma unrecognized_failure_is_recoverable :
  @_call_llm env_unrecognized (@fresh_world env_unrecognized tt)
  = (Raise (AIError
       {| ai_kind := AIServiceError;
          message := u "boom";
          user_message := u "Произошла непредвиденная ошибка. Мы уже работаем над её устранением.";
          recoverable := true |}),
     called 1 [] (@fresh_world env_unrecognized tt))
  ∧ is_transient (Exc OtherException (u "boom")) = false.
Proof. vm_compute. split; reflexivity. Qed.

(** The retry test of the specification: two transient failures, then a
    reply. *)
Example two_transient_failures_then_success :
  @_call_llm env_flaky (@fresh_world env_flaky tt)
  = (Ok (Some (u "ok")), called 3 [f_1_0; f_2_0] (@fresh_world env_flaky tt)).
Proof. vm_compute. reflexivity. Qed.

(** An authentication failure is raised at the first attempt. *)
Example authentication_failure_not_retried :
  @_call_llm env_auth (@fresh_world env_auth tt)
  = (Raise (AIError AIAuthError_), called 1 [] (@fresh_world env_auth tt)).
Proof. vm_compute. reflexivity. Qed.

(** ** Slot extraction *)

Section Extraction.
Context {E : env}.



Lemma builtin_only_bind {A B} (r : result A) (k : A → result B) :
  builtin_only r → (∀ a, builtin_only (k a)) → builtin_only (r ≫= k).
Proof. destruct r as [a|[]]; simpl; auto. Qed.

Lemma trunc_builtin f : builtin_only (Float.trunc f).
Proof. by destruct f. Qed.

Lemma of_int_builtin z : builtin_only (Float.of_int z).
Proof. unfold Float.of_int. by destruct (binary_normalize _ _ _ _ _). Qed.

Lemma mul_int_builtin f z : builtin_only (Float.mul_int f z).
Proof.
  unfold Float.mul_int. apply builtin_only_bind; [apply of_int_builtin|done].
Qed.

Lemma of_str_builtin s : builtin_only (Float.of_str s).
Proof. unfold Float.of_str. by destruct (Float.scan _ _ _ _) as [[[? ?] []]|]. Qed.

Lemma parse_budget_builtin v : builtin_only (_parse_budget v).
Proof.
  destruct v; simpl; try done.
  - apply builtin_only_bind; [apply trunc_builtin|done].
  - destruct (findall_numbers _ _); [done|].
    apply builtin_only_bind; [apply of_str_builtin|]. intros num.
    repeat match goal with
           | |- context [if ?c then _ else _] => destruct c
           end;
      repeat (apply builtin_only_bind;
              [first [apply mul_int_builtin | apply trunc_builtin]|intros ?]);
      done.
Qed.

Lemma dict_items_builtin v : builtin_only (dict_items v).
Proof. by destruct v. Qed.

Lemma merge_items_builtin l items (w : world) :
  builtin_only (merge_items l items w).1.
Proof.
  revert w. induction items as [|[key value] rest IH]; intros w; [done|].
  cbn [merge_items]. unfold mbind, M_bind, bind, lift, ret, dict_setitem.
  destruct (negb (is_none value)); [|apply IH].
  destruct (is_budget_key key && is_str value); [|apply IH].
  pose proof (parse_budget_builtin value) as Hb.
  unfold fmap, result_fmap, rbind.
  destruct (_parse_budget value) as [o|[]]; simpl in *; [apply IH|done|done].
Qed.

(** What the node computes, case by case. *)
Lemma extract_slots_unfold (state : ConversationState) (w : world) :
  _extract_slots state w =
  let l := extracted_data state in
  let done (s : ConversationState) (w1 : world) :=
    (Ok (set_missing_slots (compute_missing_slots (dict_at w1 l)) s), w1) in
  match _call_llm w with
  | (Raise (AIError a), w1) => done (set_error (Some (user_message a)) state) w1
  | (Raise (Exc _ _), w1) => done state w1
  | (Ok None, w1) => done state w1
  | (Ok (Some text), w1) =>
      match json_loads (strip_fences (strip text)) with
      | None => done state w1
      | Some extracted =>
          match dict_items extracted with
          | Raise _ => done state w1
          | Ok items => done state (merge_items l items w1).2
          end
      end
  end.
Proof.
  unfold _extract_slots, try_except, mbind, M_bind, bind, lift, ret, raise,
    read_dict.
  destruct (_call_llm w) as [[[text|]|[c msg|a]] w1]; try reflexivity.
  destruct (json_loads _) as [extracted|]; [|reflexivity].
  pose proof (dict_items_builtin extracted) as Hd.
  destruct (dict_items extracted) as [items|[]]; [|done..].
  pose proof (merge_items_builtin (extracted_data state) items w1) as Hm.
  by destruct (merge_items _ items w1) as [[[]|[]] w2].
Qed.

(** The node never raises. *)
Lemma extract_slots_returns (state : ConversationState) (w : world) :
  ∃ s, (_extract_slots state w).1 = Ok s.
Proof.
  rewrite extract_slots_unfold. cbv zeta.
  repeat match goal with
         | |- context [match ?x with _ => _ end] => destruct x
         end; eauto.
Qed.





End Extraction.



(** C4 fails on the code: a budget the language model hands over in
    words parses to [None], and the merge stores that [None] over the
    budget the customer gave before. *)
Theorem unparseable_budget_nulls_slot :
  let w := @holding env_budget_in_words tt
             (slots [("budget_max", VInt 2000000)]%string) in
  dict_at w 0%nat !! "budget_max"%string = Some (VInt 2000000)
  ∧ @json_loads env_budget_in_words budget_in_words
    = Some (VDict [("budget_max", VStr (u "много"))]%string)
  ∧ dict_at (@_extract_slots env_budget_in_words state_zero w).2 0%nat
      !! "budget_max"%string = Some VNone.
Proof. vm_compute. repeat split; reflexivity. Qed.

(** ** Fallback mode *)

Section Fallback.
Context {E : env}.

Lemma errors_kept_ret {A} (a : A) : errors_kept (ret a).
Proof. by intros w _. Qed.

Lemma errors_kept_mret {A} (a : A) : errors_kept (mret a : M A).
Proof. by intros w _. Qed.

Lemma errors_kept_raise {A} e : errors_kept (raise e : M A).
Proof. by intros w _. Qed.

Lemma errors_kept_lift {A} (r : result A) : errors_kept (lift r).
Proof. by intros w _. Qed.

Lemma errors_kept_bind {A B} (m : M A) (k : A → M B) :
  errors_kept m → (∀ a, errors_kept (k a)) → errors_kept (m ≫= k).
Proof.
  intros Hm Hk w Hw. unfold mbind, M_bind, bind.
  specialize (Hm w Hw). destruct (m w) as [[a|e] w1]; simpl in *; [|done].
  rewrite <- Hm. apply Hk. unfold in_fallback. by rewrite Hm.
Qed.

Lemma errors_kept_try {A} (m : M A) (h : pyexn → M A) :
  errors_kept m → (∀ e, errors_kept (h e)) → errors_kept (try_except m h).
Proof.
  intros Hm Hh w Hw. unfold try_except.
  specialize (Hm w Hw). destruct (m w) as [[a|e] w1]; simpl in *; [done|].
  rewrite <- Hm. apply Hh. unfold in_fallback. by rewrite Hm.
Qed.

Lemma errors_kept_read_dict l : errors_kept (read_dict l).
Proof. by intros w _. Qed.

Lemma errors_kept_new_dict d : errors_kept (new_dict d).
Proof. by intros w _. Qed.

Lemma errors_kept_setitem l k v : errors_kept (dict_setitem l k v).
Proof. by intros w _. Qed.

Lemma errors_kept_db_select sid : errors_kept (db_select sid).
Proof. intros w _. unfold db_select. by destruct (db_select_lead _ _). Qed.

Lemma errors_kept_db_save sid up msgs : errors_kept (db_save sid up msgs).
Proof. intros w _. unfold db_save. by destruct (db_commit _ _ _ _). Qed.

Lemma errors_kept_fresh_session_id : errors_kept fresh_session_id.
Proof. by intros w _. Qed.

Lemma errors_kept_call_llm : errors_kept _call_llm.
Proof. intros w _. by destruct (call_llm_called w) as (k & d & ->). Qed.

Create HintDb kept.
Hint Resolve errors_kept_ret errors_kept_mret errors_kept_raise errors_kept_lift
  errors_kept_read_dict errors_kept_new_dict errors_kept_setitem
  errors_kept_db_select errors_kept_db_save errors_kept_fresh_session_id
  errors_kept_call_llm : kept.

Ltac kept :=
  repeat first
    [ progress intros
    | solve [auto with kept]
    | apply errors_kept_bind
    | apply errors_kept_try
    | match goal with
      | |- errors_kept (match ?x with _ => _ end) => destruct x
      | |- errors_kept (if ?c then _ else _) => destruct c
      | |- errors_kept (let _ := _ in _) => cbv zeta
      end ].

Lemma errors_kept_merge_items l items : errors_kept (merge_items l items).
Proof.
  induction items as [|[key value] rest IH]; cbn [merge_items]; kept.
Qed.
Hint Resolve errors_kept_merge_items : kept.

Lemma errors_kept_extract_slots state : errors_kept (_extract_slots state).
Proof. unfold _extract_slots. kept. Qed.

Lemma errors_kept_determine_stage state : errors_kept (_determine_stage state).
Proof. unfold _determine_stage. kept. Qed.

(** In fallback mode the generator answers with the canned text and
    touches nothing: no call of the language model, no success and no
    error recorded. *)
Lemma generate_response_fallback state (w : world) :
  in_fallback w →
  _generate_response state w
  = (Ok (append_message (assistant fallback_general) state), w).
Proof.
  intros Hw. unfold _generate_response, should_use_fallback.
  unfold mbind at 1, M_bind at 1, bind at 1. by rewrite Hw.
Qed.

Lemma errors_kept_generate_response state : errors_kept (_generate_response state).
Proof. intros w Hw. by rewrite generate_response_fallback. Qed.

Lemma errors_kept_save_to_db state : errors_kept (_save_to_db state).
Proof. unfold _save_to_db. kept. Qed.

Hint Resolve errors_kept_extract_slots errors_kept_determine_stage
  errors_kept_generate_response errors_kept_save_to_db : kept.

Lemma errors_kept_graph state : errors_kept (graph_ainvoke state).
Proof. unfold graph_ainvoke. kept. Qed.
Hint Resolve errors_kept_graph : kept.

Lemma errors_kept_process_message message history sid :
  errors_kept (process_message message history sid).
Proof.
  unfold process_message, resolve_session_id, load_seed. kept.
Qed.

Lemma serve_keeps_errors turns (w : world) :
  in_fallback w → w_errors (serve turns w).2 = w_errors w.
Proof.
  revert w. induction turns as [|t rest IH]; intros w Hw; [done|].
  cbn [serve].
  pose proof (errors_kept_process_message (t_message t) (t_history t)
                (t_session_id t) w Hw) as H1.
  destruct (process_message _ _ _ w) as [r w1]. simpl in H1.
  specialize (IH w1). destruct (serve rest w1) as [rs w2]. simpl in *.
  rewrite <- H1. apply IH. unfold in_fallback. by rewrite H1.
Qed.

(** C9. Fallback mode is permanent.  Once the streak of consecutive
    errors has reached three, after any number of further turns the error
    context is what it was and the generator is still in fallback mode:
    it returns in the same world (no call of the language model, no
    success and no error recorded), having appended to the messages one
    message of the assistant with the canned text, and having changed
    nothing else of the state. *)
Theorem fallback_is_permanent (w : world) (turns : list turn) :
  should_use_fallback_ctx (w_errors w) = true →
  let w' := (serve turns w).2 in
  w_errors w' = w_errors w
  ∧ should_use_fallback_ctx (w_errors w') = true
  ∧ ∀ state, ∃ s,
      _generate_response state w' = (Ok s, w')
      ∧ messages s
        = messages state
          ++ [{| role := u "assistant";
                 content := u "Извините, возникла техническая ошибка. Пожалуйста, попробуйте ещё раз через несколько секунд. Если проблема повторится — оставьте ваш телефон, и менеджер свяжется с вами." |}]
      ∧ session_id s = session_id state
      ∧ extracted_data s = extracted_data state
      ∧ current_stage s = current_stage state
      ∧ missing_slots s = missing_slots state
      ∧ lead_qualification s = lead_qualification state
      ∧ error s = error state.
Proof.
  intros Hw w'.
  assert (Hk : w_errors w' = w_errors w) by by apply serve_keeps_errors.
  split; [exact Hk|]. split; [by rewrite Hk|].
  intros state. eexists. split.
  - apply generate_response_fallback. unfold in_fallback. by rewrite Hk.
  - repeat split.
Qed.

End Fallback.

(** C9 at work: the language model is in good health again, and two
    more turns leave the agent in fallback mode all the same. *)
Lemma fallback_is_permanent_example :
  w_errors (serve two_turns tripped_world).2 = w_errors tripped_world
  ∧ should_use_fallback_ctx (w_errors (serve two_turns tripped_world).2) = true
  ∧ ∃ s, _generate_response state_zero (serve two_turns tripped_world).2
         = (Ok s, (serve two_turns tripped_world).2)
         ∧ length (messages s) = 2%nat.
Proof.
  destruct (@fallback_is_permanent env_healthy tripped_world two_turns eq_refl)
    as (Hk & Hf & Hgen).
  split; [exact Hk|]. split; [exact Hf|].
  destruct (Hgen state_zero) as (s & Hrun & Hm & _).
  exists s. split; [exact Hrun|]. by rewrite Hm.
Defined.

(** ** The turn coordinator *)

Section Turn.
Context {E : env}.

(** The classifier mutates nothing. *)
Lemma determine_stage_world state (w : world) : (_determine_stage state w).2 = w.
Proof.
  rewrite determine_stage_unfold. cbv zeta.
  destruct (_ && _); [|done]. by destruct (lead_tier _ _).
Qed.

(** The generator raises only before it has done anything: through the
    knowledge lookup. *)
Lemma generate_response_raise state (w w' : world) e :
  _generate_response state w = (Raise e, w') → w' = w.
Proof.
  unfold _generate_response, should_use_fallback, try_except, record_error,
    record_success, llm_ainvoke, mbind, M_bind, bind, lift, ret.
  destruct (should_use_fallback_ctx _); [discriminate|].
  destruct (get_relevant_knowledge _) as [knowledge|x]; [|by intros [= _ <-]].
  destruct (llm_script _) as [r|[c msg|a]]; [|discriminate..].
  destruct (r_tool_calls r) as [|tc calls]; [discriminate|].
  destruct (execute_tool_calls _ _) as [[rs|x] w1].
  - destruct (llm_script _) as [r2|[c msg|a]]; discriminate.
  - destruct x; discriminate.
Qed.

(** A [try] whose handler returns does not raise. *)
Lemma try_except_returns {A} (m : M A) (h : pyexn → M A) (w : world) :
  (∀ e w1, ∃ a w2, h e w1 = (Ok a, w2)) →
  ∃ a w', try_except m h w = (Ok a, w').
Proof.
  intros Hh. unfold try_except.
  destruct (m w) as [[a|e] w1]; [eauto|apply Hh].
Qed.

(** Persisting never raises. *)
Lemma save_to_db_returns state (w : world) :
  ∃ w', _save_to_db state w = (Ok state, w').
Proof.
  unfold _save_to_db. unfold mbind at 1, M_bind at 1, bind at 1.
  match goal with
  | |- context [try_except ?m ?h w] =>
      destruct (try_except_returns m h w) as ([] & w1 & ->)
  end; eauto.
Qed.
(** When the graph raises, the world is the one slot extraction left:
    the classifier and the generator raise before they change anything. *)
Lemma graph_raise_world state (w w' : world) e :
  graph_ainvoke state w = (Raise e, w') → w' = (_extract_slots state w).2.
Proof.
  unfold graph_ainvoke. unfold mbind at 1, M_bind at 1, bind at 1.
  destruct (extract_slots_returns state w) as (s1 & Hs1).
  destruct (_extract_slots state w) as [r1 w1]. simpl in *. subst r1.
  unfold mbind at 1, M_bind at 1, bind at 1.
  pose proof (determine_stage_world s1 w1) as Hd.
  destruct (_determine_stage s1 w1) as [[s2|e2] w2]; simpl in Hd; subst w2;
    [|by intros [= _ <-]].
  unfold mbind at 1, M_bind at 1, bind at 1.
  destruct (_generate_response s2 w1) as [[s3|e3] w3] eqn:Hg.
  - destruct (save_to_db_returns s3 w3) as (w4 & ->). discriminate.
  - apply generate_response_raise in Hg. subst w3. by intros [= _ <-].
Qed.

(** C10 (as amended). When the graph raises, [process_message] returns
    the status "error", which is none of the four stages, a null tier, a
    message in the error field, and as extracted data the dictionary it
    seeded from the database as slot extraction left it: the seeded slots
    together with every slot this turn merged before the failure. *)
Theorem failed_turn_outcome (message : pystr) (history : list chat_message)
    (session_id : option pystr) (w w1 w2 w3 : world)
    (sid : pystr) (seed : pydict) (e : pyexn) :
  let l := length (w_heap w2) in
  let start := initial_state sid history (truncate_message message) l in
  let merged := dict_at (_extract_slots start (new_dict seed w2).2).2 l in
  is_blank message = false →
  resolve_session_id session_id w = (Ok sid, w1) →
  load_seed sid w1 = (Ok seed, w2) →
  graph_ainvoke start (new_dict seed w2).2 = (Raise e, w3) →
  ∃ o, process_message message history session_id w = (Ok o, w3)
       ∧ o !! "session_id"%string = Some (FText sid)
       ∧ o !! "lead_status"%string = Some (FText (u "error"))
       ∧ (u "error" ∉ [discovery; qualification; closing; completed])
       ∧ o !! "qualification"%string = Some FNull
       ∧ (∃ text, o !! "error"%string = Some (FText text))
       ∧ o !! "extracted_data"%string = Some (FSlots merged).
Proof.
  intros l start merged Hblank Hsid Hseed Hgraph.
  pose proof (graph_raise_world _ _ _ _ Hgraph) as Hw3.
  exists (failure_outcome e sid merged). split.
  - unfold process_message. unfold mbind at 1, M_bind at 1, bind at 1.
    rewrite Hsid, Hblank. cbv zeta.
    unfold mbind at 1, M_bind at 1, bind at 1. rewrite Hseed.
    unfold mbind at 1, M_bind at 1, bind at 1.
    change (new_dict seed w2) with (Ok l, (new_dict seed w2).2).
    unfold try_except. unfold mbind at 1, M_bind at 1, bind at 1.
    fold start. rewrite Hgraph.
    unfold mbind, M_bind, bind, read_dict, ret.
    unfold merged. by rewrite <- Hw3.
  - split; [by destruct e|]. split; [by destruct e|].
    split.
    { intros H.
      repeat (apply elem_of_cons in H as [H|H];
              [vm_compute in H; discriminate H|]).
      by apply elem_of_nil in H. }
    split; [by destruct e|].
    split; [destruct e; eexists; reflexivity|by destruct e].
Qed.

(** The outcome of a blank message. *)
Lemma process_message_blank message history session_id (w : world) :
  is_blank message = true →
  process_message message history session_id w =
  match resolve_session_id session_id w with
  | (Ok sid, w1) => (Ok (blank_outcome sid), w1)
  | (Raise e, w1) => (Raise e, w1)
  end.
Proof.
  intros Hb. unfold process_message. unfold mbind at 1, M_bind at 1, bind at 1.
  destruct (resolve_session_id _ w) as [[sid|e] w1]; [|done]. by rewrite Hb.
Qed.

End Turn.

(** C10 fails as stated: the session has no stored slots, the reply of
    the language model is merged into the seeded dictionary, the
    classifier then raises on the timeline, and the returned extracted
    data are the merged slots, not the (empty) seeded ones. *)
Lemma failed_turn_returns_merged_slots :
  let w := @fresh_world env_timeline_as_number tt in
  (@load_seed env_timeline_as_number (u "abc") w).1 = Ok ∅
  ∧ (@graph_ainvoke env_timeline_as_number
       (initial_state (u "abc") [] (u "hi") 0%nat) (new_dict ∅ w).2).1
    = Raise (Exc AttributeError (u "'int' object has no attribute 'lower'"))
  ∧ ∃ o, (@process_message env_timeline_as_number (u "hi") [] (Some (u "abc")) w).1
         = Ok o
         ∧ o !! "lead_status"%string = Some (FText (u "error"))
         ∧ o !! "extracted_data"%string = Some (FSlots merged_with_timeline)
         ∧ merged_with_timeline ≠ ∅.
Proof.
  cbv zeta. split; [vm_compute; reflexivity|]. split; [vm_compute; reflexivity|].
  eexists. split; [vm_compute; reflexivity|].
  split; [vm_compute; reflexivity|]. split; [vm_compute; reflexivity|].
  intros H. apply (f_equal (lookup "car_brand"%string)) in H.
  vm_compute in H. discriminate.
Qed.

(** C10 at work, on the turn of the counterexample: the status is
    "error" and the extracted data are the slots merged by the turn. *)
Lemma failed_turn_outcome_example :
  ∃ o w3, @process_message env_timeline_as_number (u "hi") [] (Some (u "abc"))
            (@fresh_world env_timeline_as_number tt) = (Ok o, w3)
          ∧ o !! "lead_status"%string = Some (FText (u "error"))
          ∧ o !! "qualification"%string = Some FNull
          ∧ o !! "extracted_data"%string = Some (FSlots merged_with_timeline).
Proof.
  destruct (@failed_turn_outcome env_timeline_as_number (u "hi") []
              (Some (u "abc"))
              (@fresh_world env_timeline_as_number tt)
              (@fresh_world env_timeline_as_number tt)
              (@fresh_world env_timeline_as_number tt)
              (called 1 [] (with_heap [merged_with_timeline]
                              (@fresh_world env_timeline_as_number tt)))
              (u "abc") ∅
              (Exc AttributeError (u "'int' object has no attribute 'lower'"))
              eq_refl eq_refl eq_refl)
    as (o & Hrun & _ & Hstatus & _ & Htier & _ & Hdata).
  - vm_compute. reflexivity.
  - exists o. eexists. split; [exact Hrun|]. split; [exact Hstatus|].
    split; [exact Htier|]. rewrite Hdata. vm_compute. reflexivity.
Defined.

(** C7 fails on the code: the dictionary returned for an empty or blank
    message has five fields, and "error" is not one of them. *)
Theorem blank_message_outcome_lacks_error :
  let w := @fresh_world idle_env tt in
  @process_message idle_env [] [] None w
  = (Ok (blank_outcome (u "123e4567")), with_uuids 1 w)
  ∧ @process_message idle_env (u "   ") [] (Some (u "abc")) w
    = (Ok (blank_outcome (u "abc")), w)
  ∧ ∀ sid, blank_outcome sid !! "error"%string = None
           ∧ dom (blank_outcome sid)
             = list_to_set ["response"; "session_id"; "extracted_data";
                            "lead_status"; "qualification"]%string.
Proof.
  cbv zeta. split; [vm_compute; reflexivity|]. split; [vm_compute; reflexivity|].
  intros sid. split; [reflexivity|].
  unfold blank_outcome. rewrite dom_list_to_map_L. reflexivity.
Qed.


(** * Further properties of the agent *)

(** ** The generator *)

Section Generator.
Context {E : env}.

(** Whenever the generator returns, it has appended one message of the
    assistant to the history and has changed nothing else of the state
    but, on a failure, the error field. *)
Lemma generate_response_appends state (w w' : world) s :
  _generate_response state w = (Ok s, w') →
  ∃ text, messages s = messages state ++ [assistant text]
          ∧ session_id s = session_id state
          ∧ extracted_data s = extracted_data state
          ∧ current_stage s = current_stage state
          ∧ missing_slots s = missing_slots state
          ∧ lead_qualification s = lead_qualification state.
Proof.
  unfold _generate_response, should_use_fallback, try_except, record_error,
    record_success, llm_ainvoke, mbind, M_bind, bind, lift, ret.
  destruct (should_use_fallback_ctx _);
    [intros [= <- <-]; eexists; repeat split; reflexivity|].
  destruct (get_relevant_knowledge _) as [knowledge|x]; [|discriminate].
  destruct (llm_script _) as [r|[c msg|a]];
    [|intros [= <- <-]; eexists; repeat split; reflexivity..].
  destruct (r_tool_calls r) as [|tc calls];
    [intros [= <- <-]; eexists; repeat split; reflexivity|].
  destruct (execute_tool_calls _ _) as [[rs|x] w1].
  - destruct (llm_script _) as [r2|[c msg|a]];
      intros [= <- <-]; eexists; repeat split; reflexivity.
  - destruct x; intros [= <- <-]; eexists; repeat split; reflexivity.
Qed.

End Generator.

(** ** The turn coordinator, always *)

Section Coordinator.
Context {E : env}.

Lemma resolve_session_id_returns session_id (w : world) :
  ∃ sid w', resolve_session_id session_id w = (Ok sid, w').
Proof. destruct session_id as [[|c s]|]; eexists _, _; reflexivity. Qed.

Lemma load_seed_returns sid (w : world) :
  ∃ seed w', load_seed sid w = (Ok seed, w').
Proof.
  unfold load_seed. apply try_except_returns. intros e w1. by exists ∅, w1.
Qed.

(** When the graph returns, the history ends with the generator's
    message. *)
Lemma graph_returns_message state (w w' : world) s :
  graph_ainvoke state w = (Ok s, w') → ∃ text, final_content (messages s) = Ok text.
Proof.
  unfold graph_ainvoke. unfold mbind at 1, M_bind at 1, bind at 1.
  destruct (_extract_slots state w) as [[s1|e1] w1]; [|discriminate].
  unfold mbind at 1, M_bind at 1, bind at 1.
  destruct (_determine_stage s1 w1) as [[s2|e2] w2]; [|discriminate].
  unfold mbind at 1, M_bind at 1, bind at 1.
  destruct (_generate_response s2 w2) as [[s3|e3] w3] eqn:Hg; [|discriminate].
  destruct (save_to_db_returns s3 w3) as (w4 & ->). intros [= <- <-].
  destruct (generate_response_appends _ _ _ _ Hg) as (text & Hm & _).
  exists text. unfold final_content. by rewrite Hm, last_snoc.
Qed.

(** X1. No exception leaves [process_message]: for every message, history,
    session id and state of the surroundings it returns a dictionary.
    The dictionary has the six fields of the contract, except for an
    empty or blank message, where it has five ("error" is absent). *)
Theorem process_message_never_raises (message : pystr)
    (history : list chat_message) (session_id : option pystr) (w : world) :
  ∃ o w', process_message message history session_id w = (Ok o, w')
          ∧ dom o =
            if is_blank message
            then list_to_set ["response"; "session_id"; "extracted_data";
                              "lead_status"; "qualification"]%string
            else list_to_set ["response"; "session_id"; "extracted_data";
                              "lead_status"; "qualification"; "error"]%string.
Proof.
  unfold process_message. unfold mbind at 1, M_bind at 1, bind at 1.
  destruct (resolve_session_id_returns session_id w) as (sid & w1 & ->).
  destruct (is_blank message).
  { eexists _, _. split; [reflexivity|].
    unfold blank_outcome. by rewrite dom_list_to_map_L. }
  cbv zeta. unfold mbind at 1, M_bind at 1, bind at 1.
  destruct (load_seed_returns sid w1) as (seed & w2 & ->).
  unfold mbind at 1, M_bind at 1, bind at 1.
  change (new_dict seed w2) with (Ok (length (w_heap w2)), (new_dict seed w2).2).
  unfold try_except. unfold mbind at 1, M_bind at 1, bind at 1.
  destruct (graph_ainvoke _ _) as [[s|e] w3] eqn:Hg.
  - destruct (graph_returns_message _ _ _ _ Hg) as (text & Ht).
    unfold mbind, M_bind, bind, lift, read_dict, ret. rewrite Ht.
    eexists _, _. split; [reflexivity|].
    unfold success_outcome. by rewrite dom_list_to_map_L.
  - unfold mbind, M_bind, bind, read_dict, ret.
    eexists _, _. split; [reflexivity|].
    destruct e; unfold failure_outcome; by rewrite dom_list_to_map_L.
Qed.

End Coordinator.

(** ** The slot merge *)

Section Merge.
Context {E : env}.

Lemma dict_at_setitem l k x (w : world) d :
  w_heap w !! l = Some d →
  dict_at (dict_setitem l k x w).2 l = <[k:=x]> d.
Proof.
  intros Hd. unfold dict_at, dict_setitem, loc in *. simpl.
  rewrite list_lookup_alter. rewrite decide_True by done. by rewrite Hd.
Qed.

Lemma dict_at_lookup_heap l (w : world) key v :
  dict_at w l !! key = Some v → ∃ d, w_heap w !! l = Some d ∧ d !! key = Some v.
Proof.
  unfold dict_at. destruct (_ !! l) as [d|] eqn:Hd; simpl.
  - intros Hk. exists d. split; [reflexivity|exact Hk].
  - by rewrite lookup_empty.
Qed.

(** X5. The merge never removes a key, and a slot that holds a value keeps
    holding one unless the reply gives, for a budget slot, a text from
    which the normaliser reads no number.  This holds also when the
    merge is cut short by an exception. *)
Theorem merge_keeps_slots l items (w : world) key v :
  dict_at w l !! key = Some v →
  ∃ v', dict_at (merge_items l items w).2 l !! key = Some v'
        ∧ (is_none v = false →
           (∀ s, is_budget_key key = true → (key, VStr s) ∈ items →
                 _parse_budget (VStr s) ≠ Ok None) →
           is_none v' = false).
Proof.
  revert w v. induction items as [|[k value] rest IH]; intros w v Hv.
  { exists v. split; [exact Hv|auto]. }
  cbn [merge_items]. unfold mbind at 1, M_bind at 1, bind at 1.
  destruct (is_none value) eqn:Hnone; cbn [negb].
  { destruct (IH w v Hv) as (v' & Hv' & Hkeep). exists v'. split; [exact Hv'|].
    intros Hn Hp. apply Hkeep; [exact Hn|].
    intros s Hb Hin. apply Hp; [exact Hb|]. by apply list_elem_of_further. }
  destruct (dict_at_lookup_heap _ _ _ _ Hv) as (d & Hd & Hdk).
  unfold mbind at 1, M_bind at 1, bind at 1.
  assert (Hstep : ∀ x, is_none x = false →
            (x = value ∨ ∃ s o, value = VStr s ∧ is_budget_key k = true
                                ∧ _parse_budget (VStr s) = Ok o
                                ∧ x = budget_value o) →
            ∃ v', dict_at (merge_items l rest (dict_setitem l k x w).2).2 l
                    !! key = Some v'
                  ∧ (is_none v = false →
                     (∀ s, is_budget_key key = true →
                           (key, VStr s) ∈ (k, value) :: rest →
                           _parse_budget (VStr s) ≠ Ok None) →
                     is_none v' = false)).
  { intros x Hx _.
    destruct (decide (k = key)) as [->|Hne].
    - destruct (IH (dict_setitem l key x w).2 x) as (v' & Hv' & Hkeep).
      { rewrite (dict_at_setitem _ _ _ _ _ Hd). apply lookup_insert_eq. }
      exists v'. split; [exact Hv'|]. intros _ Hp. apply Hkeep; [exact Hx|].
      intros s Hb Hin. apply Hp; [exact Hb|]. by apply list_elem_of_further.
    - destruct (IH (dict_setitem l k x w).2 v) as (v' & Hv' & Hkeep).
      { rewrite (dict_at_setitem _ _ _ _ _ Hd). by rewrite lookup_insert_ne. }
      exists v'. split; [exact Hv'|]. intros Hn Hp. apply Hkeep; [exact Hn|].
      intros s Hb Hin. apply Hp; [exact Hb|]. by apply list_elem_of_further. }
  destruct (is_budget_key k && is_str value) eqn:Hbs.
  - apply andb_true_iff in Hbs as [Hbk Hstr].
    destruct value as [| | | |s| |]; try discriminate.
    unfold lift, fmap, result_fmap, rbind.
    destruct (_parse_budget (VStr s)) as [[z|]|e] eqn:Hp.
    + apply (Hstep (VInt z)); [done|]. right. by exists s, (Some z).
    + (* the slip: [None] is stored *)
      cbn [budget_value].
      destruct (decide (k = key)) as [->|Hne].
      * destruct (IH (dict_setitem l key VNone w).2 VNone) as (v' & Hv' & _).
        { rewrite (dict_at_setitem _ _ _ _ _ Hd). apply lookup_insert_eq. }
        exists v'. split; [exact Hv'|]. intros _ Hno. exfalso.
        apply (Hno s Hbk); [apply list_elem_of_here|exact Hp].
      * destruct (IH (dict_setitem l k VNone w).2 v) as (v' & Hv' & Hkeep).
        { rewrite (dict_at_setitem _ _ _ _ _ Hd). by rewrite lookup_insert_ne. }
        exists v'. split; [exact Hv'|]. intros Hn Hq. apply Hkeep; [exact Hn|].
        intros s' Hb Hin. apply Hq; [exact Hb|]. by apply list_elem_of_further.
    + exists v. split; [exact Hv|auto].
  - unfold ret. apply (Hstep value); [exact Hnone|by left].
Qed.

End Merge.

(** The merge at work: a reply that has null for the brand and gives a
    name leaves the brand in place. *)
Lemma merge_keeps_slots_example :
  ∃ v', dict_at (@merge_items idle_env 0%nat
                   [("car_brand", VNone); ("name", VStr (u "Y"))]%string
                   (world_holding known_brand)).2 0%nat
          !! "car_brand"%string = Some v'
        ∧ is_none v' = false.
Proof.
  destruct (@merge_keeps_slots idle_env 0%nat
              [("car_brand", VNone); ("name", VStr (u "Y"))]%string
              (world_holding known_brand) "car_brand"%string (VStr (u "X"))
              eq_refl)
    as (v' & Hv' & Hkeep).
  exists v'. split; [exact Hv'|].
  apply Hkeep; [reflexivity|]. intros s Hb. vm_compute in Hb. discriminate Hb.
Defined.

Section Blank.
Context {E : env}.

(** A message is blank exactly when all its characters are white space. *)
Lemma lstrip_nil s : lstrip s = [] ↔ forallb is_space s = true.
Proof.
  induction s as [|c r IH]; simpl; [done|].
  destruct (is_space c); simpl; [exact IH|]. split; discriminate.
Qed.

Lemma lstrip_head s a t : lstrip s = a :: t → is_space a = false.
Proof.
  induction s as [|c r IH]; simpl; [discriminate|].
  destruct (is_space c) eqn:Hc; [exact IH|]. by intros [= <- _].
Qed.

Lemma strip_nil s : strip s = [] ↔ forallb is_space s = true.
Proof.
  unfold strip, rstrip. split.
  - intros Hs. apply (f_equal (@rev N)) in Hs. rewrite rev_involutive in Hs.
    change (rev []) with (@nil N) in Hs. apply lstrip_nil in Hs.
    apply lstrip_nil. destruct (lstrip s) as [|a t] eqn:Hl; [done|].
    exfalso. apply lstrip_head in Hl.
    rewrite forallb_forall in Hs. rewrite (Hs a) in Hl; [discriminate|].
    rewrite <- in_rev. apply in_eq.
  - intros Hall. apply lstrip_nil in Hall. by rewrite Hall.
Qed.

Lemma is_blank_spec message :
  is_blank message = true ↔ forallb is_space message = true.
Proof.
  unfold is_blank. destruct message as [|c r]; [done|].
  rewrite <- strip_nil. by destruct (strip (c :: r)).
Qed.

(** X3. A message made of white space only (the empty one included)
    short-circuits the turn: the answer is the
    fixed request to write a question, under the caller's session id or
    a new one, and nothing is touched but the source of new ids: no call
    of the language model, no sleep, no dictionary, no access to the
    database, no change of the error context. *)
Theorem blank_message_short_circuit (message : pystr)
    (history : list chat_message) (session_id : option pystr) (w : world) :
  forallb is_space message = true →
  ∃ sid w', process_message message history session_id w
            = (Ok (blank_outcome sid), w')
            ∧ blank_outcome sid !! "response"%string = Some (FText prompt_for_input)
            ∧ sid = match session_id with
                    | Some (c :: s) => c :: s
                    | _ => prefix 8 (uuid4_str (w_uuids w))
                    end
            ∧ w_llm_calls w' = w_llm_calls w
            ∧ w_slept w' = w_slept w
            ∧ w_heap w' = w_heap w
            ∧ w_db w' = w_db w
            ∧ w_errors w' = w_errors w.
Proof.
  intros Hb. apply is_blank_spec in Hb.
  rewrite (process_message_blank _ _ _ _ Hb).
  destruct session_id as [[|c s]|]; eexists _, _; repeat split; reflexivity.
Qed.

End Blank.

(** A message of spaces, a tab and a line feed under a given id. *)
Lemma blank_message_short_circuit_example :
  ∃ w', @process_message idle_env [32; 9; 10; 32]%N [] (Some (u "abc"))
          (@fresh_world idle_env tt)
        = (Ok (blank_outcome (u "abc")), w')
        ∧ w_llm_calls w' = 0%nat.
Proof.
  destruct (@blank_message_short_circuit idle_env [32; 9; 10; 32]%N []
              (Some (u "abc")) (@fresh_world idle_env tt) eq_refl)
    as (sid & w' & Hrun & _ & Hsid & Hcalls & _).
  exists w'. split; [by rewrite Hrun, Hsid|exact Hcalls].
Defined.

(** ** What a turn returns *)

Section Outcome.
Context {E : env}.

(** Membership in a list that is written out. *)
Ltac in_list :=
  solve [repeat first [apply list_elem_of_here | apply list_elem_of_further]].

(** The three shapes of the returned dictionary. *)
Lemma process_message_shape (message : pystr) (history : list chat_message)
    (session_id : option pystr) (w : world) :
  let sid := match session_id with
             | Some (c :: s) => c :: s
             | _ => prefix 8 (uuid4_str (w_uuids w))
             end in
  ∃ o w', process_message message history session_id w = (Ok o, w')
    ∧ ((is_blank message = true ∧ o = blank_outcome sid)
       ∨ (∃ start w1 final w2 text,
            is_blank message = false
            ∧ messages start = history ++ [{| role := u "user";
                                             content := truncate_message message |}]
            ∧ lead_qualification start = None
            ∧ graph_ainvoke start w1 = (Ok final, w2)
            ∧ o = success_outcome sid text (dict_at w2 (extracted_data final)) final)
       ∨ (∃ start w1 e w2 data,
            is_blank message = false
            ∧ graph_ainvoke start w1 = (Raise e, w2)
            ∧ o = failure_outcome e sid data)).
Proof.
  intros sid. unfold process_message. unfold mbind at 1, M_bind at 1, bind at 1.
  assert (Hr : ∃ w1, resolve_session_id session_id w = (Ok sid, w1)).
  { subst sid. destruct session_id as [[|c s]|]; eexists; reflexivity. }
  destruct Hr as (w1 & ->).
  destruct (is_blank message) eqn:Hb.
  { eexists _, _. split; [reflexivity|]. by left. }
  cbv zeta. unfold mbind at 1, M_bind at 1, bind at 1.
  destruct (load_seed_returns sid w1) as (seed & w2 & ->).
  unfold mbind at 1, M_bind at 1, bind at 1.
  change (new_dict seed w2) with (Ok (length (w_heap w2)), (new_dict seed w2).2).
  unfold try_except. unfold mbind at 1, M_bind at 1, bind at 1.
  destruct (graph_ainvoke _ _) as [[s|e] w3] eqn:Hg.
  - destruct (graph_returns_message _ _ _ _ Hg) as (text & Ht).
    unfold mbind, M_bind, bind, lift, read_dict, ret. rewrite Ht.
    eexists _, _. split; [reflexivity|]. right. left.
    eexists _, _, _, _, _. split; [reflexivity|].
    split; [|split; [|split; [exact Hg|reflexivity]]]; reflexivity.
  - unfold mbind, M_bind, bind, read_dict, ret.
    eexists _, _. split; [reflexivity|]. right. right.
    eexists _, _, _, _, _. split; [reflexivity|]. split; [exact Hg|reflexivity].
Qed.

(** The stage and the tier of the state the graph returns. *)
Lemma graph_returns_stage state (w w' : world) s :
  graph_ainvoke state w = (Ok s, w') →
  current_stage s ∈ [discovery; qualification; closing; completed]
  ∧ (lead_qualification s = lead_qualification state
     ∨ lead_qualification s = Some hot
     ∨ lead_qualification s = Some warm).
Proof.
  unfold graph_ainvoke. unfold mbind at 1, M_bind at 1, bind at 1.
  pose proof (extract_slots_unfold state w) as Hx. cbv zeta in Hx.
  destruct (_extract_slots state w) as [[s1|e1] w1]; [|discriminate].
  assert (Hq1 : lead_qualification s1 = lead_qualification state).
  { revert Hx.
    repeat match goal with
           | |- context [match ?x with _ => _ end] => destruct x
           end; by intros [= -> _]. }
  unfold mbind at 1, M_bind at 1, bind at 1.
  rewrite determine_stage_unfold. cbv zeta.
  set (data := dict_at w1 (extracted_data s1)).
  assert (Hst : ∀ b q c, stage_of b q c
                         ∈ [discovery; qualification; closing; completed]).
  { intros [] [] []; unfold stage_of; simpl; in_list. }
  destruct (has_contact_info data && has_qualification_info data) eqn:Hg.
  - apply andb_true_iff in Hg as [_ Hq].
    rewrite (qualification_implies_basic data Hq).
    destruct (lead_tier data true) as [tier|] eqn:Ht; [|discriminate].
    unfold mbind at 1, M_bind at 1, bind at 1.
    destruct (_generate_response _ w1) as [[s3|e3] w3] eqn:Hgen; [|discriminate].
    destruct (save_to_db_returns s3 w3) as (w4 & ->). intros [= <- <-].
    destruct (generate_response_appends _ _ _ _ Hgen)
      as (text & _ & _ & _ & -> & _ & ->).
    split; [apply Hst|]. right. simpl.
    destruct (lead_tier_not_cold _ _ Ht) as [-> | ->]; [by left|by right].
  - unfold mbind at 1, M_bind at 1, bind at 1.
    destruct (_generate_response _ w1) as [[s3|e3] w3] eqn:Hgen; [|discriminate].
    destruct (save_to_db_returns s3 w3) as (w4 & ->). intros [= <- <-].
    destruct (generate_response_appends _ _ _ _ Hgen)
      as (text & _ & _ & _ & -> & _ & ->).
    split; [apply Hst|]. left. exact Hq1.
Qed.

(** X2. Every turn answers under the session id it was given, or under the
    first eight characters of a new one when it was given none (or an
    empty one); the status it reports is one of the four stages or
    "error"; and the tier it reports is null, "hot" or "warm", never
    "cold". *)
Theorem turn_outcome_values (message : pystr) (history : list chat_message)
    (session_id : option pystr) (w : world) :
  ∃ o w' status,
    process_message message history session_id w = (Ok o, w')
    ∧ o !! "session_id"%string
      = Some (FText match session_id with
                    | Some (c :: s) => c :: s
                    | _ => prefix 8 (uuid4_str (w_uuids w))
                    end)
    ∧ o !! "lead_status"%string = Some (FText status)
    ∧ status ∈ [discovery; qualification; closing; completed; u "error"]
    ∧ o !! "qualification"%string ∈ [Some FNull; Some (FText hot); Some (FText warm)]
    ∧ hot ≠ cold ∧ warm ≠ cold.
Proof.
  destruct (process_message_shape message history session_id w)
    as (o & w' & Hrun & Hshape).
  exists o, w'.
  destruct Hshape as [[_ ->]|[(start & w1 & final & w2 & text & _ & _ & Hq0 & Hg & ->)
                              |(start & w1 & e & w2 & data & _ & _ & ->)]].
  - exists discovery. split; [exact Hrun|]. split; [reflexivity|].
    split; [reflexivity|]. split; [in_list|].
    split; [|split; discriminate]. unfold blank_outcome.
    change (_ !! "qualification"%string) with (Some FNull). in_list.
  - exists (current_stage final). split; [exact Hrun|]. split; [reflexivity|].
    split; [reflexivity|].
    destruct (graph_returns_stage _ _ _ _ Hg) as [Hs Ht].
    split.
    { change [discovery; qualification; closing; completed; u "error"]
        with ([discovery; qualification; closing; completed] ++ [u "error"]).
      apply elem_of_app. by left. }
    split; [|split; discriminate].
    change (_ !! "qualification"%string)
      with (Some (opt_field (lead_qualification final))).
    rewrite Hq0 in Ht. destruct Ht as [-> | [-> | ->]]; simpl; in_list.
  - exists (u "error"). split; [exact Hrun|].
    split; [by destruct e|]. split; [by destruct e|].
    split; [in_list|]. split; [|split; discriminate].
    destruct e; change (_ !! "qualification"%string) with (Some FNull); in_list.
Qed.

End Outcome.

(** ** Missing slots and the funnel *)

Section Funnel.
Context {E : env}.

(** X6. Whatever the language model does, slot extraction returns, and the
    missing slots it leaves in the state are exactly the slots of [SLOTS]
    that the dictionary lacks or holds as null, as the dictionary is
    after the merge.  A slot the classifier counts as present is never
    among them. *)
Theorem missing_slots_consistent (state : ConversationState) (w : world) :
  ∃ s w', _extract_slots state w = (Ok s, w')
    ∧ extracted_data s = extracted_data state
    ∧ missing_slots s = compute_missing_slots (dict_at w' (extracted_data s))
    ∧ (∀ slot, slot ∈ missing_slots s ↔
               slot ∈ SLOTS
               ∧ (dict_at w' (extracted_data s) !! slot = None
                  ∨ dict_at w' (extracted_data s) !! slot = Some VNone))
    ∧ (∀ slot, present (dict_at w' (extracted_data s)) slot = true →
               slot ∉ missing_slots s).
Proof.
  assert (Hchar : ∀ (data : pydict) slot,
            slot ∈ compute_missing_slots data ↔
            slot ∈ SLOTS ∧ (data !! slot = None ∨ data !! slot = Some VNone)).
  { intros data slot. unfold compute_missing_slots.
    rewrite list_elem_of_filter. unfold get.
    split; intros [H1 H2].
    - split; [exact H2|].
      destruct (data !! slot) as [[]|]; simpl in *; auto; discriminate.
    - split; [|exact H1]. destruct H2 as [-> | ->]; reflexivity. }
  assert (Hpres : ∀ (data : pydict) slot,
            present data slot = true → slot ∉ compute_missing_slots data).
  { intros data slot Hp Hin. apply Hchar in Hin as [_ Hn].
    unfold present, get in Hp. destruct Hn as [Hn|Hn]; rewrite Hn in Hp;
      discriminate. }
  rewrite extract_slots_unfold. cbv zeta.
  repeat match goal with
         | |- context [match ?x with _ => _ end] => destruct x
         end;
    (eexists _, _; split; [reflexivity|]; split; [reflexivity|];
     split; [reflexivity|]; split; [apply Hchar|apply Hpres]).
Qed.

(** X7. The stage never moves backwards when slots are only gained: if every
    slot that counts as present in [data] also counts as present in
    [data'], the stage for [data'] is the same or a later one of the
    funnel. *)
Theorem stage_monotone (data data' : pydict) :
  (∀ slot, present data slot = true → present data' slot = true) →
  ∃ i j, funnel !! i = Some (stage_for data)
         ∧ funnel !! j = Some (stage_for data')
         ∧ (i ≤ j)%nat.
Proof.
  intros Hsub.
  set (rank := λ b q c : bool,
         if negb b then 0%nat else if negb q then 1%nat
         else if negb c then 2%nat else 3%nat).
  assert (Hrank : ∀ b q c, funnel !! rank b q c = Some (stage_of b q c))
    by (by intros [] [] []).
  exists (rank (has_basic_info data) (has_qualification_info data)
            (has_contact_info data)),
         (rank (has_basic_info data') (has_qualification_info data')
            (has_contact_info data')).
  split; [apply Hrank|]. split; [apply Hrank|].
  rewrite !has_basic_info_spec, !has_qualification_info_spec,
    !has_contact_info_spec.
  unfold spec_has_basic_info, spec_has_qualification_info,
    spec_has_contact_info.
  pose proof (Hsub "car_brand"%string) as H1.
  pose proof (Hsub "budget_max"%string) as H2.
  pose proof (Hsub "body_type"%string) as H3.
  pose proof (Hsub "name"%string) as H4.
  pose proof (Hsub "phone"%string) as H5.
  clear Hsub Hrank.
  destruct (present data "car_brand"), (present data' "car_brand");
    try discriminate (H1 eq_refl); clear H1;
    destruct (present data "budget_max"), (present data' "budget_max");
    try discriminate (H2 eq_refl); clear H2;
    destruct (present data "body_type"), (present data' "body_type");
    try discriminate (H3 eq_refl); clear H3;
    destruct (present data "name"), (present data' "name");
    try discriminate (H4 eq_refl); clear H4;
    destruct (present data "phone"), (present data' "phone");
    try discriminate (H5 eq_refl); clear H5;
    subst rank; simpl; lia.
Qed.

(** The stage the classifier writes is the stage of the chain. *)
Lemma determine_stage_stage_for state (w w' : world) s :
  _determine_stage state w = (Ok s, w') →
  current_stage s = stage_for (dict_at w (extracted_data state)).
Proof.
  rewrite determine_stage_unfold. cbv zeta. unfold stage_for.
  destruct (_ && _); [|by intros [= <- _]].
  destruct (lead_tier _ _); [by intros [= <- _]|discriminate].
Qed.

End Funnel.

(** Gaining the budget moves a customer with a known brand from
    "qualification" to "closing". *)
Lemma stage_monotone_example :
  ∃ i j, funnel !! i = Some qualification ∧ funnel !! j = Some closing
         ∧ (i ≤ j)%nat.
Proof.
  destruct (stage_monotone known_brand
              (slots [("car_brand", VStr (u "X"));
                      ("budget_max", VInt 2000000)]%string))
    as (i & j & Hi & Hj & Hij).
  - intros slot Hp.
    destruct (decide (slot = "car_brand"%string)) as [->|Hne]; [reflexivity|].
    exfalso. unfold present, get, known_brand, slots in Hp.
    cbn [list_to_map foldr] in Hp.
    rewrite lookup_insert_ne in Hp by done. by rewrite lookup_empty in Hp.
  - exists i, j. split; [exact Hi|]. split; [exact Hj|exact Hij].
Defined.

(** ** The error context *)

Lemma ctx_after_snoc evs ev : ctx_after (evs ++ [ev]) = ctx_step (ctx_after evs) ev.
Proof. unfold ctx_after. by rewrite foldl_app. Qed.

Lemma leading_errors_rev_snoc evs ev :
  leading_errors (rev (evs ++ [ev]))
  = if is_ctx_error ev then S (leading_errors (rev evs)) else 0%nat.
Proof. rewrite rev_app_distr. by destruct ev. Qed.

(** X12. After any sequence of recorded errors and successes, the streak of
    a new error context is the number of errors since the last success,
    the total is the number of all errors, and fallback is due exactly
    when the last three events (at least) are errors; the statistics
    report these two numbers. *)
Theorem error_context_streak (evs : list ctx_event) :
  let c := ctx_after evs in
  consecutive_errors c = Z.of_nat (leading_errors (rev evs))
  ∧ error_count c = Z.of_nat (length (filter (λ ev, is_ctx_error ev = true) evs))
  ∧ should_use_fallback_ctx c = bool_decide (3 ≤ leading_errors (rev evs))%nat
  ∧ get_stats c !! "consecutive_errors"%string
    = Some (VInt (Z.of_nat (leading_errors (rev evs))))
  ∧ get_stats c !! "total_errors"%string
    = Some (VInt (Z.of_nat (length (filter (λ ev, is_ctx_error ev = true) evs)))).
Proof.
  cbv zeta.
  assert (H : consecutive_errors (ctx_after evs)
              = Z.of_nat (leading_errors (rev evs))
              ∧ error_count (ctx_after evs)
                = Z.of_nat (length (filter (λ ev, is_ctx_error ev = true) evs))).
  { induction evs as [|ev evs IH] using rev_ind; [done|].
    rewrite ctx_after_snoc, leading_errors_rev_snoc, filter_app, length_app.
    destruct IH as [IHs IHc]. destruct ev as [now|].
    - rewrite filter_cons_True by done. cbn. rewrite IHs, IHc. lia.
    - rewrite filter_cons_False by done. cbn. rewrite IHc. lia. }
  destruct H as [Hs Hc].
  split; [exact Hs|]. split; [exact Hc|]. split; [|split].
  - unfold should_use_fallback_ctx. rewrite Hs.
    destruct (leading_errors (rev evs)) as [|[|[|n]]]; try reflexivity.
    rewrite bool_decide_eq_true_2 by lia. apply Z.leb_le. lia.
  - unfold get_stats. rewrite <- Hs. reflexivity.
  - unfold get_stats. rewrite <- Hc. reflexivity.
Qed.

(** ** The error taxonomy *)

(** X13. Every exception is converted to an error that carries a message for
    the user.  The kinds produced are four: no exception becomes an
    [AITimeoutError], because a timeout of the [openai] package is an
    instance of its [APIConnectionError], which is tested first, and is
    converted to [AIConnectionError]. *)
Theorem handle_openai_error_kinds (e : pyexn) :
  ai_kind (handle_openai_error e)
    ∈ [RateLimitExceeded; AIConnectionError; AIAuthError; AIServiceError]
  ∧ user_message (handle_openai_error e) ≠ []
  ∧ (isinstance_openai e APITimeoutError = true →
     handle_openai_error e = AIConnectionError_)
  ∧ (isinstance_openai e APIError = false →
     message (handle_openai_error e) = exn_str e).
Proof.
  unfold handle_openai_error.
  destruct e as [[[]| | | | | | |] msg|a]; simpl;
    (split; [repeat first [apply list_elem_of_here | apply list_elem_of_further]|]);
    (split; [vm_compute; discriminate|]);
    (split; [try discriminate; reflexivity|]); try discriminate; reflexivity.
Qed.

(** A context that is none of the four keys gets the general text, and
    no context gets an empty text. *)
Lemma get_fallback_response_default (context : string) :
  (context ∉ ["greeting"; "general"; "rate_limit"; "simulator"]%string →
   get_fallback_response context = fallback_general)
  ∧ get_fallback_response "general" = fallback_general
  ∧ get_fallback_response context ≠ [].
Proof.
  assert (Hcases : context ∈ ["greeting"; "general"; "rate_limit"; "simulator"]%string
                   ∨ get_fallback_response context = fallback_general).
  { destruct (decide (context = "greeting"%string)) as [->|H1];
      [left; apply list_elem_of_here|].
    destruct (decide (context = "general"%string)) as [->|H2];
      [left; do 1 apply list_elem_of_further; apply list_elem_of_here|].
    destruct (decide (context = "rate_limit"%string)) as [->|H3];
      [left; do 2 apply list_elem_of_further; apply list_elem_of_here|].
    destruct (decide (context = "simulator"%string)) as [->|H4];
      [left; do 3 apply list_elem_of_further; apply list_elem_of_here|].
    right. unfold get_fallback_response, FALLBACK_RESPONSES.
    cbn [list_to_map foldr].
    rewrite (lookup_insert_ne _ "greeting"%string context) by done.
    rewrite (lookup_insert_ne _ "general"%string context) by done.
    rewrite (lookup_insert_ne _ "rate_limit"%string context) by done.
    rewrite (lookup_insert_ne _ "simulator"%string context) by done.
    rewrite lookup_empty. vm_compute. reflexivity. }
  split; [|split; [vm_compute; reflexivity|]].
  - intros Hnot. by destruct Hcases as [Hin|Hnone].
  - destruct Hcases as [Hin|Hnone].
    + repeat (apply elem_of_cons in Hin as [->|Hin];
              [vm_compute; discriminate|]).
      by apply elem_of_nil in Hin.
    + rewrite Hnone. vm_compute. discriminate.
Qed.

(** ** The retry decorator, with any parameters *)

Section RetryBounds.
Context {E : env}.

Lemma SFltb_irrefl (x : float) : Float.ltb x x = false.
Proof.
  unfold Float.ltb, SFltb, SFcompare.
  destruct x as [s|s| |s m e]; simpl; try reflexivity; try (by destruct s).
  change (PosDef.Pos.compare_cont Eq m m) with (m ?= m)%positive.
  destruct s; rewrite Z.compare_refl, Pos.compare_refl; reflexivity.
Qed.

(** A delay never exceeds the cap when the backoff is exponential, and
    is the base delay when it is not. *)
Lemma retry_delay_capped base_delay max_delay backoff attempt d :
  retry_delay base_delay max_delay backoff attempt = Ok d →
  if backoff then Float.ltb max_delay d = false else d = base_delay.
Proof.
  unfold retry_delay. destruct backoff; [|by intros [= <-]].
  destruct (Float.mul_int _ _) as [x|]; [|discriminate].
  cbn. intros [= <-]. unfold float_min.
  destruct (Float.ltb max_delay x) eqn:Hlt; [apply SFltb_irrefl|exact Hlt].
Qed.

Lemma retry_loop_bounds max_retries base_delay max_delay backoff
    remaining attempt last_error (w : world) :
  Z.of_nat attempt + Z.of_nat remaining = max_retries →
  ∃ k delays,
    (retry_loop max_retries base_delay max_delay backoff
       (response ← llm_ainvoke; ret (r_content response))
       remaining attempt last_error w).2 = called k delays w
    ∧ (k ≤ remaining)%nat
    ∧ (length delays ≤ remaining - 1)%nat
    ∧ Forall (λ d, if backoff then Float.ltb max_delay d = false
                   else d = base_delay) delays.
Proof.
  revert attempt last_error w.
  induction remaining as [|r IH]; intros attempt last_error w Hsum.
  { exists 0%nat, []. rewrite called_0.
    split; [by destruct last_error|]. split; [lia|]. split; [simpl; lia|done]. }
  rewrite retry_loop_step, call_once.
  destruct (llm_script _) as [resp|e].
  { exists 1%nat, []. split; [reflexivity|]. split; [lia|].
    split; [simpl; lia|done]. }
  destruct (is_transient e && (Z.of_nat attempt <? max_retries - 1)) eqn:Hgo.
  2:{ exists 1%nat, []. split; [reflexivity|]. split; [lia|].
      split; [simpl; lia|done]. }
  apply andb_true_iff in Hgo as [_ Hlt]. apply Z.ltb_lt in Hlt.
  destruct (retry_delay _ _ _ _) as [d|x] eqn:Hd.
  2:{ exists 1%nat, []. split; [reflexivity|]. split; [lia|].
      split; [simpl; lia|done]. }
  destruct (IH (S attempt) (Some e) (called 0 [d] (called 1 [] w)))
    as (k & delays & Hrun & Hk & Hlen & Hall); [lia|].
  exists (1 + k)%nat, (d :: delays). rewrite Hrun, !called_called.
  split; [reflexivity|]. split; [lia|]. split; [simpl; lia|].
  constructor; [|exact Hall]. exact (retry_delay_capped _ _ _ _ _ Hd).
Qed.

(** X11. For every choice of the decorator's parameters, a decorated call of
    the language model makes at most [max_retries] attempts, sleeps at
    most once less, never sleeps longer than [max_delay] when the backoff
    is exponential (and exactly [base_delay] when it is not), and touches
    nothing else.  With [max_retries] zero or negative it makes no
    attempt at all and returns [None] without raising. *)
Theorem retry_bounds (max_retries : Z) (base_delay max_delay : float)
    (backoff : bool) (w : world) :
  (∃ k delays,
     (call_llm_with max_retries base_delay max_delay backoff w).2
     = called k delays w
     ∧ (k ≤ Z.to_nat max_retries)%nat
     ∧ (length delays ≤ Z.to_nat max_retries - 1)%nat
     ∧ Forall (λ d, if backoff then Float.ltb max_delay d = false
                    else d = base_delay) delays)
  ∧ (max_retries ≤ 0 →
     call_llm_with max_retries base_delay max_delay backoff w = (Ok None, w)).
Proof.
  split.
  - unfold call_llm_with, with_retry.
    destruct (Z.le_gt_cases 0 max_retries) as [Hpos|Hneg].
    + apply retry_loop_bounds. lia.
    + replace (Z.to_nat max_retries) with 0%nat by lia.
      exists 0%nat, []. rewrite called_0. repeat split; simpl; (lia || done).
  - intros Hle. unfold call_llm_with, with_retry.
    by replace (Z.to_nat max_retries) with 0%nat by lia.
Qed.

(** [_call_llm] is the decorated call with 3 attempts, a base delay of
    one second and a cap of ten. *)
Lemma call_llm_is_call_llm_with : _call_llm = call_llm_with 3 f_1_0 f_10_0 true.
Proof. reflexivity. Qed.

End RetryBounds.

(** ** What a turn costs *)

Section Cost.
Context {E : env}.

Lemma spends_ret {A} (a : A) : spends 0 [] (ret a).
Proof. intros w. split; [simpl; lia|]. exists []. by rewrite app_nil_r. Qed.

Lemma spends_raise {A} e : spends 0 [] (raise e : M A).
Proof. intros w. split; [simpl; lia|]. exists []. by rewrite app_nil_r. Qed.

Lemma spends_lift {A} (r : result A) : spends 0 [] (lift r).
Proof.
  intros w. unfold lift. destruct r; (split; [simpl; lia|]);
    exists []; by rewrite app_nil_r.
Qed.

Lemma spends_weaken {A} k k' ds (m : M A) :
  (k ≤ k')%nat → spends k [] m → spends k' ds m.
Proof.
  intros Hk Hm w. destruct (Hm w) as [Hc (delays & Hp & Hs)].
  split; [lia|]. exists delays. split; [|done].
  apply prefix_nil_inv in Hp as ->. apply prefix_nil.
Qed.

(** Sleeps in the first part only. *)
Lemma spends_bind_l {A B} k1 k2 ds (m : M A) (f : A → M B) :
  spends k1 ds m → (∀ a, spends k2 [] (f a)) → spends (k1 + k2) ds (m ≫= f).
Proof.
  intros Hm Hf w. unfold mbind, M_bind, bind.
  destruct (Hm w) as [Hc (delays & Hp & Hs)].
  destruct (m w) as [[a|e] w1]; simpl in *.
  - destruct (Hf a w1) as [Hc2 (delays2 & Hp2 & Hs2)].
    apply prefix_nil_inv in Hp2 as ->. rewrite app_nil_r in Hs2.
    split; [lia|]. exists delays. split; [done|]. by rewrite Hs2.
  - split; [lia|]. by exists delays.
Qed.

(** Sleeps in the second part only. *)
Lemma spends_bind_r {A B} k1 k2 ds (m : M A) (f : A → M B) :
  spends k1 [] m → (∀ a, spends k2 ds (f a)) → spends (k1 + k2) ds (m ≫= f).
Proof.
  intros Hm Hf w. unfold mbind, M_bind, bind.
  destruct (Hm w) as [Hc (delays & Hp & Hs)].
  apply prefix_nil_inv in Hp as ->. rewrite app_nil_r in Hs.
  destruct (m w) as [[a|e] w1]; simpl in *.
  - destruct (Hf a w1) as [Hc2 (delays2 & Hp2 & Hs2)].
    split; [lia|]. exists delays2. split; [done|]. by rewrite Hs2, Hs.
  - split; [lia|]. exists []. split; [apply prefix_nil|by rewrite app_nil_r].
Qed.

Lemma spends_try_l {A} k1 k2 ds (m : M A) (h : pyexn → M A) :
  spends k1 ds m → (∀ e, spends k2 [] (h e)) → spends (k1 + k2) ds (try_except m h).
Proof.
  intros Hm Hh w. unfold try_except.
  destruct (Hm w) as [Hc (delays & Hp & Hs)].
  destruct (m w) as [[a|e] w1]; simpl in *.
  - split; [lia|]. by exists delays.
  - destruct (Hh e w1) as [Hc2 (delays2 & Hp2 & Hs2)].
    apply prefix_nil_inv in Hp2 as ->. rewrite app_nil_r in Hs2.
    split; [lia|]. exists delays. split; [done|]. by rewrite Hs2.
Qed.

Lemma spends_free_bind {A B} (m : M A) (f : A → M B) :
  spends 0 [] m → (∀ a, spends 0 [] (f a)) → spends 0 [] (m ≫= f).
Proof. apply (spends_bind_l 0 0). Qed.

Lemma spends_free_try {A} (m : M A) (h : pyexn → M A) :
  spends 0 [] m → (∀ e, spends 0 [] (h e)) → spends 0 [] (try_except m h).
Proof. apply (spends_try_l 0 0). Qed.

Lemma spends_free {A} (m : M A) :
  (∀ w, w_llm_calls (m w).2 = w_llm_calls w ∧ w_slept (m w).2 = w_slept w) →
  spends 0 [] m.
Proof.
  intros H w. destruct (H w) as [-> ->]. split; [lia|].
  exists []. by rewrite app_nil_r.
Qed.

Lemma spends_read_dict l : spends 0 [] (read_dict l).
Proof. by apply spends_free. Qed.

Lemma spends_new_dict d : spends 0 [] (new_dict d).
Proof. by apply spends_free. Qed.

Lemma spends_setitem l k v : spends 0 [] (dict_setitem l k v).
Proof. by apply spends_free. Qed.

Lemma spends_db_select sid : spends 0 [] (db_select sid).
Proof. apply spends_free. intros w. unfold db_select. by destruct (db_select_lead _ _). Qed.

Lemma spends_db_save sid up msgs : spends 0 [] (db_save sid up msgs).
Proof. apply spends_free. intros w. unfold db_save. by destruct (db_commit _ _ _ _). Qed.

Lemma spends_fresh_session_id : spends 0 [] fresh_session_id.
Proof. by apply spends_free. Qed.

Lemma spends_should_use_fallback : spends 0 [] should_use_fallback.
Proof. by apply spends_free. Qed.

Lemma spends_record_success : spends 0 [] record_success.
Proof. by apply spends_free. Qed.

Lemma spends_record_error : spends 0 [] record_error.
Proof. by apply spends_free. Qed.

Lemma spends_llm_ainvoke : spends 1 [] llm_ainvoke.
Proof.
  intros w. split; [simpl; lia|]. exists []. by rewrite app_nil_r.
Qed.

Lemma spends_call_llm : spends 3 [f_1_0; f_2_0] _call_llm.
Proof.
  intros w. rewrite call_llm_unfold.
  repeat match goal with
         | |- context [match ?x with _ => _ end] => destruct x
         end; (split; [simpl; lia|]); eexists; (split; [|reflexivity]).
  all: first [ apply prefix_nil
             | by exists [f_2_0]
             | by exists [] ].
Qed.

Create HintDb cost.
Hint Resolve spends_ret spends_raise spends_lift spends_read_dict
  spends_new_dict spends_setitem spends_db_select spends_db_save
  spends_fresh_session_id spends_should_use_fallback spends_record_success
  spends_record_error : cost.

Ltac free :=
  repeat first
    [ progress intros
    | solve [auto with cost]
    | apply spends_free_bind
    | apply spends_free_try
    | match goal with
      | |- spends _ _ (match ?x with _ => _ end) => destruct x
      | |- spends _ _ (if ?c then _ else _) => destruct c
      | |- spends _ _ (let _ := _ in _) => cbv zeta
      end ].

Lemma spends_merge_items l items : spends 0 [] (merge_items l items).
Proof.
  induction items as [|[key value] rest IH]; cbn [merge_items]; free.
Qed.
Hint Resolve spends_merge_items : cost.

Lemma spends_execute_tool_calls calls : spends 0 [] (execute_tool_calls calls).
Proof.
  induction calls as [|tc rest IH]; cbn [execute_tool_calls]; [free|].
  unfold _execute_tool. free.
Qed.
Hint Resolve spends_execute_tool_calls : cost.

Lemma spends_extract_slots state :
  spends 3 [f_1_0; f_2_0] (_extract_slots state).
Proof.
  unfold _extract_slots.
  apply (spends_bind_l 3 0); [|free].
  apply (spends_try_l 3 0); [|free].
  apply (spends_bind_l 3 0); [apply spends_call_llm|free].
Qed.

Lemma spends_determine_stage state : spends 0 [] (_determine_stage state).
Proof. unfold _determine_stage. free. Qed.

Lemma spends_generate_response state : spends 2 [] (_generate_response state).
Proof.
  unfold _generate_response.
  apply (spends_bind_l 0 2); [free|]. intros [|].
  { apply (spends_weaken 0); [lia|free]. }
  apply (spends_bind_l 0 2); [free|]. intros knowledge.
  apply (spends_try_l 2 0); [|free].
  apply (spends_bind_l 1 1); [apply spends_llm_ainvoke|]. intros response.
  apply (spends_bind_l 1 0); [|free].
  destruct (r_tool_calls response) as [|tc calls].
  { apply (spends_weaken 0); [lia|free]. }
  apply (spends_bind_l 0 1); [free|]. intros results.
  apply (spends_bind_l 1 0); [apply spends_llm_ainvoke|free].
Qed.

Lemma spends_save_to_db state : spends 0 [] (_save_to_db state).
Proof. unfold _save_to_db. free. Qed.

Lemma spends_graph state : spends 5 [f_1_0; f_2_0] (graph_ainvoke state).
Proof.
  unfold graph_ainvoke.
  apply (spends_bind_l 3 2); [apply spends_extract_slots|]. intros s1.
  apply (spends_bind_l 0 2); [apply spends_determine_stage|]. intros s2.
  apply (spends_bind_l 2 0); [apply spends_generate_response|]. intros s3.
  apply spends_save_to_db.
Qed.

Lemma spends_process_message message history session_id :
  spends 5 [f_1_0; f_2_0] (process_message message history session_id).
Proof.
  unfold process_message.
  apply (spends_bind_r 0 5); [unfold resolve_session_id; free|]. intros sid.
  destruct (is_blank message).
  { apply (spends_weaken 0); [lia|free]. }
  cbv zeta.
  apply (spends_bind_r 0 5); [unfold load_seed; free|]. intros seed.
  apply (spends_bind_r 0 5); [free|]. intros l.
  apply (spends_try_l 5 0); [|free].
  apply (spends_bind_l 5 0); [apply spends_graph|free].
Qed.

Lemma fallback_spends_of {A} k ds (m : M A) :
  spends k ds m → errors_kept m → fallback_spends k ds m.
Proof. intros Hs Hk w Hw. split; [by apply Hk|apply Hs]. Qed.

Lemma fallback_spends_bind_l {A B} k1 k2 ds (m : M A) (f : A → M B) :
  fallback_spends k1 ds m → (∀ a, fallback_spends k2 [] (f a)) →
  fallback_spends (k1 + k2) ds (m ≫= f).
Proof.
  intros Hm Hf w Hw. unfold mbind, M_bind, bind.
  destruct (Hm w Hw) as (He & Hc & delays & Hp & Hs).
  destruct (m w) as [[a|e] w1]; simpl in *.
  - assert (in_fallback w1) as Hw1 by (unfold in_fallback; by rewrite He).
    destruct (Hf a w1 Hw1) as (He2 & Hc2 & delays2 & Hp2 & Hs2).
    apply prefix_nil_inv in Hp2 as ->. rewrite app_nil_r in Hs2.
    split; [by rewrite He2|]. split; [lia|].
    exists delays. split; [done|]. by rewrite Hs2.
  - split; [done|]. split; [lia|]. by exists delays.
Qed.

Lemma fallback_spends_bind_r {A B} k1 k2 ds (m : M A) (f : A → M B) :
  fallback_spends k1 [] m → (∀ a, fallback_spends k2 ds (f a)) →
  fallback_spends (k1 + k2) ds (m ≫= f).
Proof.
  intros Hm Hf w Hw. unfold mbind, M_bind, bind.
  destruct (Hm w Hw) as (He & Hc & delays & Hp & Hs).
  apply prefix_nil_inv in Hp as ->. rewrite app_nil_r in Hs.
  destruct (m w) as [[a|e] w1]; simpl in *.
  - assert (in_fallback w1) as Hw1 by (unfold in_fallback; by rewrite He).
    destruct (Hf a w1 Hw1) as (He2 & Hc2 & delays2 & Hp2 & Hs2).
    split; [by rewrite He2|]. split; [lia|].
    exists delays2. split; [done|]. by rewrite Hs2, Hs.
  - split; [done|]. split; [lia|].
    exists []. split; [apply prefix_nil|by rewrite app_nil_r].
Qed.

Lemma fallback_spends_try_l {A} k1 k2 ds (m : M A) (h : pyexn → M A) :
  fallback_spends k1 ds m → (∀ e, fallback_spends k2 [] (h e)) →
  fallback_spends (k1 + k2) ds (try_except m h).
Proof.
  intros Hm Hh w Hw. unfold try_except.
  destruct (Hm w Hw) as (He & Hc & delays & Hp & Hs).
  destruct (m w) as [[a|e] w1]; simpl in *.
  - split; [done|]. split; [lia|]. by exists delays.
  - assert (in_fallback w1) as Hw1 by (unfold in_fallback; by rewrite He).
    destruct (Hh e w1 Hw1) as (He2 & Hc2 & delays2 & Hp2 & Hs2).
    apply prefix_nil_inv in Hp2 as ->. rewrite app_nil_r in Hs2.
    split; [by rewrite He2|]. split; [lia|].
    exists delays. split; [done|]. by rewrite Hs2.
Qed.

(** In fallback mode the generator costs nothing. *)
Lemma fallback_spends_generate_response state :
  fallback_spends 0 [] (_generate_response state).
Proof.
  intros w Hw. rewrite generate_response_fallback by done. simpl.
  split; [done|]. split; [lia|]. exists []. by rewrite app_nil_r.
Qed.

Lemma fallback_spends_graph state :
  fallback_spends 3 [f_1_0; f_2_0] (graph_ainvoke state).
Proof.
  unfold graph_ainvoke.
  apply (fallback_spends_bind_l 3 0).
  { apply fallback_spends_of;
      [apply spends_extract_slots|apply errors_kept_extract_slots]. }
  intros s1. apply (fallback_spends_bind_l 0 0).
  { apply fallback_spends_of;
      [apply spends_determine_stage|apply errors_kept_determine_stage]. }
  intros s2. apply (fallback_spends_bind_l 0 0).
  { apply fallback_spends_generate_response. }
  intros s3. apply fallback_spends_of;
    [apply spends_save_to_db|apply errors_kept_save_to_db].
Qed.

Lemma fallback_spends_process_message message history session_id :
  fallback_spends 3 [f_1_0; f_2_0] (process_message message history session_id).
Proof.
  unfold process_message.
  apply (fallback_spends_bind_r 0 3).
  { apply fallback_spends_of; [unfold resolve_session_id; free|].
    destruct session_id as [[|c s]|];
      first [apply errors_kept_fresh_session_id|apply errors_kept_ret]. }
  intros sid. destruct (is_blank message).
  { apply fallback_spends_of;
      [apply (spends_weaken 0); [lia|free]|apply errors_kept_ret]. }
  cbv zeta. apply (fallback_spends_bind_r 0 3).
  { apply fallback_spends_of; [unfold load_seed; free|].
    unfold load_seed. apply errors_kept_try.
    - apply errors_kept_bind; [apply errors_kept_db_select|].
      intros found. apply errors_kept_ret.
    - intros e. apply errors_kept_ret. }
  intros seed. apply (fallback_spends_bind_r 0 3).
  { apply fallback_spends_of; [free|apply errors_kept_new_dict]. }
  intros l. apply (fallback_spends_try_l 3 0).
  - apply (fallback_spends_bind_l 3 0); [apply fallback_spends_graph|].
    intros final_state. apply fallback_spends_of; [free|].
    apply errors_kept_bind; [apply errors_kept_lift|]. intros response.
    apply errors_kept_bind; [apply errors_kept_read_dict|]. intros data.
    apply errors_kept_ret.
  - intros e. apply fallback_spends_of; [free|].
    apply errors_kept_bind; [apply errors_kept_read_dict|]. intros data.
    apply errors_kept_ret.
Qed.

(** X9. What a turn costs.  Whatever the message, the history, the scripts
    of the language model and the database, one call of
    [process_message] sends at most five requests to the language model
    (three attempts of the extraction, the generation and its second
    request after tool calls) and sleeps at most twice, for 1.0 and then
    2.0 seconds.  Once the agent is in fallback mode a turn still sends up
    to three requests, those of the extraction. *)
Theorem turn_cost (message : pystr) (history : list chat_message)
    (session_id : option pystr) (w : world) :
  let w' := (process_message message history session_id w).2 in
  (w_llm_calls w ≤ w_llm_calls w' ≤ w_llm_calls w + 5)%nat
  ∧ (∃ delays, delays `prefix_of` [f_1_0; f_2_0]
               ∧ w_slept w' = w_slept w ++ delays)
  ∧ (should_use_fallback_ctx (w_errors w) = true →
     (w_llm_calls w' ≤ w_llm_calls w + 3)%nat).
Proof.
  intros w'. subst w'.
  destruct (spends_process_message message history session_id w) as [Hc Hs].
  split; [exact Hc|]. split; [exact Hs|]. intros Hw.
  destruct (fallback_spends_process_message message history session_id w Hw)
    as (_ & Hc3 & _). lia.
Qed.

End Cost.

(** ** An outage of the language model *)

Section Untouched.
Context {E : env}.

Lemma untouched_ret {A} (a : A) : errors_untouched (ret a).
Proof. by intros w. Qed.

Lemma untouched_raise {A} e : errors_untouched (raise e : M A).
Proof. by intros w. Qed.

Lemma untouched_lift {A} (r : result A) : errors_untouched (lift r).
Proof. by intros w. Qed.

Lemma untouched_bind {A B} (m : M A) (k : A → M B) :
  errors_untouched m → (∀ a, errors_untouched (k a)) → errors_untouched (m ≫= k).
Proof.
  intros Hm Hk w. unfold mbind, M_bind, bind.
  specialize (Hm w). destruct (m w) as [[a|e] w1]; simpl in *; [|done].
  by rewrite Hk.
Qed.

Lemma untouched_try {A} (m : M A) (h : pyexn → M A) :
  errors_untouched m → (∀ e, errors_untouched (h e)) →
  errors_untouched (try_except m h).
Proof.
  intros Hm Hh w. unfold try_except.
  specialize (Hm w). destruct (m w) as [[a|e] w1]; simpl in *; [done|].
  by rewrite Hh.
Qed.

Lemma untouched_read_dict l : errors_untouched (read_dict l).
Proof. by intros w. Qed.

Lemma untouched_new_dict d : errors_untouched (new_dict d).
Proof. by intros w. Qed.

Lemma untouched_setitem l k v : errors_untouched (dict_setitem l k v).
Proof. by intros w. Qed.

Lemma untouched_db_select sid : errors_untouched (db_select sid).
Proof. intros w. unfold db_select. by destruct (db_select_lead _ _). Qed.

Lemma untouched_db_save sid up msgs : errors_untouched (db_save sid up msgs).
Proof. intros w. unfold db_save. by destruct (db_commit _ _ _ _). Qed.

Lemma untouched_fresh_session_id : errors_untouched fresh_session_id.
Proof. by intros w. Qed.

Lemma untouched_call_llm : errors_untouched _call_llm.
Proof. intros w. by destruct (call_llm_called w) as (k & d & ->). Qed.

Create HintDb untouched.
Hint Resolve untouched_ret untouched_raise untouched_lift untouched_read_dict
  untouched_new_dict untouched_setitem untouched_db_select untouched_db_save
  untouched_fresh_session_id untouched_call_llm : untouched.

Ltac untouched :=
  repeat first
    [ progress intros
    | solve [auto with untouched]
    | apply untouched_bind
    | apply untouched_try
    | match goal with
      | |- errors_untouched (match ?x with _ => _ end) => destruct x
      | |- errors_untouched (if ?c then _ else _) => destruct c
      | |- errors_untouched (let _ := _ in _) => cbv zeta
      end ].

Lemma untouched_merge_items l items : errors_untouched (merge_items l items).
Proof.
  induction items as [|[key value] rest IH]; cbn [merge_items]; untouched.
Qed.
Hint Resolve untouched_merge_items : untouched.

Lemma untouched_execute_tool_calls calls :
  errors_untouched (execute_tool_calls calls).
Proof.
  induction calls as [|tc rest IH]; cbn [execute_tool_calls]; [untouched|].
  unfold _execute_tool. untouched.
Qed.

(** Only the generator records errors and successes. *)
Lemma untouched_extract_slots state : errors_untouched (_extract_slots state).
Proof. unfold _extract_slots. untouched. Qed.

Lemma untouched_determine_stage state : errors_untouched (_determine_stage state).
Proof. unfold _determine_stage. untouched. Qed.

Lemma untouched_save_to_db state : errors_untouched (_save_to_db state).
Proof. unfold _save_to_db. untouched. Qed.

Lemma untouched_resolve_session_id sid : errors_untouched (resolve_session_id sid).
Proof. unfold resolve_session_id. untouched. Qed.

Lemma untouched_load_seed sid : errors_untouched (load_seed sid).
Proof. unfold load_seed. untouched. Qed.

End Untouched.

Section Outage.
Context {E : env}.
Hypothesis llm_down : ∀ n, ∃ c msg, llm_script n = Raise (Exc c msg).
Hypothesis knowledge_up : ∀ q, ∃ k, get_relevant_knowledge q = Ok k.

Lemma call_llm_down (w : world) :
  ∃ a k delays, _call_llm w = (Raise (AIError a), called k delays w).
Proof.
  rewrite call_llm_unfold.
  destruct (llm_down (w_llm_calls w)) as (c0 & m0 & ->).
  destruct (is_transient _); [|eauto].
  destruct (llm_down (w_llm_calls w + 1)) as (c1 & m1 & ->).
  destruct (is_transient _); [|eauto].
  destruct (llm_down (w_llm_calls w + 2)) as (c2 & m2 & ->). eauto.
Qed.

(** The slots a turn starts from come from typed columns. *)
Lemma seed_slots_typed l : tier_inputs_typed (seed_slots l) = true.
Proof.
  unfold tier_inputs_typed, get_or, seed_slots.
  rewrite !map_lookup_filter.
  destruct l as [n p cb cm bmin bmax co tl bt q st].
  cbn [lead_budget_max lead_timeline].
  destruct bmax, tl; vm_compute; reflexivity.
Qed.

Lemma load_seed_classifiable sid (w : world) :
  ∃ seed w', load_seed sid w = (Ok seed, w') ∧ classifiable seed = true.
Proof.
  unfold load_seed, try_except, db_select, mbind, M_bind, bind, ret.
  destruct (db_select_lead _ _) as [[[lead|]|e] d];
    eexists _, _; (split; [reflexivity|]).
  - unfold classifiable. rewrite seed_slots_typed. apply orb_true_r.
  - vm_compute; reflexivity.
  - vm_compute; reflexivity.
Qed.

(** The generator during the outage: the canned text, and one more
    error on the record unless the agent is in fallback mode already. *)
Lemma generate_response_down state (w : world) :
  ∃ s w', _generate_response state w = (Ok s, w')
    ∧ messages s = messages state ++ [assistant fallback_general]
    ∧ (if should_use_fallback_ctx (w_errors w)
       then error s = error state ∧ w_errors w' = w_errors w
       else (∃ text, error s = Some text)
            ∧ ∃ now, w_errors w' = record_error_at now (w_errors w)).
Proof.
  unfold _generate_response, should_use_fallback.
  unfold mbind at 1, M_bind at 1, bind at 1.
  destruct (should_use_fallback_ctx (w_errors w)) eqn:Hf.
  { eexists _, _. split; [reflexivity|]. split; [reflexivity|]. by split. }
  destruct (knowledge_up (last_content (messages state))) as (k & Hk).
  unfold try_except, record_error, llm_ainvoke, mbind, M_bind, bind, lift, ret.
  rewrite Hk. destruct (llm_down (w_llm_calls w)) as (c & msg & ->).
  eexists _, _. split; [reflexivity|]. split; [reflexivity|].
  split; [by eexists|]. by eexists.
Qed.

Lemma turn_down message history session_id (w : world) :
  is_blank message = false →
  ∃ o w', process_message message history session_id w = (Ok o, w')
    ∧ o !! "response"%string = Some (FText fallback_general)
    ∧ (∃ text, o !! "error"%string = Some (FText text))
    ∧ (if should_use_fallback_ctx (w_errors w) then w_errors w' = w_errors w
       else ∃ now, w_errors w' = record_error_at now (w_errors w)).
Proof.
  intros Hb. unfold process_message. unfold mbind at 1, M_bind at 1, bind at 1.
  pose proof (untouched_resolve_session_id session_id w) as He1.
  destruct (resolve_session_id_returns session_id w) as (sid & w1 & Hr).
  rewrite Hr in He1 |- *. simpl in He1. rewrite Hb. cbv zeta.
  unfold mbind at 1, M_bind at 1, bind at 1.
  pose proof (untouched_load_seed sid w1) as He2.
  destruct (load_seed_classifiable sid w1) as (seed & w2 & Hl & Hc).
  rewrite Hl in He2 |- *. simpl in He2.
  unfold mbind at 1, M_bind at 1, bind at 1.
  set (l := length (w_heap w2)).
  change (new_dict seed w2) with (Ok l, (new_dict seed w2).2).
  set (w3 := (new_dict seed w2).2).
  assert (dict_at w3 l = seed) as Hd3.
  { unfold dict_at, w3, new_dict, l. simpl.
    by rewrite lookup_app_r, Nat.sub_diag by lia. }
  assert (w_errors w3 = w_errors w) as He3 by (by rewrite <- He1, <- He2).
  unfold try_except. unfold mbind at 1, M_bind at 1, bind at 1.
  set (start := initial_state sid history (truncate_message message) l).
  unfold graph_ainvoke. unfold mbind at 1, M_bind at 1, bind at 1.
  rewrite extract_slots_unfold. cbv zeta.
  destruct (call_llm_down w3) as (a & k & delays & ->).
  unfold mbind at 1, M_bind at 1, bind at 1.
  match goal with
  | |- context [_determine_stage ?s ?w4] =>
      assert (classifiable (dict_at w4 (extracted_data s)) = true) as Hcl
        by (change (classifiable (dict_at w3 l) = true); by rewrite Hd3);
      rewrite (determine_stage_ok s w4 Hcl); clear Hcl;
      set (w4' := w4)
  end.
  cbv beta iota.
  match goal with
  | |- context [_generate_response ?s] => set (s2 := s)
  end.
  assert (error s2 = Some (user_message a)) as Herr
    by (unfold s2; by destruct (_ && _)).
  assert (messages s2 = messages start) as Hmsg
    by (unfold s2; by destruct (_ && _)).
  unfold mbind at 1, M_bind at 1, bind at 1.
  destruct (generate_response_down s2 w4') as (s3 & w5 & Hg & Hm & Hcase).
  rewrite Hg.
  pose proof (untouched_save_to_db s3 w5) as He6.
  destruct (save_to_db_returns s3 w5) as (w6 & Hs). rewrite Hs in He6 |- *.
  simpl in He6.
  unfold mbind, M_bind, bind, lift, read_dict, ret, final_content.
  rewrite Hm, last_snoc. cbn [content assistant].
  eexists _, _. split; [reflexivity|]. split; [reflexivity|].
  change (w_errors w4') with (w_errors w3) in Hcase. rewrite He3 in Hcase.
  rewrite He6. unfold success_outcome.
  destruct (should_use_fallback_ctx (w_errors w)).
  - destruct Hcase as [Hes Hew]. split; [|by rewrite Hew].
    exists (user_message a).
    change (Some (opt_field (error s3)) = Some (FText (user_message a))).
    by rewrite Hes, Herr.
  - destruct Hcase as [[text Hes] Hew]. split; [|exact Hew].
    exists text. change (Some (opt_field (error s3)) = Some (FText text)).
    by rewrite Hes.
Qed.

(** X10. An outage of the language model.  While every request to the
    language model fails (and the knowledge base answers), the agent
    answers every non-blank message with the general canned text, in a
    normal dictionary whose error field is set; it never raises.  Each
    such turn adds one to the streak of consecutive errors until the
    streak is three: from the third turn of a new agent on, the agent is
    in fallback mode. *)
Theorem outage_trips_fallback (turns : list turn) (w : world) :
  Forall (λ t, is_blank (t_message t) = false) turns →
  consecutive_errors (w_errors w) ≤ 3 →
  let rs := (serve turns w).1 in
  let w' := (serve turns w).2 in
  length rs = length turns
  ∧ Forall (λ r, ∃ o, r = Ok o
                   ∧ o !! "response"%string = Some (FText fallback_general)
                   ∧ ∃ text, o !! "error"%string = Some (FText text)) rs
  ∧ consecutive_errors (w_errors w')
    = Z.min 3 (consecutive_errors (w_errors w) + Z.of_nat (length turns))
  ∧ (3 ≤ consecutive_errors (w_errors w) + Z.of_nat (length turns) →
     should_use_fallback_ctx (w_errors w') = true).
Proof.
  intros Hturns Hc. cbv zeta.
  assert (length (serve turns w).1 = length turns
          ∧ Forall (λ r, ∃ o, r = Ok o
                   ∧ o !! "response"%string = Some (FText fallback_general)
                   ∧ ∃ text, o !! "error"%string = Some (FText text))
               (serve turns w).1
          ∧ consecutive_errors (w_errors (serve turns w).2)
            = Z.min 3 (consecutive_errors (w_errors w) + Z.of_nat (length turns)))
    as (Hlen & Hall & Hstreak).
  { revert w Hc. induction Hturns as [|t rest Ht Hrest IH]; intros w Hc.
    { simpl. split; [done|]. split; [constructor|lia]. }
    cbn [serve].
    destruct (turn_down (t_message t) (t_history t) (t_session_id t) w Ht)
      as (o & w1 & Hrun & Hresp & Herr & Hctx).
    rewrite Hrun. specialize (IH w1).
    destruct (serve rest w1) as [rs w2]. simpl in IH |- *.
    unfold should_use_fallback_ctx in Hctx.
    destruct (3 <=? consecutive_errors (w_errors w)) eqn:Hf.
    - apply Z.leb_le in Hf. rewrite Hctx in IH.
      destruct (IH Hc) as (IH1 & IH2 & IH3).
      split; [by rewrite IH1|]. split; [constructor; [by exists o|done]|]. lia.
    - apply Z.leb_gt in Hf. destruct Hctx as [now Hctx]. rewrite Hctx in IH.
      cbn [record_error_at consecutive_errors] in IH.
      destruct IH as (IH1 & IH2 & IH3); [lia|].
      split; [by rewrite IH1|]. split; [constructor; [by exists o|done]|]. lia. }
  split; [done|]. split; [done|]. split; [done|].
  intros H3. unfold should_use_fallback_ctx. apply Z.leb_le. lia.
Qed.

End Outage.

(** The outage at work: a new agent whose language model is down serves
    three messages; each gets the canned text, and the agent ends in
    fallback mode. *)
Lemma outage_trips_fallback_example :
  Forall (λ r, ∃ o, r = Ok o
                 ∧ o !! "response"%string = Some (FText fallback_general)
                 ∧ ∃ text, o !! "error"%string = Some (FText text))
    (@serve env_down three_turns (@fresh_world env_down tt)).1
  ∧ consecutive_errors
      (w_errors (@serve env_down three_turns (@fresh_world env_down tt)).2) = 3
  ∧ should_use_fallback_ctx
      (w_errors (@serve env_down three_turns (@fresh_world env_down tt)).2)
    = true.
Proof.
  assert (∀ n, ∃ c msg, @llm_script env_down n = Raise (Exc c msg)) as Hdown
    by (intros n; exists OtherException, []; by destruct n).
  assert (∀ q, ∃ k, @get_relevant_knowledge env_down q = Ok k) as Hknow
    by (intros q; by exists []).
  assert (Forall (λ t, is_blank (t_message t) = false) three_turns) as Hturns
    by (repeat constructor).
  destruct (@outage_trips_fallback env_down Hdown Hknow three_turns
              (@fresh_world env_down tt) Hturns)
    as (_ & Hall & Hstreak & Hfb); [simpl; lia|].
  split; [exact Hall|]. split; [exact Hstreak|]. apply Hfb. simpl. lia.
Defined.

(** ** The chat endpoint *)

Section Endpoint.
Context {E : env}.

Lemma lstrip_length s : (length (lstrip s) ≤ length s)%nat.
Proof.
  induction s as [|c r IH]; simpl; [lia|].
  destruct (is_space c); simpl; lia.
Qed.

Lemma strip_length s : (length (strip s) ≤ length s)%nat.
Proof.
  unfold strip, rstrip. rewrite length_rev.
  etransitivity; [apply lstrip_length|]. rewrite length_rev.
  apply lstrip_length.
Qed.

(** What is left of a text after stripping is blank only if it is empty. *)
Lemma strip_not_blank s : strip s ≠ [] → is_blank (strip s) = false.
Proof.
  intros Hne. destruct (is_blank (strip s)) eqn:Hb; [|done].
  exfalso. apply is_blank_spec in Hb.
  unfold strip, rstrip in Hb, Hne.
  destruct (lstrip (rev (lstrip s))) as [|a t] eqn:Hl; [done|].
  apply lstrip_head in Hl. rewrite forallb_forall in Hb.
  rewrite (Hb a) in Hl; [discriminate|].
  rewrite <- in_rev. apply in_eq.
Qed.

(** A message that passed validation is neither blank nor too long. *)
Lemma validate_message_ok v message :
  validate_message v = Some message →
  message = strip v ∧ is_blank message = false
  ∧ truncate_message message = message.
Proof.
  unfold validate_message.
  destruct (_ && _) eqn:Hlen; [|discriminate].
  destruct (is_blank v) eqn:Hb; [discriminate|]. intros [= <-].
  apply andb_true_iff in Hlen as [_ Hmax]. apply Nat.leb_le in Hmax.
  split; [done|]. split.
  - apply strip_not_blank. intros Hs. unfold is_blank in Hb.
    destruct v; [discriminate|]. by rewrite Hs in Hb.
  - unfold truncate_message. pose proof (strip_length v).
    destruct (2000 <? length (strip v))%nat eqn:Hlt; [|done].
    apply Nat.ltb_lt in Hlt. lia.
Qed.

(** X4. The endpoint and the agent together.  For every request body that
    passes validation, the agent's own guards are not reached (the
    message is neither blank nor truncated), the agent returns, none of
    the endpoint's [except] clauses is entered, and the reply carries the
    fields of the agent's dictionary: its response and session id, its
    extracted data and status, which are never null, and its error. *)
Theorem chat_endpoint_contract (v message : pystr)
    (history : list chat_message) (session_id : option pystr) (w : world) :
  validate_message v = Some message →
  is_blank message = false
  ∧ truncate_message message = message
  ∧ ∃ o w' r data status,
      process_message message history session_id w = (Ok o, w')
      ∧ post_chat v history session_id w = (Ok (Some r), w')
      ∧ o !! "response"%string = Some (FText (resp_response r))
      ∧ o !! "session_id"%string = Some (FText (resp_session_id r))
      ∧ resp_extracted_data r = Some data
      ∧ o !! "extracted_data"%string = Some (FSlots data)
      ∧ resp_lead_status r = Some status
      ∧ o !! "lead_status"%string = Some (FText status)
      ∧ o !! "error"%string = Some (opt_field (resp_error r)).
Proof.
  intros Hv. destruct (validate_message_ok _ _ Hv) as (_ & Hb & Ht).
  split; [exact Hb|]. split; [exact Ht|].
  unfold post_chat. rewrite Hv.
  unfold chat, try_except. cbn [req_message req_history req_session_id].
  unfold mbind at 1, M_bind at 1, bind at 1.
  unfold mbind at 1, M_bind at 1, bind at 1.
  destruct (process_message_shape message history session_id w)
    as (o & w' & Hrun & Hshape). cbv zeta in Hshape.
  rewrite Hrun.
  destruct Hshape as [[Hb' _]|[(start & w1 & final & w2 & text & _ & _ & _ & _ & ->)
                               |(start & w1 & e & w2 & data & _ & _ & ->)]].
  - congruence.
  - set (sid := match session_id with
                 | Some (c :: s) => c :: s
                 | _ => prefix 8 (uuid4_str (w_uuids w))
                 end).
    set (data := dict_at w2 (extracted_data final)).
    exists (success_outcome sid text data final), w',
      {| resp_response := text; resp_session_id := sid;
         resp_extracted_data := Some data;
         resp_lead_status := Some (current_stage final);
         resp_error := error final |}, data, (current_stage final).
    split; [reflexivity|]. unfold success_outcome.
    destruct (error final) as [err|];
      (split; [vm_compute; reflexivity|]); (split; [vm_compute; reflexivity|]);
      (split; [vm_compute; reflexivity|]); (split; [reflexivity|]);
      (split; [vm_compute; reflexivity|]); (split; [reflexivity|]);
      split; vm_compute; reflexivity.
  - set (sid := match session_id with
                 | Some (c :: s) => c :: s
                 | _ => prefix 8 (uuid4_str (w_uuids w))
                 end).
    exists (failure_outcome e sid data), w',
      {| resp_response := match e with
                          | AIError a => user_message a
                          | Exc _ _ => fallback_general
                          end;
         resp_session_id := sid;
         resp_extracted_data := Some data;
         resp_lead_status := Some (u "error");
         resp_error := Some match e with
                            | AIError a => user_message a
                            | Exc _ _ => exn_str e
                            end |}, data, (u "error").
    destruct e as [c msg|a];
      (split; [reflexivity|]); (split; [vm_compute; reflexivity|]);
      (split; [vm_compute; reflexivity|]); (split; [vm_compute; reflexivity|]);
      (split; [reflexivity|]); (split; [vm_compute; reflexivity|]);
      (split; [reflexivity|]); split; vm_compute; reflexivity.
Qed.

End Endpoint.

(** A request of one word, with spaces around it, passes validation and
    is answered by the agent under the caller's session id. *)
Lemma chat_endpoint_contract_example :
  validate_message (u " Toyota ") = Some (u "Toyota")
  ∧ ∃ r w', @post_chat env_healthy (u " Toyota ") [] (Some (u "abc"))
              (@fresh_world env_healthy tt) = (Ok (Some r), w')
            ∧ resp_session_id r = u "abc"
            ∧ resp_lead_status r = Some discovery.
Proof.
  assert (validate_message (u " Toyota ") = Some (u "Toyota")) as Hv
    by (vm_compute; reflexivity).
  split; [exact Hv|].
  destruct (@chat_endpoint_contract env_healthy (u " Toyota ") (u "Toyota") []
              (Some (u "abc")) (@fresh_world env_healthy tt) Hv)
    as (_ & _ & o & w' & r & data & status & Hrun & Hpost & _ & Hsid & _ & _
        & Hstatus & Hst & _).
  assert (∃ o0, (@process_message env_healthy (u "Toyota") [] (Some (u "abc"))
                   (@fresh_world env_healthy tt)).1 = Ok o0
                ∧ o0 !! "session_id"%string = Some (FText (u "abc"))
                ∧ o0 !! "lead_status"%string = Some (FText discovery))
    as (o0 & Ho & Hsid0 & Hst0)
    by (eexists; split; [vm_compute; reflexivity|];
        split; vm_compute; reflexivity).
  rewrite Hrun in Ho. simpl in Ho. injection Ho as <-.
  exists r, w'. split; [exact Hpost|]. split.
  - rewrite Hsid in Hsid0. by injection Hsid0.
  - rewrite Hstatus. rewrite Hst in Hst0. f_equal. by injection Hst0.
Defined.

(** ** The generator's contract *)

Section GeneratorContract.
Context {E : env}.

(** X8. What the generator does, on every path.  When it returns it has
    appended exactly one message of the assistant and has left the session
    id, the slots, the stage and the tier alone; and either the agent was
    in fallback mode and nothing at all was touched, or the request to the
    language model succeeded (one request, or two around tool calls), the
    streak of consecutive errors is back at zero and the error field is as
    it was, or the request failed, the error field is set, and both the
    streak and the total of errors went up by one.  It raises only when
    the knowledge lookup raises, before it has touched anything. *)
Theorem generator_contract (state : ConversationState) (w : world) :
  match _generate_response state w with
  | (Ok s, w') =>
      (∃ text, messages s = messages state ++ [assistant text])
      ∧ session_id s = session_id state
      ∧ extracted_data s = extracted_data state
      ∧ current_stage s = current_stage state
      ∧ lead_qualification s = lead_qualification state
      ∧ ((should_use_fallback_ctx (w_errors w) = true
          ∧ w' = w ∧ error s = error state
          ∧ messages s = messages state ++ [assistant fallback_general])
         ∨ (should_use_fallback_ctx (w_errors w) = false
            ∧ error s = error state
            ∧ consecutive_errors (w_errors w') = 0
            ∧ error_count (w_errors w') = error_count (w_errors w)
            ∧ (w_llm_calls w + 1 ≤ w_llm_calls w' ≤ w_llm_calls w + 2)%nat)
         ∨ (should_use_fallback_ctx (w_errors w) = false
            ∧ (∃ text, error s = Some text)
            ∧ consecutive_errors (w_errors w')
              = consecutive_errors (w_errors w) + 1
            ∧ error_count (w_errors w') = error_count (w_errors w) + 1
            ∧ (w_llm_calls w + 1 ≤ w_llm_calls w' ≤ w_llm_calls w + 2)%nat))
  | (Raise e, w') =>
      w' = w
      ∧ should_use_fallback_ctx (w_errors w) = false
      ∧ get_relevant_knowledge (last_content (messages state)) = Raise e
  end.
Proof.
  unfold _generate_response, should_use_fallback, try_except, record_error,
    record_success, llm_ainvoke, mbind, M_bind, bind, lift, ret.
  destruct (should_use_fallback_ctx (w_errors w)) eqn:Hf.
  { split; [by eexists|]. repeat (split; [reflexivity|]). left. done. }
  destruct (get_relevant_knowledge _) as [knowledge|x]; [|done].
  destruct (llm_script (w_llm_calls w)) as [r|[c msg|a]].
  - destruct (r_tool_calls r) as [|tc calls].
    { split; [by eexists|]. repeat (split; [reflexivity|]). right. left.
      repeat (split; [reflexivity|]). simpl. lia. }
    pose proof (spends_execute_tool_calls (tc :: calls)
                  (with_llm_calls (S (w_llm_calls w)) w)) as [Hc (d & Hp & Hs)].
    pose proof (untouched_execute_tool_calls (tc :: calls)
                  (with_llm_calls (S (w_llm_calls w)) w)) as He.
    destruct (execute_tool_calls _ _) as [[rs|x] w1]; simpl in Hc, He.
    + destruct (llm_script (w_llm_calls w1)) as [r2|[c msg|a]].
      * split; [by eexists|]. repeat (split; [reflexivity|]). right. left.
        repeat (split; [reflexivity|]). simpl. rewrite He. split; [done|lia].
      * split; [by eexists|]. repeat (split; [reflexivity|]). right. right.
        split; [done|]. split; [by eexists|]. simpl. rewrite He. simpl.
        repeat (split; [reflexivity|]). lia.
      * split; [by eexists|]. repeat (split; [reflexivity|]). right. right.
        split; [done|]. split; [by eexists|]. simpl. rewrite He. simpl.
        repeat (split; [reflexivity|]). lia.
    + destruct x; (split; [by eexists|]); repeat (split; [reflexivity|]);
        right; right; (split; [done|]); (split; [by eexists|]); simpl;
        rewrite He; simpl; repeat (split; [reflexivity|]); lia.
  - split; [by eexists|]. repeat (split; [reflexivity|]). right. right.
    split; [done|]. split; [by eexists|]. simpl.
    repeat (split; [reflexivity|]). lia.
  - split; [by eexists|]. repeat (split; [reflexivity|]). right. right.
    split; [done|]. split; [by eexists|]. simpl.
    repeat (split; [reflexivity|]). lia.
Qed.

End GeneratorContract.

(** ** The sign of a parsed budget *)

Section BudgetSign.

Lemma round_aux_not_negative m e l :
  not_negative (binary_round_aux Float.prec Float.emax false m e l).
Proof.
  unfold binary_round_aux.
  destruct (shr_fexp _ _ _ _ _) as [mrs' e'].
  destruct (shr_fexp _ _ _ _ _) as [mrs'' e''].
  destruct (shr_m mrs''); simpl; [done| |done].
  by destruct (_ <=? _).
Qed.

Lemma of_decimal_not_negative m k : 0 ≤ m → not_negative (Float.of_decimal m k).
Proof.
  intros Hm. unfold Float.of_decimal, SFdiv.
  assert (0 < 10 ^ Z.of_nat k) as Hp by (apply Z.pow_pos_nonneg; lia).
  destruct (10 ^ Z.of_nat k) as [|p|p]; [lia| |lia].
  destruct m as [|q|q]; [done| |lia]. cbn [Float.raw xorb].
  destruct (SFdiv_core_binary _ _ _ _ _ _) as [[mz ez] lz].
  apply round_aux_not_negative.
Qed.

Lemma scan_not_negative s m frac nd m' k n :
  0 ≤ m → Float.scan s m frac nd = Some (m', k, n) → 0 ≤ m'.
Proof.
  revert m frac nd. induction s as [|c r IH]; intros m frac nd Hm; simpl.
  { by intros [= <- _ _]. }
  destruct (is_digit c).
  { apply IH. unfold digit_value. lia. }
  destruct (c =? 46)%N; [|discriminate].
  destruct frac; [discriminate|]. by apply IH.
Qed.

Lemma of_str_not_negative s x : Float.of_str s = Ok x → not_negative x.
Proof.
  unfold Float.of_str.
  destruct (Float.scan s 0 None 0) as [[[m k] [|n]]|] eqn:Hs; try discriminate.
  intros [= <-]. apply of_decimal_not_negative.
  by apply (scan_not_negative _ _ _ _ _ _ _ (Z.le_refl 0) Hs).
Qed.

Lemma mul_not_negative x m e :
  not_negative x → not_negative (Float.mul x (S754_finite false m e)).
Proof.
  unfold Float.mul, SFmul. destruct x as [s|s| |s mx ex]; simpl; try done.
  - intros ->. done.
  - intros ->. apply round_aux_not_negative.
Qed.

Lemma mul_int_not_negative x z y :
  0 < z → not_negative x → Float.mul_int x z = Ok y → not_negative y.
Proof.
  intros Hz Hx. unfold Float.mul_int, Float.of_int, binary_normalize.
  destruct z as [|p|p]; [lia| |lia]. unfold binary_round.
  destruct (shl_align _ _ _) as [mz ez].
  pose proof (round_aux_not_negative (Z.pos mz) ez loc_Exact) as Hr.
  destruct (binary_round_aux _ _ _ _ _ _) as [s|s| |s m e]; simpl in *.
  - intros [= <-]. unfold Float.mul, SFmul.
    by destruct x as [sx|sx| |sx mx ex].
  - discriminate.
  - intros [= <-]. unfold Float.mul, SFmul. by destruct x.
  - subst s. intros [= <-]. by apply mul_not_negative.
Qed.

Lemma trunc_not_negative x z : not_negative x → Float.trunc x = Ok z → 0 ≤ z.
Proof.
  destruct x as [s|s| |s m e]; simpl; try discriminate.
  - by intros _ [= <-].
  - intros -> [= <-]. destruct (0 <=? e) eqn:He.
    + apply Z.mul_nonneg_nonneg; [lia|]. apply Z.pow_nonneg. lia.
    + apply Z.leb_gt in He. apply Z.div_pos; [lia|].
      apply Z.pow_pos_nonneg; lia.
Qed.

(** X14. A budget read from a text of Basic Latin and Cyrillic
    characters is never negative: the pattern has no sign, so a minus
    before the number is dropped, and the multipliers are positive.  (A
    number handed over as [int] or [float] keeps its sign.) *)
Theorem parse_budget_text_not_negative (s : pystr) (z : Z) :
  forallb latin_or_cyrillic s = true →
  _parse_budget (VStr s) = Ok (Some z) → 0 ≤ z.
Proof.
  intros _. unfold _parse_budget. cbv zeta.
  destruct (findall_numbers _ _) as [|n0 rest]; [discriminate|].
  destruct (Float.of_str n0) as [num|e] eqn:Hnum; [|discriminate].
  apply of_str_not_negative in Hnum. cbn [mbind result_bind rbind].
  assert (∀ k, 0 < k →
            (x ← Float.mul_int num k; z0 ← Float.trunc x; Ok (Some z0))
            = Ok (Some z) → 0 ≤ z) as Hmul.
  { intros k Hk. destruct (Float.mul_int num k) as [x|e] eqn:Hx; [|discriminate].
    apply (mul_int_not_negative _ _ _ Hk Hnum) in Hx.
    cbn [mbind result_bind rbind].
    destruct (Float.trunc x) as [z0|e] eqn:Hz; [|discriminate].
    intros [= <-]. by apply (trunc_not_negative x). }
  destruct (_ || _); [by apply Hmul|].
  destruct (_ || _); [by apply Hmul|].
  destruct (Float.lt_int num 100); [by apply Hmul|].
  destruct (Float.trunc num) as [z0|e] eqn:Hz; [|discriminate].
  intros [= <-]. by apply (trunc_not_negative num).
Qed.

End BudgetSign.

(** A budget written with a minus sign: the sign is lost. *)
Lemma parse_budget_text_not_negative_example :
  forallb latin_or_cyrillic (u "-5 млн") = true
  ∧ _parse_budget (VStr (u "-5 млн")) = Ok (Some 5000000) ∧ 0 ≤ 5000000.
Proof.
  assert (forallb latin_or_cyrillic (u "-5 млн") = true) as Ha
    by (vm_compute; reflexivity).
  assert (_parse_budget (VStr (u "-5 млн")) = Ok (Some 5000000)) as H
    by (vm_compute; reflexivity).
  split; [exact Ha|]. split; [exact H|].
  exact (parse_budget_text_not_negative (u "-5 млн") 5000000 Ha H).
Defined.

(** ** Texts without a number *)

Section NoNumber.

Lemma lower_char_no_numeral c :
  no_numeral_char c = true →
  in_number_class (lower_char c) = false ∧ lower_char c ≠ 44%N.
Proof.
  unfold no_numeral_char, in_number_class, is_digit, lower_char.
  destruct ((65 <=? c) && (c <=? 90))%N eqn:H1;
    [|destruct ((1040 <=? c) && (c <=? 1071))%N eqn:H2;
      [|destruct ((1024 <=? c) && (c <=? 1039))%N eqn:H3]];
    rewrite ?andb_true_iff, ?andb_false_iff, ?orb_true_iff, ?orb_false_iff,
      ?negb_true_iff, ?andb_false_iff, ?N.leb_le, ?N.leb_gt, ?N.eqb_eq,
      ?N.eqb_neq, ?N.ltb_lt in *; lia.
Qed.

Lemma findall_numbers_none s :
  Forall (λ c, in_number_class c = false) s → findall_numbers s [] = [].
Proof.
  induction 1 as [|c r Hc Hr IH]; simpl; [done|]. by rewrite Hc.
Qed.

Lemma replace_char_class old new s :
  Forall (λ c, in_number_class c = false ∧ c ≠ old) s →
  Forall (λ c, in_number_class c = false) (replace_char old new s).
Proof.
  induction 1 as [|c r [Hc Hne] Hr IH]; simpl; [constructor|].
  apply N.eqb_neq in Hne. rewrite Hne. by constructor.
Qed.

Lemma replace_char_drop old s (P : N → Prop) :
  Forall P s → Forall P (replace_char old [] s).
Proof.
  induction 1 as [|c r Hc Hr IH]; simpl; [constructor|].
  destruct (c =? old)%N; [done|by constructor].
Qed.

(** X15. A text of letters, spaces and punctuation, without a digit, a point
    or a comma, holds no budget: the result is [None], and nothing is
    raised. *)
Theorem parse_budget_no_number (s : pystr) :
  forallb no_numeral_char s = true → _parse_budget (VStr s) = Ok None.
Proof.
  intros Hs. unfold _parse_budget. cbv zeta.
  rewrite findall_numbers_none; [done|].
  apply replace_char_class, replace_char_drop. unfold lower.
  rewrite Forall_map. rewrite forallb_forall in Hs.
  apply Forall_forall. intros c Hc.
  apply lower_char_no_numeral, Hs. by apply list_elem_of_In.
Qed.

End NoNumber.

(** The text of the test for invalid values, and a sentence. *)
Lemma parse_budget_no_number_example :
  _parse_budget (VStr (u "много")) = Ok None
  ∧ _parse_budget (VStr (u "Пока не знаю - подумаю")) = Ok None.
Proof.
  split; apply parse_budget_no_number; vm_compute; reflexivity.
Defined.
